(** * Steam games dashboard: the rule-based chatbot and the AI bridge

    A shallow embedding of [simple_chatbot] and [ai_chatbot] as they appear in
    [app.py] and [chatbot.py], together with the pandas and Python operations
    they call, and the properties of the request classification and of the
    aggregates that the specification states.

    Conventions of the embedding.
    - A Python [str] is a list of Unicode code points ([pystr]).
    - The price column is a float64 column when every cell of it is a
      number or empty: prices are binary64 floats ([PrimFloat.float]) and a
      missing cell is NaN.  A cell that is not a number makes the column a
      column of text.  The genres, developer and release_year cells are
      [option]s, [None] standing for a missing cell (pandas' NaN in an object
      or integer-valued column).
    - What pandas and numpy leave to their version and to the machine is a
      parameter: the order in which [sort_values] leaves equal counts.
    - A Python exception is a value [Raise e] of [pyresult]; the result of a
      call into the hosted model is chosen by an oracle and every call is
      logged. *)

From Stdlib Require Import List ZArith NArith Lia Bool Ascii String.
From Stdlib Require Import Permutation Sorted DecimalPos DecimalN QArith.
From Stdlib Require Import Uint63 Floats.
Import ListNotations.
Close Scope Q_scope.

Set Implicit Arguments.

(* ================================================================= *)
(** ** Python values: strings, exceptions, formatting *)

Module Py.

(** A [str]: its sequence of code points. *)
Definition pystr : Type := list N.

Definition pystr_eq_dec : forall a b : pystr, {a = b} + {a <> b} :=
  list_eq_dec N.eq_dec.

(** An ASCII literal of the source, as code points. *)
Definition lit (s : string) : pystr := map N_of_ascii (list_ascii_of_string s).

(** The non-ASCII characters that the two source files use in literals. *)
Definition WARNING_SIGN : N := 9888.       (* U+26A0 *)
Definition CROSS_MARK : N := 10060.        (* U+274C *)
Definition VIDEO_GAME : N := 127918.       (* U+1F3AE *)
Definition TROPHY : N := 127942.           (* U+1F3C6 *)
Definition OFFICE_BUILDING : N := 127970.  (* U+1F3E2 *)
Definition HEAVY_DOLLAR_SIGN : N := 128178.  (* U+1F4B2 *)
Definition BAR_CHART : N := 128202.        (* U+1F4CA *)
Definition NEWLINE : N := 10.

(** *** [str.lower]

    CPython lowers a string code point by code point.  On ASCII the mapping
    is [A-Z] to [a-z]; elsewhere it is read from the Unicode character
    database and may depend on the neighbours of the character (final
    sigma) and yield several code points.  The database is not part of the
    repository: it is the parameter [ucd], given the code points before
    the character (nearest first), the character, and those after it. *)
Definition ucd_lower : Type := list N -> N -> list N -> list N.

Definition ascii_lower (c : N) : N :=
  if ((65 <=? c) && (c <=? 90))%N then (c + 32)%N else c.

Fixpoint lower_from (ucd : ucd_lower) (before s : pystr) : pystr :=
  match s with
  | [] => []
  | c :: rest =>
      (if (c <? 128)%N then [ascii_lower c] else ucd before c rest)
        ++ lower_from ucd (c :: before) rest
  end.

Definition lower (ucd : ucd_lower) (s : pystr) : pystr := lower_from ucd [] s.

(** A database that maps every non-ASCII code point to itself. *)
Definition ucd_identity : ucd_lower := fun _ c _ => [c].

(** *** [needle in haystack] on strings *)
Fixpoint startswith (p s : pystr) : bool :=
  match p, s with
  | [], _ => true
  | _ :: _, [] => false
  | a :: p', b :: s' => (a =? b)%N && startswith p' s'
  end.

Fixpoint contains (p s : pystr) : bool :=
  startswith p s ||
  match s with
  | [] => false
  | _ :: s' => contains p s'
  end.

(** *** Exceptions *)
Inductive exn : Type :=
| ValueError (msg : pystr)
| TypeError (msg : pystr)
| AttributeError (msg : pystr)
| Exception (msg : pystr).

(** [str(e)] *)
Definition exn_str (e : exn) : pystr :=
  match e with
  | ValueError m | TypeError m | AttributeError m | Exception m => m
  end.

Inductive pyresult (A : Type) : Type :=
| Return (a : A)
| Raise (e : exn).
Arguments Return {A} a.
Arguments Raise {A} e.

Definition bind {A B} (m : pyresult A) (k : A -> pyresult B) : pyresult B :=
  match m with
  | Return a => k a
  | Raise e => Raise e
  end.

(** *** Formatting integers: [f"{n}"] *)
Fixpoint uint_codes (d : Decimal.uint) : pystr :=
  match d with
  | Decimal.Nil => []
  | Decimal.D0 d => 48%N :: uint_codes d
  | Decimal.D1 d => 49%N :: uint_codes d
  | Decimal.D2 d => 50%N :: uint_codes d
  | Decimal.D3 d => 51%N :: uint_codes d
  | Decimal.D4 d => 52%N :: uint_codes d
  | Decimal.D5 d => 53%N :: uint_codes d
  | Decimal.D6 d => 54%N :: uint_codes d
  | Decimal.D7 d => 55%N :: uint_codes d
  | Decimal.D8 d => 56%N :: uint_codes d
  | Decimal.D9 d => 57%N :: uint_codes d
  end.

Definition str_N (n : N) : pystr := uint_codes (N.to_uint n).
Definition str_nat (n : nat) : pystr := str_N (N.of_nat n).

Definition is_digit (c : N) : bool := ((48 <=? c) && (c <=? 57))%N.

(** *** Formatting floats: [f"{x:.2f}"]

    The conversion is correctly rounded: the exact value [m * 2^e] of the
    float is rounded to the nearest multiple of 1/100, ties to even, and
    the sign is the sign bit of the float.  [hundredths m e] is that
    multiple, counted in hundredths. *)
Definition round_half_even (num den : N) : N :=
  let q := (num / den)%N in
  let r := (num mod den)%N in
  match (2 * r ?= den)%N with
  | Lt => q
  | Gt => (q + 1)%N
  | Eq => if N.even q then q else (q + 1)%N
  end.

Definition hundredths (m : positive) (e : Z) : N :=
  match e with
  | Zneg k => round_half_even (Npos m * 100) (2 ^ Npos k)
  | _ => (Npos m * 100 * 2 ^ Z.to_N e)%N
  end.

Definition fixed2 (h : N) : pystr :=
  str_N (h / 100) ++ lit "." ++ [(48 + (h mod 100) / 10)%N; (48 + h mod 10)%N].

Definition sign_str (s : bool) : pystr := if s then lit "-" else [].

Definition format_2f (x : float) : pystr :=
  match Prim2SF x with
  | S754_nan => lit "nan"
  | S754_infinity s => sign_str s ++ lit "inf"
  | S754_zero s => sign_str s ++ lit "0.00"
  | S754_finite s m e => sign_str s ++ fixed2 (hundredths m e)
  end.

(** The float is a number: neither NaN nor an infinity. *)
Definition is_finite (x : float) : bool :=
  match Prim2SF x with
  | S754_zero _ | S754_finite _ _ _ => true
  | _ => false
  end.

(** The shape of a number printed with two decimal places: an optional
    sign, at least one digit, a point and exactly two digits. *)
Definition two_decimals (s : pystr) : Prop :=
  exists (sign whole : pystr) (d1 d2 : N),
    s = sign ++ whole ++ lit "." ++ [d1; d2]
    /\ (sign = [] \/ sign = lit "-")
    /\ whole <> []
    /\ Forall (fun c => is_digit c = true) (whole ++ [d1; d2]).

End Py.

Notation "x <- m ;; k" := (Py.bind m (fun x => k))
  (at level 61, m at next level, right associativity).

(* ================================================================= *)
(** ** The pandas operations that the chatbot calls *)

Module Pandas.
Import Py.

(** One row of the CSV.  [price] is the price cell as a number, NaN for an
    empty cell.  [price_text] is [Some s] when the cell holds the text [s]
    that is not a number; [read_csv] then reads the whole price column as
    text.  [others] are the cells of the columns that the chatbot never
    reads; they matter only to [DataFrame.to_string]. *)
Record GameRecord : Type := {
  price : float;
  price_text : option pystr;
  genres : option pystr;
  developer : option pystr;
  release_year : option Z;
  others : list pystr
}.

Definition DataFrame : Type := list GameRecord.

(** [len(df)] *)
Definition len (df : DataFrame) : nat := List.length df.

(** [df[c]] *)
Definition column {A} (c : GameRecord -> A) (df : DataFrame) : list A := map c df.

(** [df.head(n)] for a non-negative [n] *)
Definition head (n : nat) (df : DataFrame) : DataFrame := firstn n df.

(** What [simple_chatbot] returns: a string, or the frame that
    [.to_frame("games")] builds, indexed by release year. *)
Inductive answer : Type :=
| Text (s : pystr)
| Frame (games : list (Z * nat)).

(** *** [ndarray.sum()]: numpy's pairwise summation

    Fewer than 8 cells are added one after the other.  Up to 128 cells are
    added into 8 accumulators, a block of 8 at a time; the accumulators are
    then added pairwise and the cells left over, fewer than 8, are added one
    after the other.  A longer array is cut in two, the first part a whole
    number of blocks, and the sums of the parts are added.  The operation is
    a parameter so that the same algorithm runs on floats and on the
    expressions it builds. *)
Section Pairwise.
Variable T : Type.
Variable add : T -> T -> T.
Variable negzero : T.

Fixpoint add_lanes (r xs : list T) : list T :=
  match r, xs with
  | a :: r', x :: xs' => add a x :: add_lanes r' xs'
  | _, _ => r
  end.

(** The unrolled loop: the accumulators, and the cells left over. *)
Fixpoint accumulate (fuel : nat) (r xs : list T) : list T * list T :=
  match fuel with
  | O => (r, xs)
  | S fuel' =>
      if 8 <=? List.length xs
      then accumulate fuel' (add_lanes r (firstn 8 xs)) (skipn 8 xs)
      else (r, xs)
  end.

Definition add_pairs (r : list T) : T :=
  match r with
  | [r0; r1; r2; r3; r4; r5; r6; r7] =>
      add (add (add r0 r1) (add r2 r3)) (add (add r4 r5) (add r6 r7))
  | _ => negzero
  end.

Fixpoint pairwise_sum (fuel : nat) (a : list T) : T :=
  let n := List.length a in
  if n <? 8 then fold_left add a negzero
  else if n <=? 128 then
    let (r, rest) := accumulate n (firstn 8 a) (skipn 8 a) in
    fold_left add rest (add_pairs r)
  else match fuel with
       | O => fold_left add a negzero
       | S fuel' =>
           let n2 := n / 2 - (n / 2) mod 8 in
           add (pairwise_sum fuel' (firstn n2 a)) (pairwise_sum fuel' (skipn n2 a))
       end.
End Pairwise.

(** The reduction starts from the identity of the addition; the short loop
    starts from -0.0.  The length of the array is fuel enough. *)
Definition np_sum (xs : list float) : float :=
  (0 + pairwise_sum PrimFloat.add (-0)%float (List.length xs) xs)%float.

(** A sum written out: the cells that are added, and the additions in the
    order in which they are made. *)
Inductive summation : Type :=
| Cell (x : float)
| Plus (l r : summation).

Fixpoint result (t : summation) : float :=
  match t with
  | Cell x => x
  | Plus l r => (result l + result r)%float
  end.

Fixpoint cells (t : summation) : list float :=
  match t with
  | Cell x => [x]
  | Plus l r => cells l ++ cells r
  end.

(** The sum that [np_sum] computes, written out. *)
Definition np_sum_written (xs : list float) : summation :=
  Plus (Cell 0%float)
       (pairwise_sum Plus (Cell (-0)%float) (List.length xs) (map Cell xs)).

(** *** [Series.mean()] on a float64 column

    NaN cells are skipped: they are replaced by 0 in the sum and left out
    of the count; with no cell left the mean is NaN.  This is pandas' own
    [nanmean], the one in use when the optional bottleneck package is not
    installed. *)
Definition notna (x : float) : bool := negb (is_nan x).
Definition fillna0 (x : float) : float := if is_nan x then 0%float else x.
Definition float_of_nat (n : nat) : float := of_uint63 (Uint63.of_Z (Z.of_nat n)).

Definition mean (col : list float) : float :=
  let count := List.length (filter notna col) in
  let the_sum := np_sum (map fillna0 col) in
  match count with
  | O => nan
  | S _ => (the_sum / float_of_nat count)%float
  end.

(** *** [df['price'].mean()]

    The mean of a price column that was read as text raises TypeError.  The
    text of the error is the one of pandas 2 on a column in which every cell
    is a text. *)
Definition price_is_numeric (df : DataFrame) : bool :=
  forallb (fun row => match price_text row with
                      | Some _ => false
                      | None => true
                      end) df.

Definition price_mean (df : DataFrame) : pyresult float :=
  if price_is_numeric df then Return (mean (column price df))
  else Raise (TypeError (lit "Could not convert string '"
                           ++ flat_map (fun row => match price_text row with
                                                   | Some s => s
                                                   | None => []
                                                   end) df
                           ++ lit "' to numeric")).

(** *** Stable insertion sort, the order being given by [leb] *)
Section Sort.
Variable A : Type.
Variable leb : A -> A -> bool.

Fixpoint insert (x : A) (l : list A) : list A :=
  match l with
  | [] => [x]
  | y :: r => if leb x y then x :: y :: r else y :: insert x r
  end.

Definition isort (l : list A) : list A := fold_right insert [] l.
End Sort.

(** *** [Series.value_counts()], [Series.idxmax()], [groupby(...).size()] *)
Section Counting.
Variable K : Type.
Variable K_eq_dec : forall a b : K, {a = b} + {a <> b}.

(** The hash table pass: one entry per distinct value, in order of first
    appearance, missing cells dropped. *)
Fixpoint bump (k : K) (acc : list (K * nat)) : list (K * nat) :=
  match acc with
  | [] => [(k, 1)]
  | (k', c) :: r =>
      if K_eq_dec k k' then (k', S c) :: r else (k', c) :: bump k r
  end.

Definition count_cell (acc : list (K * nat)) (cell : option K) : list (K * nat) :=
  match cell with
  | Some k => bump k acc
  | None => acc
  end.

Definition value_count (col : list (option K)) : list (K * nat) :=
  fold_left count_cell col [].

(** [sort_values(ascending=False)] on the counts.  pandas sorts them with
    numpy's quicksort, which is not stable: the order in which it leaves
    equal counts depends on the version of numpy and on the machine.  The
    sort is the parameter [sort_values]; [sorts_descending] is what every
    such sort does. *)
Definition value_counts (sort_values : list (K * nat) -> list (K * nat))
    (col : list (option K)) : list (K * nat) :=
  sort_values (value_count col).

Definition sorts_descending (sort_values : list (K * nat) -> list (K * nat)) : Prop :=
  forall counts,
    Permutation (sort_values counts) counts
    /\ StronglySorted (fun x y => snd y <= snd x) (sort_values counts).

(** A stable sort, and one that turns equal counts around. *)
Definition count_desc (x y : K * nat) : bool := snd y <=? snd x.
Definition count_desc_strict (x y : K * nat) : bool := snd y <? snd x.

(** [idxmax]: the label of the first entry that carries the maximum;
    ValueError on an empty series. *)
Fixpoint argmax_from (best : K * nat) (s : list (K * nat)) : K :=
  match s with
  | [] => fst best
  | y :: r => if snd best <? snd y then argmax_from y r else argmax_from best r
  end.

Definition idxmax (s : list (K * nat)) : pyresult K :=
  match s with
  | [] => Raise (ValueError (lit "attempt to get argmax of an empty sequence"))
  | x :: r => Return (argmax_from x r)
  end.

(** How often [k] occurs in a column. *)
Definition holds (k : K) (cell : option K) : bool :=
  match cell with
  | Some k' => if K_eq_dec k k' then true else false
  | None => false
  end.

Definition occurrences (k : K) (col : list (option K)) : nat :=
  List.length (filter (holds k) col).
End Counting.

(** [df.groupby(key).size()]: one group per distinct key, rows with a
    missing key dropped, groups sorted by key. *)
Definition key_asc (x y : Z * nat) : bool := (fst x <=? fst y)%Z.

Definition groupby_size (keys : list (option Z)) : list (Z * nat) :=
  isort key_asc (value_count Z.eq_dec keys).

(** [Series.count()]: the cells that are not missing. *)
Definition notnull {A} (cell : option A) : bool :=
  match cell with
  | Some _ => true
  | None => false
  end.

Definition count {A} (col : list (option A)) : nat := List.length (filter notnull col).

(** [frame["games"].sum()] *)
Definition games_sum (games : list (Z * nat)) : nat := list_sum (map snd games).

(** The sort of the counts of a column of strings. *)
Definition sorter : Type := list (pystr * nat) -> list (pystr * nat).

End Pandas.

(* ================================================================= *)
(** ** The client of the hosted model *)

Module Genai.
Import Py.

(** [genai.GenerativeModel(name)] *)
Record GenerativeModel : Type := { model_name : pystr }.

(** A computation that may call [model.generate_content(prompt).text];
    the call returns the text or raises. *)
Inductive io (A : Type) : Type :=
| Done (a : A)
| GenerateContent (m : GenerativeModel) (prompt : pystr) (k : pyresult pystr -> io A).
Arguments Done {A} a.
Arguments GenerateContent {A} m prompt k.

(** Running a computation against a test double of the service: the
    result, and the prompts that were sent, in order. *)
Fixpoint run {A} (service : GenerativeModel -> pystr -> pyresult pystr)
    (p : io A) : A * list pystr :=
  match p with
  | Done a => (a, [])
  | GenerateContent m prompt k =>
      let (a, sent) := run service (k (service m prompt)) in
      (a, prompt :: sent)
  end.

(** The module globals [USE_AI] and [model]. *)
Record globals : Type := { USE_AI : bool; model : option GenerativeModel }.

Definition disabled : globals := {| USE_AI := false; model := None |}.
End Genai.

(* ================================================================= *)
(** ** app.py *)

Module App.
Import Py Pandas Genai.

(** The start-up block that sets [USE_AI] and [model] from the environment
    variable [GEMINI_API_KEY].  [connect key name] stands for
    [genai.configure(api_key=key)] followed by [genai.GenerativeModel(name)]. *)
Definition load_gemini (connect : pystr -> pystr -> pyresult GenerativeModel)
    (GEMINI_API_KEY : option pystr) : globals :=
  match GEMINI_API_KEY with
  | Some ((_ :: _) as key) =>
      match connect key (lit "models/gemini-2.5-flash-lite") with
      | Return m => {| USE_AI := true; model := Some m |}
      | Raise _ => {| USE_AI := false; model := None |}
      end
  | _ => {| USE_AI := false; model := None |}
  end.

Definition simple_chatbot (ucd : ucd_lower) (sort_values : sorter)
    (df : DataFrame) (q : pystr) : pyresult answer :=
  let q := lower ucd q in
  if contains (lit "total games") q then
    Return (Text (VIDEO_GAME :: lit " Total Games: " ++ str_nat (len df)))
  else if contains (lit "average price") q then
    (m <- price_mean df ;;
     Return (Text (HEAVY_DOLLAR_SIGN :: lit " Average Price: $" ++ format_2f m)))
  else if contains (lit "top genre") q then
    (g <- idxmax (value_counts pystr_eq_dec sort_values (column genres df)) ;;
     Return (Text (TROPHY :: lit " Top Genre: " ++ g)))
  else if contains (lit "top developer") q then
    (d <- idxmax (value_counts pystr_eq_dec sort_values (column developer df)) ;;
     Return (Text (OFFICE_BUILDING :: lit " Top Developer: " ++ d)))
  else if contains (lit "games per year") q then
    Return (Frame (groupby_size (column release_year df)))
  else if contains (lit "summary") q || contains (lit "insight") q then
    (m <- price_mean df ;;
     g <- idxmax (value_counts pystr_eq_dec sort_values (column genres df)) ;;
     d <- idxmax (value_counts pystr_eq_dec sort_values (column developer df)) ;;
     Return (Text (BAR_CHART :: lit " Steam Dataset Summary:" ++ [NEWLINE]
                     ++ lit "- Total Games: " ++ str_nat (len df) ++ [NEWLINE]
                     ++ lit "- Average Price: $" ++ format_2f m ++ [NEWLINE]
                     ++ lit "- Top Genre: " ++ g ++ [NEWLINE]
                     ++ lit "- Top Developer: " ++ d)))
  else
    Return (Text (CROSS_MARK
                    :: lit " Try: total games, average price, top genre, top developer")).

(** [to_string] stands for pandas' [DataFrame.to_string]. *)
Definition ai_chatbot (to_string : DataFrame -> pystr) (g : globals)
    (df : DataFrame) (question : pystr) : io pystr :=
  if negb (USE_AI g) then
    Done (WARNING_SIGN :: lit " AI is not enabled or API key is invalid.")
  else
    let prompt :=
      [NEWLINE]
        ++ lit "You are a data analyst." ++ [NEWLINE]
        ++ lit "Answer ONLY using the Steam dataset below." ++ [NEWLINE]
        ++ [NEWLINE]
        ++ lit "DATA SAMPLE:" ++ [NEWLINE]
        ++ to_string (head 40 df) ++ [NEWLINE]
        ++ [NEWLINE]
        ++ lit "QUESTION:" ++ [NEWLINE]
        ++ question ++ [NEWLINE]
        ++ [NEWLINE]
        ++ lit "Give a clear and concise answer." ++ [NEWLINE] in
    match model g with
    | Some m =>
        GenerateContent m prompt (fun response =>
          match response with
          | Return text => Done text
          | Raise e => Done (CROSS_MARK :: lit " Gemini API error: " ++ exn_str e)
          end)
    | None =>
        Done (CROSS_MARK :: lit " Gemini API error: "
                ++ lit "'NoneType' object has no attribute 'generate_content'")
    end.

End App.

(* ================================================================= *)
(** ** chatbot.py *)

Module Chatbot.
Import Py Pandas Genai.

Definition load_gemini (connect : pystr -> pystr -> pyresult GenerativeModel)
    (GEMINI_API_KEY : option pystr) : globals :=
  match GEMINI_API_KEY with
  | Some ((_ :: _) as key) =>
      match connect key (lit "models/gemini-2.5-flash-lite") with
      | Return m => {| USE_AI := true; model := Some m |}
      | Raise _ => {| USE_AI := false; model := None |}
      end
  | _ => {| USE_AI := false; model := None |}
  end.

Definition simple_chatbot (ucd : ucd_lower) (sort_values : sorter)
    (df : DataFrame) (q : pystr) : pyresult answer :=
  let q := lower ucd q in

  if contains (lit "total games") q then
    Return (Text (VIDEO_GAME :: lit " Total Games: " ++ str_nat (len df)))

  else if contains (lit "average price") q then
    (m <- price_mean df ;;
     Return (Text (HEAVY_DOLLAR_SIGN :: lit " Average Price: $" ++ format_2f m)))

  else if contains (lit "top genre") q then
    (g <- idxmax (value_counts pystr_eq_dec sort_values (column genres df)) ;;
     Return (Text (TROPHY :: lit " Top Genre: " ++ g)))

  else if contains (lit "top developer") q then
    (d <- idxmax (value_counts pystr_eq_dec sort_values (column developer df)) ;;
     Return (Text (OFFICE_BUILDING :: lit " Top Developer: " ++ d)))

  else if contains (lit "games per year") q then
    Return (Frame (groupby_size (column release_year df)))

  else if contains (lit "summary") q || contains (lit "insight") q then
    (m <- price_mean df ;;
     g <- idxmax (value_counts pystr_eq_dec sort_values (column genres df)) ;;
     d <- idxmax (value_counts pystr_eq_dec sort_values (column developer df)) ;;
     Return (Text (BAR_CHART :: lit " Steam Dataset Summary:" ++ [NEWLINE]
                     ++ lit "- Total Games: " ++ str_nat (len df) ++ [NEWLINE]
                     ++ lit "- Average Price: $" ++ format_2f m ++ [NEWLINE]
                     ++ lit "- Top Genre: " ++ g ++ [NEWLINE]
                     ++ lit "- Top Developer: " ++ d)))

  else
    Return (Text (CROSS_MARK
                    :: lit " Try: total games, average price, top genre, top developer")).

Definition ai_chatbot (to_string : DataFrame -> pystr) (g : globals)
    (df : DataFrame) (question : pystr) : io pystr :=
  if negb (USE_AI g) then
    Done (WARNING_SIGN :: lit " AI is not enabled or API key is invalid.")

  else
    let prompt :=
      [NEWLINE]
        ++ lit "You are a data analyst." ++ [NEWLINE]
        ++ lit "Answer ONLY using the Steam dataset below." ++ [NEWLINE]
        ++ [NEWLINE]
        ++ lit "DATA SAMPLE:" ++ [NEWLINE]
        ++ to_string (head 40 df) ++ [NEWLINE]
        ++ [NEWLINE]
        ++ lit "QUESTION:" ++ [NEWLINE]
        ++ question ++ [NEWLINE]
        ++ [NEWLINE]
        ++ lit "Give a clear and concise answer." ++ [NEWLINE] in
    match model g with
    | Some m =>
        GenerateContent m prompt (fun response =>
          match response with
          | Return text => Done text
          | Raise e => Done (CROSS_MARK :: lit " Gemini API error: " ++ exn_str e)
          end)
    | None =>
        Done (CROSS_MARK :: lit " Gemini API error: "
                ++ lit "'NoneType' object has no attribute 'generate_content'")
    end.

End Chatbot.

(* ================================================================= *)
(** ** The specification's view: classify, then aggregate and format *)

Module Spec.
Import Py Pandas.

Inductive Intent : Type :=
| TotalGames | AveragePrice | TopGenre | TopDeveloper | GamesPerYear
| Summary | Unrecognized.

(** The ordered phrase table of the Intent Classifier, priority 1 first. *)
Definition rules : list (list pystr * Intent) :=
  [ ([lit "total games"], TotalGames);
    ([lit "average price"], AveragePrice);
    ([lit "top genre"], TopGenre);
    ([lit "top developer"], TopDeveloper);
    ([lit "games per year"], GamesPerYear);
    ([lit "summary"; lit "insight"], Summary) ].

Definition fires (q : pystr) (rule : list pystr * Intent) : bool :=
  existsb (fun phrase => contains phrase q) (fst rule).

(** The query is lowercased, then the first rule with a phrase in it
    decides. *)
Definition classify (ucd : ucd_lower) (query : pystr) : Intent :=
  match find (fires (lower ucd query)) rules with
  | Some rule => snd rule
  | None => Unrecognized
  end.

(** The exact value of a float that is a number, in lowest terms, and the
    arithmetic mean of a column as the specification words it: the sum of the
    cells over their number, taken in exact arithmetic.  There is none when
    a cell is not a number or the column is empty. *)
Definition value (x : float) : option Q :=
  match Prim2SF x with
  | S754_zero _ => Some 0%Q
  | S754_finite s m e =>
      let magnitude :=
        match e with
        | Zneg k => Qmake (Zpos m) (2 ^ k)%positive
        | _ => inject_Z (Zpos m * 2 ^ e)%Z
        end in
      Some (Qred (if s then Qopp magnitude else magnitude))
  | _ => None
  end.

Fixpoint total (col : list float) : option Q :=
  match col with
  | [] => Some 0%Q
  | x :: rest =>
      match value x, total rest with
      | Some v, Some t => Some (Qplus v t)
      | _, _ => None
      end
  end.

Definition arithmetic_mean (col : list float) : option Q :=
  match col, total col with
  | _ :: _, Some t => Some (Qred (Qdiv t (inject_Z (Z.of_nat (List.length col)))))
  | _, _ => None
  end.

(** The help text of the Unrecognized intent. *)
Definition help_message : pystr :=
  CROSS_MARK :: lit " Try: total games, average price, top genre, top developer".

(** What the chatbot answers for an intent: the aggregate of the intent,
    under the label of the intent. *)
Definition respond (sort_values : sorter) (df : DataFrame) (i : Intent)
    : pyresult answer :=
  match i with
  | TotalGames =>
      Return (Text (VIDEO_GAME :: lit " Total Games: " ++ str_nat (len df)))
  | AveragePrice =>
      m <- price_mean df ;;
      Return (Text (HEAVY_DOLLAR_SIGN :: lit " Average Price: $" ++ format_2f m))
  | TopGenre =>
      g <- idxmax (value_counts pystr_eq_dec sort_values (column genres df)) ;;
      Return (Text (TROPHY :: lit " Top Genre: " ++ g))
  | TopDeveloper =>
      d <- idxmax (value_counts pystr_eq_dec sort_values (column developer df)) ;;
      Return (Text (OFFICE_BUILDING :: lit " Top Developer: " ++ d))
  | GamesPerYear =>
      Return (Frame (groupby_size (column release_year df)))
  | Summary =>
      m <- price_mean df ;;
      g <- idxmax (value_counts pystr_eq_dec sort_values (column genres df)) ;;
      d <- idxmax (value_counts pystr_eq_dec sort_values (column developer df)) ;;
      Return (Text (BAR_CHART :: lit " Steam Dataset Summary:" ++ [NEWLINE]
                      ++ lit "- Total Games: " ++ str_nat (len df) ++ [NEWLINE]
                      ++ lit "- Average Price: $" ++ format_2f m ++ [NEWLINE]
                      ++ lit "- Top Genre: " ++ g ++ [NEWLINE]
                      ++ lit "- Top Developer: " ++ d))
  | Unrecognized => Return (Text help_message)
  end.

(** The intents that a message names: a rule is listed when one of its
    phrases occurs in the message. *)
Definition listed (message : pystr) : list Intent :=
  map snd (filter (fires message) rules).

(** The message of the disabled AI bridge. *)
Definition disabled_message : pystr :=
  WARNING_SIGN :: lit " AI is not enabled or API key is invalid.".

(** The bounded sample of the AI bridge: the first 40 rows, or all rows if
    there are fewer. *)
Definition sample (df : DataFrame) : DataFrame :=
  if List.length df <=? 40 then df else firstn 40 df.

(** The prompt around a rendered sample and a question. *)
Definition prompt (rendered question : pystr) : pystr :=
  [NEWLINE]
    ++ lit "You are a data analyst." ++ [NEWLINE]
    ++ lit "Answer ONLY using the Steam dataset below." ++ [NEWLINE]
    ++ [NEWLINE]
    ++ lit "DATA SAMPLE:" ++ [NEWLINE]
    ++ rendered ++ [NEWLINE]
    ++ [NEWLINE]
    ++ lit "QUESTION:" ++ [NEWLINE]
    ++ question ++ [NEWLINE]
    ++ [NEWLINE]
    ++ lit "Give a clear and concise answer." ++ [NEWLINE].

End Spec.

(* ================================================================= *)
(** ** Sample data *)

Module Sample.
Import Py Pandas.

Definition game (p : float) (g d : pystr) (y : Z) : GameRecord :=
  {| price := p; price_text := None; genres := Some g; developer := Some d;
     release_year := Some y; others := [] |}.

(** A row whose genres, developer and release_year cells are empty in the
    CSV. *)
Definition blank (p : float) : GameRecord :=
  {| price := p; price_text := None; genres := None; developer := None;
     release_year := None; others := [] |}.

Definition three_games : DataFrame :=
  [ game 10 (lit "Action") (lit "Valve") 2021;
    game 20 (lit "RPG") (lit "Valve") 2021;
    game 30 (lit "Action") (lit "Capcom") 2022 ].

Definition tied_genres : DataFrame :=
  [ game 5 (lit "RPG") (lit "A") 2023;
    game 5 (lit "Action") (lit "B") 2021;
    game 5 (lit "Action") (lit "C") 2022;
    game 5 (lit "RPG") (lit "D") 2021 ].

(** Two games at 0.01 and 0.02, and two at the largest price that a float
    holds. *)
Definition two_cents : DataFrame :=
  [ game 0x1.47ae147ae147bp-7 (lit "RPG") (lit "A") 2023;
    game 0x1.47ae147ae147bp-6 (lit "RPG") (lit "A") 2023 ].

Definition two_fortunes : DataFrame :=
  [ game 0x1.fffffffffffffp+1023 (lit "RPG") (lit "A") 2023;
    game 0x1.fffffffffffffp+1023 (lit "RPG") (lit "A") 2023 ].

(** Ten prices, 1.69 to 5.82, whose mean is 9.155. *)
Definition ten_prices : list float :=
  [ 0x1.b0a3d70a3d70ap+0; 0x1.b1eb851eb851fp+1; 0x1.23851eb851eb8p+4;
    0x1.10a3d70a3d70ap+2; 0x1.e5c28f5c28f5cp+3; 0x1.8p+3;
    0x1.0d1eb851eb852p+4; 0x1.d70a3d70a3d71p+2; 0x1.b3d70a3d70a3dp+2;
    0x1.747ae147ae148p+2 ]%float.

(** A row of a dataset whose price column holds a text. *)
Definition priced_as_text (s g : pystr) : GameRecord :=
  {| price := nan; price_text := Some s; genres := Some g; developer := None;
     release_year := None; others := [] |}.

(** A stable sort of the counts, and one that turns equal counts around. *)
Definition stable_sort : sorter := isort (@count_desc pystr).
Definition turning_sort : sorter := isort (@count_desc_strict pystr).

Definition to_string_rows (df : DataFrame) : pystr :=
  flat_map (fun r => format_2f (price r) ++ [NEWLINE]) df.

Definition flash_lite : Genai.GenerativeModel :=
  {| Genai.model_name := lit "models/gemini-2.5-flash-lite" |}.

Definition connected : Genai.globals :=
  {| Genai.USE_AI := true; Genai.model := Some flash_lite |}.

(** A test double of the hosted model: it answers every prompt alike. *)
Definition canned (m : Genai.GenerativeModel) (prompt : pystr) : pyresult pystr :=
  Return (lit "ok").
End Sample.

(* ================================================================= *)
(** ** Streamlit: what a run of a script shows and sends

    A script runs from top to bottom.  Each [st.*] call adds an element to
    the page, in the main area, in the sidebar or in a column; an input
    widget also returns the value the user gave it, which is a parameter of
    the run.  An exception that the script does not catch ends the run: what
    was shown before it stays.  A run is recorded as the sequence of its
    elements and of the prompts it sent to the hosted model.  Arguments that
    only size an element ([use_container_width]) are left out. *)

Module Streamlit.
Import Py Pandas Genai.

Definition WHITE_HEAVY_CHECK_MARK : N := 9989.   (* U+2705 *)
Definition ELECTRIC_LIGHT_BULB : N := 128161.    (* U+1F4A1 *)
Definition CLIPBOARD : N := 128203.              (* U+1F4CB *)
Definition PUSHPIN : N := 128204.                (* U+1F4CC *)
Definition LEFT_MAGNIFYING_GLASS : N := 128269.  (* U+1F50D *)
Definition ROBOT_FACE : N := 129302.             (* U+1F916 *)

Inductive place : Type :=
| Main
| Sidebar
| Column (i : nat).

(** A metric shows its value as text; the frame of [st.dataframe] is either
    rows of the dataset or the games-per-year table. *)
Inductive element : Type :=
| st_set_page_config (page_title : pystr) (page_icon : option pystr) (layout : pystr)
| st_title (body : pystr)
| st_header (body : pystr)
| st_markdown (body : pystr)
| st_text (body : pystr)
| st_success (body : pystr)
| st_info (body : pystr)
| st_warning (body : pystr)
| st_metric (label value : pystr)
| st_radio (label : pystr) (options : list pystr)
| st_checkbox (label : pystr) (value : bool)
| st_text_input (label placeholder : pystr)
| st_dataframe (data : DataFrame)
| st_dataframe_games (data : list (Z * nat))
| st_plotly_chart_bar (title x y : pystr) (data : list (Z * nat)).

Inductive event : Type :=
| Show (where_ : place) (e : element)
| Sent (prompt : pystr).

(** A run: its events, and its result or the exception that ended it. *)
Definition ui (A : Type) : Type := list event * pyresult A.

Definition ret {A} (a : A) : ui A := ([], Return a).

Definition ui_bind {A B} (m : ui A) (k : A -> ui B) : ui B :=
  match m with
  | (t, Return a) => let (t', r) := k a in (t ++ t', r)
  | (t, Raise e) => (t, Raise e)
  end.

Definition emit (where_ : place) (e : element) : ui unit := ([Show where_ e], Return tt).

(** A Python expression evaluated inside the script. *)
Definition eval {A} (r : pyresult A) : ui A := ([], r).

(** A computation that may call the hosted model, run against [service]. *)
Definition perform {A} (service : GenerativeModel -> pystr -> pyresult pystr)
    (p : io A) : ui A :=
  let (a, sent) := run service p in (map Sent sent, Return a).

(** The prompts that a run sent. *)
Definition prompts (t : list event) : list pystr :=
  flat_map (fun ev => match ev with Sent p => [p] | Show _ _ => [] end) t.

(** The elements that carry an answer or data of the dataset; every one of
    them is shown outside the sidebar. *)
Definition is_output (e : element) : bool :=
  match e with
  | st_success _ | st_info _ | st_metric _ _ | st_dataframe _
  | st_dataframe_games _ | st_plotly_chart_bar _ _ _ _ => true
  | _ => false
  end.

Definition outputs (t : list event) : list element :=
  flat_map (fun ev => match ev with
                      | Show Sidebar _ | Sent _ => []
                      | Show _ e => if is_output e then [e] else []
                      end) t.

End Streamlit.

Declare Scope ui_scope.
Delimit Scope ui_scope with ui.
Notation "x <- m ;; k" := (Streamlit.ui_bind m (fun x => k))
  (at level 61, m at next level, right associativity) : ui_scope.
Notation "m ;; k" := (Streamlit.ui_bind m (fun _ => k))
  (at level 61, right associativity) : ui_scope.

(* ================================================================= *)
(** ** app.py, the script *)

Module AppScript.
Import Py Pandas Genai Streamlit.

(** [load_data]: [read_csv] stands for [pd.read_csv]. *)
Definition load_data (read_csv : pystr -> pyresult DataFrame) : pyresult DataFrame :=
  read_csv (lit "data/a_steam_data_2021_2025.csv").

(** LOAD GEMINI AI: the block that [App.load_gemini] summarises, with what
    it shows in the sidebar. *)
Definition load_gemini_ai (connect : pystr -> pystr -> pyresult GenerativeModel)
    (GEMINI_API_KEY : option pystr) : ui globals :=
  (match GEMINI_API_KEY with
   | Some ((_ :: _) as key) =>
       match connect key (lit "models/gemini-2.5-flash-lite") with
       | Return m =>
           emit Sidebar (st_success (WHITE_HEAVY_CHECK_MARK :: lit " Gemini AI Connected")) ;;
           ret {| USE_AI := true; model := Some m |}
       | Raise e =>
           emit Sidebar (st_warning (WARNING_SIGN :: lit " Gemini API error. AI disabled.")) ;;
           emit Sidebar (st_text (exn_str e)) ;;
           ret {| USE_AI := false; model := None |}
       end
   | _ =>
       emit Sidebar (st_warning (WARNING_SIGN
                                   :: lit " GEMINI_API_KEY not found in .env. AI disabled.")) ;;
       ret {| USE_AI := false; model := None |}
   end)%ui.

(** DASHBOARD PAGE *)
Definition dashboard_page (sort_values : sorter) (df : DataFrame) : ui unit :=
  (emit Main (st_header (BAR_CHART :: lit " Steam Games Dashboard")) ;;
   emit (Column 0) (st_metric (VIDEO_GAME :: lit " Total Games") (str_nat (len df))) ;;
   m <- eval (price_mean df) ;;
   emit (Column 1) (st_metric (HEAVY_DOLLAR_SIGN :: lit " Average Price")
                      (lit "$" ++ format_2f m)) ;;
   top <- eval (idxmax (value_counts pystr_eq_dec sort_values (column genres df))) ;;
   emit (Column 2) (st_metric (TROPHY :: lit " Top Genre") top) ;;
   let games_per_year := groupby_size (column release_year df) in
   emit Main (st_plotly_chart_bar (lit "Games Released per Year")
                (lit "release_year") (lit "count") games_per_year))%ui.

(** DATASET PAGE *)
Definition dataset_page (df : DataFrame) : ui unit :=
  (emit Main (st_header (CLIPBOARD :: lit " Steam Dataset")) ;;
   emit Main (st_dataframe (head 50 df)))%ui.

(** CHATBOT PAGE *)
Definition chatbot_page (ucd : ucd_lower) (sort_values : sorter)
    (to_string : DataFrame -> pystr)
    (service : GenerativeModel -> pystr -> pyresult pystr)
    (g : globals) (df : DataFrame) (show_data use_ai : bool) (query : pystr) : ui unit :=
  (emit Main (st_header (ROBOT_FACE :: lit " Steam AI Chatbot")) ;;
   emit Sidebar (st_checkbox (BAR_CHART :: lit " Show Dataset") false) ;;
   emit Sidebar (st_checkbox (ROBOT_FACE :: lit " Enable AI Answer") (USE_AI g)) ;;
   emit Main (st_text_input (lit "Ask something about the Steam games data")
                (lit "e.g. What is the average price of games?")) ;;
   match query with
   | [] => ret tt
   | _ :: _ =>
       emit Main (st_markdown (lit "### " ++ LEFT_MAGNIFYING_GLASS :: lit " Result")) ;;
       result <- eval (App.simple_chatbot ucd sort_values df query) ;;
       match result with
       | Frame games => emit Main (st_dataframe_games games)
       | Text s => emit Main (st_success s)
       end ;;
       if use_ai && USE_AI g then
         emit Main (st_markdown (lit "### " ++ ROBOT_FACE :: lit " AI Explanation (Gemini)")) ;;
         answer <- perform service (App.ai_chatbot to_string g df query) ;;
         emit Main (st_info answer)
       else ret tt
   end ;;
   if show_data then
     emit Main (st_markdown (lit "### " ++ BAR_CHART :: lit " Dataset Preview")) ;;
     emit Main (st_dataframe (head 50 df))
   else ret tt)%ui.

(** The script.  [page] is what the navigation radio returns, [show_data]
    and [use_ai] what the two checkboxes return, [query] the text input. *)
Definition main (ucd : ucd_lower) (sort_values : sorter)
    (to_string : DataFrame -> pystr)
    (read_csv : pystr -> pyresult DataFrame)
    (connect : pystr -> pystr -> pyresult GenerativeModel)
    (service : GenerativeModel -> pystr -> pyresult pystr)
    (GEMINI_API_KEY : option pystr)
    (page : pystr) (show_data use_ai : bool) (query : pystr) : ui unit :=
  (emit Main (st_set_page_config (lit "Steam Games Dashboard") None (lit "wide")) ;;
   emit Main (st_title (VIDEO_GAME :: lit " Steam Games Analytics & Chatbot")) ;;
   df <- eval (load_data read_csv) ;;
   g <- load_gemini_ai connect GEMINI_API_KEY ;;
   emit Sidebar (st_title (PUSHPIN :: lit " Navigation")) ;;
   emit Sidebar (st_radio (lit "Go to:") [lit "Dashboard"; lit "Dataset"; lit "Chatbot"]) ;;
   if pystr_eq_dec page (lit "Dashboard") then dashboard_page sort_values df
   else if pystr_eq_dec page (lit "Dataset") then dataset_page df
   else if pystr_eq_dec page (lit "Chatbot") then
     chatbot_page ucd sort_values to_string service g df show_data use_ai query
   else ret tt)%ui.

End AppScript.

(* ================================================================= *)
(** ** chatbot.py, the script *)

Module ChatbotScript.
Import Py Pandas Genai Streamlit.

(** LOAD ENV + GEMINI *)
Definition load_env_gemini (connect : pystr -> pystr -> pyresult GenerativeModel)
    (GEMINI_API_KEY : option pystr) : ui globals :=
  (match GEMINI_API_KEY with
   | Some ((_ :: _) as key) =>
       match connect key (lit "models/gemini-2.5-flash-lite") with
       | Return m => ret {| USE_AI := true; model := Some m |}
       | Raise e =>
           emit Main (st_warning (WARNING_SIGN :: lit " Gemini API error: " ++ exn_str e)) ;;
           ret {| USE_AI := false; model := None |}
       end
   | _ => ret {| USE_AI := false; model := None |}
   end)%ui.

Definition load_data (read_csv : pystr -> pyresult DataFrame) : pyresult DataFrame :=
  read_csv (lit "data/a_steam_data_2021_2025.csv").

(** SIDEBAR *)
Definition sidebar (g : globals) : ui unit :=
  (emit Sidebar (st_success (if USE_AI g
                             then WHITE_HEAVY_CHECK_MARK :: lit " Gemini AI Connected"
                             else WARNING_SIGN :: lit " AI Disabled")) ;;
   emit Sidebar (st_checkbox (BAR_CHART :: lit " Show Dataset") false) ;;
   emit Sidebar (st_checkbox (ROBOT_FACE :: lit " Enable AI Answer") (USE_AI g)) ;;
   emit Sidebar (st_markdown (lit "---")) ;;
   emit Sidebar (st_markdown (lit "### " ++ ELECTRIC_LIGHT_BULB :: lit " Try asking:")) ;;
   emit Sidebar (st_markdown
                   ([NEWLINE]
                      ++ lit "    - total games  " ++ [NEWLINE]
                      ++ lit "    - average price  " ++ [NEWLINE]
                      ++ lit "    - top genre  " ++ [NEWLINE]
                      ++ lit "    - top developer  " ++ [NEWLINE]
                      ++ lit "    - games per year  " ++ [NEWLINE]
                      ++ lit "    - summary / insights  " ++ [NEWLINE]
                      ++ lit "    ")))%ui.

(** UI *)
Definition user_interface (ucd : ucd_lower) (sort_values : sorter)
    (to_string : DataFrame -> pystr)
    (service : GenerativeModel -> pystr -> pyresult pystr)
    (g : globals) (df : DataFrame) (show_data use_ai : bool) (query : pystr) : ui unit :=
  (emit Main (st_text_input (lit "Ask something about the Steam games data")
                (lit "e.g. What is the average price of games?")) ;;
   match query with
   | [] => ret tt
   | _ :: _ =>
       emit Main (st_markdown (lit "### " ++ LEFT_MAGNIFYING_GLASS :: lit " Result")) ;;

       result <- eval (Chatbot.simple_chatbot ucd sort_values df query) ;;

       match result with
       | Frame games => emit Main (st_dataframe_games games)
       | Text s => emit Main (st_success s)
       end ;;

       if use_ai && USE_AI g then
         emit Main (st_markdown (lit "### " ++ ROBOT_FACE :: lit " AI Explanation (Gemini)")) ;;
         answer <- perform service (Chatbot.ai_chatbot to_string g df query) ;;
         emit Main (st_info answer)
       else ret tt
   end ;;

   if show_data then
     emit Main (st_markdown (lit "### " ++ BAR_CHART :: lit " Dataset Preview")) ;;
     emit Main (st_dataframe (head 50 df))
   else ret tt)%ui.

Definition main (ucd : ucd_lower) (sort_values : sorter)
    (to_string : DataFrame -> pystr)
    (read_csv : pystr -> pyresult DataFrame)
    (connect : pystr -> pystr -> pyresult GenerativeModel)
    (service : GenerativeModel -> pystr -> pyresult pystr)
    (GEMINI_API_KEY : option pystr)
    (show_data use_ai : bool) (query : pystr) : ui unit :=
  (emit Main (st_set_page_config (lit "Steam AI Assistant") (Some [VIDEO_GAME]) (lit "wide")) ;;
   g <- load_env_gemini connect GEMINI_API_KEY ;;
   df <- eval (load_data read_csv) ;;
   emit Main (st_title (VIDEO_GAME :: lit " Steam Games AI Assistant")) ;;
   sidebar g ;;
   user_interface ucd sort_values to_string service g df show_data use_ai query)%ui.

End ChatbotScript.

(* ================================================================= *)
(** ** Facts about strings and formatting *)

Import Py Pandas Genai.

Unset Implicit Arguments.

Lemma startswith_prefix (p s : pystr) :
  startswith p s = true <-> exists rest, s = p ++ rest.
Proof.
  revert s; induction p as [|a p IH]; intros s; simpl.
  - split; [intros _; now exists s | reflexivity].
  - destruct s as [|b s].
    + split; [discriminate | intros [rest H]; discriminate].
    + rewrite andb_true_iff, N.eqb_eq, IH. split.
      * intros [-> [rest ->]]. now exists rest.
      * intros [rest H]. injection H as -> ->. split; [reflexivity | now exists rest].
Qed.

(** [contains p s] decides whether [p] is a substring of [s]. *)
Lemma contains_substring (p s : pystr) :
  contains p s = true <-> exists before after, s = before ++ p ++ after.
Proof.
  induction s as [|c s IH].
  - simpl. rewrite orb_false_r, startswith_prefix. split.
    + intros [rest H]. now exists [], rest.
    + intros [before [after H]]. destruct before as [|x before]; [|discriminate].
      now exists after.
  - cbn [contains]. rewrite orb_true_iff, startswith_prefix, IH. split.
    + intros [[rest H] | [before [after H]]].
      * now exists [], rest.
      * exists (c :: before), after. now rewrite H.
    + intros [[|x before] [after H]].
      * left. now exists after.
      * right. injection H as _ H. now exists before, after.
Qed.

Lemma uint_codes_inj (d d' : Decimal.uint) : uint_codes d = uint_codes d' -> d = d'.
Proof.
  revert d'; induction d; intros d' H; destruct d'; simpl in H;
    try discriminate; try reflexivity;
    injection H as H; f_equal; now apply IHd.
Qed.

(** Two numbers that print alike are equal. *)
Lemma str_nat_inj (n m : nat) : str_nat n = str_nat m -> n = m.
Proof.
  unfold str_nat, str_N. intros H. apply uint_codes_inj in H.
  apply Nat2N.inj. rewrite <- (DecimalN.Unsigned.of_to (N.of_nat n)), H.
  apply DecimalN.Unsigned.of_to.
Qed.

Lemma uint_codes_digits (d : Decimal.uint) : Forall (fun c => is_digit c = true) (uint_codes d).
Proof. induction d; simpl; constructor; auto. Qed.

Lemma str_N_nonempty (n : N) : str_N n <> [].
Proof.
  unfold str_N. destruct n as [|p]; [discriminate|].
  simpl. pose proof (DecimalPos.Unsigned.to_uint_nonnil p) as H.
  destruct (Pos.to_uint p); simpl; [congruence | discriminate ..].
Qed.

Lemma small_digit (n : N) : (n < 10)%N -> is_digit (48 + n) = true.
Proof.
  intros H. unfold is_digit. apply andb_true_iff. split; apply N.leb_le; lia.
Qed.

(** [round_half_even num den] is a nearest integer to [num / den], and the
    even one when two are equally near. *)
Lemma round_half_even_nearest (num den : N) :
  (0 < den)%N ->
  (2 * (round_half_even num den * den) <= 2 * num + den
   /\ 2 * num <= 2 * (round_half_even num den * den) + den)%N.
Proof.
  intros Hd. unfold round_half_even.
  pose proof (N.div_mod num den ltac:(lia)) as E.
  pose proof (N.mod_lt num den ltac:(lia)) as L.
  set (q := (num / den)%N) in *. set (r := (num mod den)%N) in *.
  clearbody q r. subst num.
  destruct (N.compare_spec (2 * r) den) as [C|C|C];
    [destruct (N.even q)| |]; nia.
Qed.

Lemma round_half_even_tie (num den : N) :
  (2 * (num mod den) = den)%N -> N.even (round_half_even num den) = true.
Proof.
  intros C. unfold round_half_even. rewrite C, N.compare_refl.
  destruct (N.even (num / den)) eqn:E; [exact E|].
  rewrite N.add_1_r, N.even_succ. rewrite <- N.negb_even, E. reflexivity.
Qed.

(** A finite float prints with exactly two decimal places. *)
Lemma fixed2_two_decimals (s : bool) (h : N) : two_decimals (sign_str s ++ fixed2 h).
Proof.
  exists (sign_str s), (str_N (h / 100)), (48 + (h mod 100) / 10)%N, (48 + h mod 10)%N.
  split; [reflexivity|]. split; [destruct s; auto|]. split; [apply str_N_nonempty|].
  apply Forall_app. split; [apply uint_codes_digits|].
  repeat constructor; apply small_digit.
  - apply N.Div0.div_lt_upper_bound. apply N.mod_lt. discriminate.
  - apply N.mod_lt. discriminate.
Qed.

Lemma format_2f_two_decimals (x : float) : is_finite x = true -> two_decimals (format_2f x).
Proof.
  unfold is_finite, format_2f. destruct (Prim2SF x) as [s|s| |s m e]; try discriminate; intros _.
  - exists (sign_str s), (lit "0"), 48%N, 48%N.
    split; [reflexivity|]. split; [destruct s; auto|]. split; [discriminate|].
    repeat constructor.
  - apply fixed2_two_decimals.
Qed.

(* ================================================================= *)
(** ** The classifier *)

(** Both sides test the phrases in the same order on the lowercased query:
    decide the tests one after the other. *)
Ltac walk_the_rules ucd q :=
  unfold Spec.classify, Spec.rules;
  cbn [find Spec.fires existsb fst snd];
  generalize (lower ucd q); intros lq;
  rewrite !orb_false_r;
  repeat match goal with
         | |- context [contains ?p lq] => destruct (contains p lq); cbn [orb snd]
         end;
  reflexivity.

(** [simple_chatbot] is the specification's pipeline: its chain of tests
    picks the intent that [Spec.classify] picks, and it answers with the
    aggregate of that intent. *)
Lemma app_simple_chatbot_respond (ucd : ucd_lower) (sort_values : sorter) (df : DataFrame)
    (q : pystr) :
  App.simple_chatbot ucd sort_values df q = Spec.respond sort_values df (Spec.classify ucd q).
Proof. unfold App.simple_chatbot. walk_the_rules ucd q. Qed.

Lemma chatbot_simple_chatbot_respond (ucd : ucd_lower) (sort_values : sorter) (df : DataFrame)
    (q : pystr) :
  Chatbot.simple_chatbot ucd sort_values df q = Spec.respond sort_values df (Spec.classify ucd q).
Proof. unfold Chatbot.simple_chatbot. walk_the_rules ucd q. Qed.

(** The first rule decides whenever its phrase occurs. *)
Lemma classify_total_games (ucd : ucd_lower) (q : pystr) :
  contains (lit "total games") (lower ucd q) = true ->
  Spec.classify ucd q = Spec.TotalGames.
Proof.
  intros H. unfold Spec.classify, Spec.rules.
  cbn [find Spec.fires existsb fst]. now rewrite H.
Qed.

(** No rule fires: the query is unrecognized. *)
Lemma classify_unrecognized (ucd : ucd_lower) (q : pystr) :
  (forall rule, In rule Spec.rules -> Spec.fires (lower ucd q) rule = false) ->
  Spec.classify ucd q = Spec.Unrecognized.
Proof.
  intros H. unfold Spec.classify.
  destruct (find (Spec.fires (lower ucd q)) Spec.rules) as [rule|] eqn:E; [|reflexivity].
  apply find_some in E. destruct E as [Hin Hf]. rewrite (H rule Hin) in Hf. discriminate.
Qed.

(** C1. A query whose lowercased text contains "total games" is classified
    TotalGames by both files, whatever else it contains: the answer is the
    Total Games line with the row count of the dataset, and two datasets get
    the same answer only when they have the same number of rows.  A query that
    also contains "summary" is therefore not answered with the summary. *)
Theorem total_games_rule_wins (ucd : ucd_lower) (sort_values : sorter) (df : DataFrame)
    (q : pystr) :
  contains (lit "total games") (lower ucd q) = true ->
  Spec.classify ucd q = Spec.TotalGames
  /\ App.simple_chatbot ucd sort_values df q
     = Return (Text (VIDEO_GAME :: lit " Total Games: " ++ str_nat (List.length df)))
  /\ Chatbot.simple_chatbot ucd sort_values df q
     = Return (Text (VIDEO_GAME :: lit " Total Games: " ++ str_nat (List.length df)))
  /\ (forall df', App.simple_chatbot ucd sort_values df' q = App.simple_chatbot ucd sort_values df
      q ->
                  List.length df' = List.length df)
  /\ (contains (lit "summary") (lower ucd q) = true ->
      App.simple_chatbot ucd sort_values df q = Spec.respond sort_values df Spec.TotalGames
      /\ App.simple_chatbot ucd sort_values df q <> Spec.respond sort_values df Spec.Summary).
Proof.
  intros H. pose proof (classify_total_games ucd q H) as Hc.
  assert (Ha : forall d, App.simple_chatbot ucd sort_values d q
             = Return (Text (VIDEO_GAME :: lit " Total Games: " ++ str_nat (List.length d)))).
  { intros d. now rewrite app_simple_chatbot_respond, Hc. }
  repeat split.
  - exact Hc.
  - apply Ha.
  - now rewrite chatbot_simple_chatbot_respond, Hc.
  - intros df'. rewrite !Ha. intros E. injection E as E.
    now apply str_nat_inj.
  - now rewrite app_simple_chatbot_respond, Hc.
  - rewrite Ha. cbn [Spec.respond].
    destruct (price_mean df) as [m|e]; cbn [bind]; [|discriminate].
    destruct (idxmax (value_counts pystr_eq_dec sort_values (column genres df))) as [g|e];
      cbn [bind]; [|discriminate].
    destruct (idxmax (value_counts pystr_eq_dec sort_values (column developer df))) as [d|e];
      cbn [bind]; [|discriminate].
    intros E. injection E as E. discriminate E.
Qed.

Lemma total_games_rule_wins_witness :
  contains (lit "total games") (lower ucd_identity (lit "Summary of TOTAL games")) = true
  /\ App.simple_chatbot ucd_identity Sample.stable_sort Sample.three_games
      (lit "Summary of TOTAL games")
     = Return (Text (VIDEO_GAME :: lit " Total Games: 3")).
Proof.
  split; [reflexivity|].
  exact (proj1 (proj2 (total_games_rule_wins ucd_identity Sample.stable_sort Sample.three_games
                         (lit "Summary of TOTAL games") eq_refl))).
Defined.

(** C3, as the code has it.  When no rule fires on the lowercased query, the
    query is Unrecognized and both files answer with one and the same help
    text, whatever the dataset; the empty query and "xyz" are such queries.
    The help text names four of the six recognized intents: total games,
    average price, top genre and top developer. *)
Theorem unrecognized_help (ucd : ucd_lower) (sort_values : sorter) (df : DataFrame) (q : pystr) :
  (forall rule, In rule Spec.rules -> Spec.fires (lower ucd q) rule = false) ->
  Spec.classify ucd q = Spec.Unrecognized
  /\ App.simple_chatbot ucd sort_values df q = Return (Text Spec.help_message)
  /\ Chatbot.simple_chatbot ucd sort_values df q = Return (Text Spec.help_message)
  /\ Spec.classify ucd [] = Spec.Unrecognized
  /\ Spec.classify ucd (lit "xyz") = Spec.Unrecognized
  /\ Spec.listed Spec.help_message
     = [Spec.TotalGames; Spec.AveragePrice; Spec.TopGenre; Spec.TopDeveloper].
Proof.
  intros H. pose proof (classify_unrecognized ucd q H) as Hc.
  repeat split.
  - exact Hc.
  - now rewrite app_simple_chatbot_respond, Hc.
  - now rewrite chatbot_simple_chatbot_respond, Hc.
Qed.

Lemma unrecognized_help_witness :
  (forall rule, In rule Spec.rules ->
                Spec.fires (lower ucd_identity (lit "How many RPGs?")) rule = false)
  /\ App.simple_chatbot ucd_identity Sample.stable_sort Sample.three_games (lit "How many RPGs?")
     = Return (Text Spec.help_message).
Proof.
  assert (H : forall rule, In rule Spec.rules ->
                Spec.fires (lower ucd_identity (lit "How many RPGs?")) rule = false).
  { intros rule Hin. simpl in Hin.
    repeat (destruct Hin as [<- | Hin]; [reflexivity|]). destruct Hin. }
  split; [exact H|].
  exact (proj1 (proj2 (unrecognized_help ucd_identity Sample.stable_sort Sample.three_games
                         (lit "How many RPGs?") H))).
Defined.

(** The help text that "xyz" gets does not name every recognized intent:
    games per year and summary are rules of the classifier that it leaves
    out. *)
Lemma help_omits_intents :
  App.simple_chatbot ucd_identity Sample.stable_sort Sample.three_games (lit "xyz")
  = Return (Text Spec.help_message)
  /\ In ([lit "games per year"], Spec.GamesPerYear) Spec.rules
  /\ Spec.fires Spec.help_message ([lit "games per year"], Spec.GamesPerYear) = false
  /\ In ([lit "summary"; lit "insight"], Spec.Summary) Spec.rules
  /\ Spec.fires Spec.help_message ([lit "summary"; lit "insight"], Spec.Summary) = false.
Proof.
  repeat split; try reflexivity; simpl; auto 10.
Qed.

(** C9. The two files hold the same rule-based chatbot: on every dataset and
    every query they return the same value, which is the answer of the intent
    that the classifier picks. *)
Theorem files_agree (ucd : ucd_lower) (sort_values : sorter) (df : DataFrame) (q : pystr) :
  App.simple_chatbot ucd sort_values df q = Chatbot.simple_chatbot ucd sort_values df q
  /\ Chatbot.simple_chatbot ucd sort_values df q = Spec.respond sort_values df
      (Spec.classify ucd q).
Proof.
  split.
  - now rewrite app_simple_chatbot_respond, chatbot_simple_chatbot_respond.
  - apply chatbot_simple_chatbot_respond.
Qed.

(* ================================================================= *)
(** ** The AI bridge *)

Lemma head_sample (df : DataFrame) : head 40 df = Spec.sample df.
Proof.
  unfold head, Spec.sample. destruct (List.length df <=? 40) eqn:E; [|reflexivity].
  apply firstn_all2. now apply Nat.leb_le.
Qed.

(** A credential that the client rejects leaves the bridge disabled. *)
Lemma rejected_credential_disables
    (connect : pystr -> pystr -> pyresult GenerativeModel) (key : pystr) (e : exn) :
  connect key (lit "models/gemini-2.5-flash-lite") = Raise e ->
  App.load_gemini connect (Some key) = disabled
  /\ Chatbot.load_gemini connect (Some key) = disabled.
Proof.
  intros H. destruct key as [|c key]; [now split|].
  cbv beta iota zeta delta [App.load_gemini Chatbot.load_gemini].
  now rewrite H.
Qed.

(** A credential that the client accepts enables the bridge. *)
Example accepted_credential_enables :
  App.load_gemini (fun key name => Return {| model_name := name |}) (Some (lit "secret"))
  = Sample.connected
  /\ Chatbot.load_gemini (fun key name => Return {| model_name := name |}) (Some (lit "secret"))
     = Sample.connected.
Proof. split; reflexivity. Qed.

(** C4. Without a credential (the variable unset or empty) the start-up
    block of either file leaves the bridge disabled, and so does a rejected
    credential.  A disabled bridge answers every question with the fixed
    message and never reaches the call to the model: against any service no
    prompt is sent. *)
Theorem disabled_ai_never_calls (connect : pystr -> pystr -> pyresult GenerativeModel)
    (to_string : DataFrame -> pystr) (service : GenerativeModel -> pystr -> pyresult pystr)
    (g : globals) (df : DataFrame) (question : pystr) :
  USE_AI g = false ->
  App.load_gemini connect None = disabled
  /\ App.load_gemini connect (Some []) = disabled
  /\ Chatbot.load_gemini connect None = disabled
  /\ Chatbot.load_gemini connect (Some []) = disabled
  /\ App.ai_chatbot to_string g df question = Done Spec.disabled_message
  /\ Chatbot.ai_chatbot to_string g df question = Done Spec.disabled_message
  /\ run service (App.ai_chatbot to_string g df question) = (Spec.disabled_message, [])
  /\ run service (Chatbot.ai_chatbot to_string g df question) = (Spec.disabled_message, []).
Proof.
  intros H. unfold App.ai_chatbot, Chatbot.ai_chatbot. rewrite H. cbn [negb].
  repeat split.
Qed.

Lemma disabled_ai_never_calls_witness :
  USE_AI (App.load_gemini (fun _ _ => Return Sample.flash_lite) None) = false
  /\ run Sample.canned
       (App.ai_chatbot Sample.to_string_rows
          (App.load_gemini (fun _ _ => Return Sample.flash_lite) None)
          Sample.three_games (lit "top genre"))
     = (Spec.disabled_message, []).
Proof.
  split; [reflexivity|].
  exact (proj1 (proj2 (proj2 (proj2 (proj2 (proj2 (proj2
           (disabled_ai_never_calls (fun _ _ => Return Sample.flash_lite)
              Sample.to_string_rows Sample.canned
              (App.load_gemini (fun _ _ => Return Sample.flash_lite) None)
              Sample.three_games (lit "top genre") eq_refl)))))))).
Defined.

(** C8. An enabled bridge sends exactly one prompt, and the data in it is
    the rendering of the sample alone: the first 40 rows of the dataset, or
    all of them if there are fewer.  The sample is a prefix of the dataset of
    at most 40 rows, so two datasets with the same first 40 rows give the
    same prompt. *)
Theorem prompt_holds_first_40_rows (to_string : DataFrame -> pystr)
    (service : GenerativeModel -> pystr -> pyresult pystr)
    (g : globals) (m : GenerativeModel) (df : DataFrame) (question : pystr) :
  USE_AI g = true ->
  model g = Some m ->
  snd (run service (App.ai_chatbot to_string g df question))
  = [Spec.prompt (to_string (Spec.sample df)) question]
  /\ snd (run service (Chatbot.ai_chatbot to_string g df question))
     = [Spec.prompt (to_string (Spec.sample df)) question]
  /\ List.length (Spec.sample df) = Nat.min 40 (List.length df)
  /\ (exists rest, df = Spec.sample df ++ rest)
  /\ (forall df', firstn 40 df' = firstn 40 df ->
        App.ai_chatbot to_string g df' question = App.ai_chatbot to_string g df question).
Proof.
  intros Hu Hm. unfold App.ai_chatbot, Chatbot.ai_chatbot. rewrite Hu, Hm. cbn [negb].
  rewrite head_sample. repeat split.
  - cbn [run]. now destruct (service m _) as [text|e]; cbn [run snd].
  - cbn [run]. now destruct (service m _) as [text|e]; cbn [run snd].
  - rewrite <- head_sample. apply length_firstn.
  - exists (skipn 40 df). rewrite <- head_sample. symmetry. apply firstn_skipn.
  - intros df' E. rewrite <- !head_sample. unfold head. now rewrite E.
Qed.

Lemma prompt_holds_first_40_rows_witness :
  USE_AI Sample.connected = true
  /\ model Sample.connected = Some Sample.flash_lite
  /\ snd (run Sample.canned
            (App.ai_chatbot Sample.to_string_rows Sample.connected
               (Sample.three_games ++ Sample.three_games) (lit "top genre")))
     = [Spec.prompt (Sample.to_string_rows
                       (Spec.sample (Sample.three_games ++ Sample.three_games)))
          (lit "top genre")].
Proof.
  split; [reflexivity|]. split; [reflexivity|].
  exact (proj1 (prompt_holds_first_40_rows Sample.to_string_rows Sample.canned
                  Sample.connected Sample.flash_lite
                  (Sample.three_games ++ Sample.three_games)
                  (lit "top genre") eq_refl eq_refl)).
Defined.

(* ================================================================= *)
(** ** Counting the values of a column *)

Section CountingFacts.
Variable K : Type.
Variable K_eq_dec : forall a b : K, {a = b} + {a <> b}.

Local Abbreviation keys := (map (@fst K nat)).
Local Abbreviation occ := (occurrences K_eq_dec).
Local Abbreviation vcount := (value_count K_eq_dec).

Lemma holds_true (k : K) (cell : option K) : holds K_eq_dec k cell = true <-> cell = Some k.
Proof.
  destruct cell as [k'|]; simpl; [|split; discriminate].
  destruct (K_eq_dec k k') as [->|n]; split; try reflexivity; try discriminate.
  intros E. injection E as ->. now destruct n.
Qed.

Lemma occurrences_app (k : K) (c1 c2 : list (option K)) :
  occ k (c1 ++ c2) = occ k c1 + occ k c2.
Proof. unfold occurrences. now rewrite filter_app, length_app. Qed.

Lemma occurrences_absent (k : K) (col : list (option K)) :
  ~ In (Some k) col -> occ k col = 0.
Proof.
  unfold occurrences. induction col as [|cell col IH]; intros H; [reflexivity|].
  simpl. destruct (holds K_eq_dec k cell) eqn:E.
  - apply holds_true in E. subst. destruct H. now left.
  - apply IH. intros Hin. apply H. now right.
Qed.

Lemma occurrences_present (k : K) (col : list (option K)) :
  In (Some k) col -> 0 < occ k col.
Proof.
  unfold occurrences. induction col as [|cell col IH]; intros H; [destruct H|].
  simpl. destruct (holds K_eq_dec k cell) eqn:E; [simpl; lia|].
  destruct H as [->|H]; [|now apply IH].
  assert (E' : holds K_eq_dec k (Some k) = true) by now apply holds_true.
  congruence.
Qed.

Lemma occurrences_last_same (k : K) (col : list (option K)) :
  occ k (col ++ [Some k]) = S (occ k col).
Proof.
  rewrite occurrences_app. unfold occurrences at 2. simpl.
  destruct (K_eq_dec k k); [simpl; lia | congruence].
Qed.

Lemma occurrences_last_other (k : K) (cell : option K) (col : list (option K)) :
  cell <> Some k -> occ k (col ++ [cell]) = occ k col.
Proof.
  intros H. rewrite occurrences_app. unfold occurrences at 2. simpl.
  destruct (holds K_eq_dec k cell) eqn:E; [|simpl; lia].
  apply holds_true in E. congruence.
Qed.

(** What [bump] does: a new entry at the end, or one more for the entry of
    the key. *)
Lemma bump_cases (k : K) (acc : list (K * nat)) :
  (~ In k (keys acc) /\ bump K_eq_dec k acc = acc ++ [(k, 1)])
  \/ (exists a c b, acc = a ++ (k, c) :: b /\ ~ In k (keys a)
                    /\ bump K_eq_dec k acc = a ++ (k, S c) :: b).
Proof.
  induction acc as [|[k' c'] r IH]; simpl.
  - left. split; [intros []|reflexivity].
  - destruct (K_eq_dec k k') as [->|n].
    + right. exists [], c', r. repeat split. intros [].
    + destruct IH as [[Hn E] | (a & c & b & -> & Hn & E)].
      * left. rewrite E. split; [|reflexivity]. intros [H|H]; [congruence | contradiction].
      * right. exists ((k', c') :: a), c, b. rewrite E. repeat split.
        intros [H|H]; [simpl in H; congruence | contradiction].
Qed.

(** An entry of the bumped table was an entry before, at the same place and
    behind the same keys, unless it is the new entry at the end. *)
Lemma bump_split (k : K) (acc l1 l2 : list (K * nat)) (k0 : K) (c0 : nat) :
  bump K_eq_dec k acc = l1 ++ (k0, c0) :: l2 ->
  (exists l1' c0' l2', acc = l1' ++ (k0, c0') :: l2' /\ keys l1' = keys l1)
  \/ (acc = l1 /\ k0 = k /\ l2 = []).
Proof.
  revert l1. induction acc as [|[k' c'] r IH]; intros l1 E; simpl in E.
  - right. destruct l1 as [|z l1].
    + injection E as -> _ <-. auto.
    + injection E as _ E. now destruct l1.
  - destruct (K_eq_dec k k') as [->|n].
    + left. destruct l1 as [|z l1]; simpl in E.
      * injection E as <- _ <-. now exists [], c', r.
      * injection E as <- ->. now exists ((k', c') :: l1), c0, l2.
    + destruct l1 as [|z l1]; simpl in E.
      * left. injection E as <- <- _. now exists [], c', r.
      * injection E as <- E. destruct (IH l1 E) as [(l1' & c0' & l2' & -> & Hk) | (-> & -> & ->)].
        -- left. exists ((k', c') :: l1'), c0', l2'. simpl. now rewrite Hk.
        -- now right.
Qed.

Lemma value_count_last (col : list (option K)) (cell : option K) :
  vcount (col ++ [cell]) = count_cell K_eq_dec (vcount col) cell.
Proof. unfold value_count. now rewrite fold_left_app. Qed.

Lemma in_keys (k : K) (acc : list (K * nat)) :
  In k (keys acc) <-> exists c, In (k, c) acc.
Proof.
  rewrite in_map_iff. split.
  - intros [[k' c] [E H]]. simpl in E. subst. now exists c.
  - intros [c H]. now exists (k, c).
Qed.

(** The table of the hash pass: distinct keys, each with the number of its
    occurrences, every value of the column among them, in the order in which
    the values first appear in the column. *)
Lemma value_count_table (col : list (option K)) :
  NoDup (keys (vcount col))
  /\ (forall k c, In (k, c) (vcount col) -> c = occ k col /\ In (Some k) col)
  /\ (forall k, In (Some k) col -> In k (keys (vcount col)))
  /\ (forall l1 k c l2, vcount col = l1 ++ (k, c) :: l2 ->
        exists pre post, col = pre ++ Some k :: post
                         /\ forall k', In (Some k') pre -> In k' (keys l1)).
Proof.
  induction col as [|cell col IH] using rev_ind.
  - repeat split; try (intros; contradiction); try constructor.
    intros l1 k c l2 E. now destruct l1.
  - destruct IH as (Hnd & Hcnt & Hcov & Hord). rewrite value_count_last.
    destruct cell as [k|]; cbn [count_cell].
    + destruct (bump_cases k (vcount col)) as [[Hn E] | (a & c & b & Ea & Hn & E)].
      * (* a value seen for the first time *)
        assert (Hk : ~ In (Some k) col) by (intros H; now apply Hn, Hcov).
        repeat split.
        -- rewrite E, map_app. simpl.
           apply NoDup_app; [exact Hnd | repeat constructor; intros [] | ].
           intros x Hx [<-|[]]. contradiction.
        -- rewrite E in H. apply in_app_or in H. destruct H as [H|[H|[]]].
           ++ destruct (Hcnt _ _ H) as [-> Hin].
              symmetry. apply occurrences_last_other. intros Ek. injection Ek as ->.
              contradiction.
           ++ injection H as <- <-. rewrite occurrences_last_same.
              now rewrite occurrences_absent.
        -- rewrite E in H. apply in_app_or in H. apply in_or_app.
           destruct H as [H|[H|[]]]; [left; now apply (Hcnt _ _ H) | right; left].
           now injection H as <- _.
        -- intros k' H. rewrite E, map_app. apply in_or_app.
           apply in_app_or in H. destruct H as [H|[H|[]]]; [left; now apply Hcov|right].
           injection H as <-. now left.
        -- intros l1 k0 c0 l2 El.
           destruct (bump_split _ _ _ _ _ _ El) as [(l1' & c0' & l2' & E' & Hkeys) | (E1 & -> & _)].
           ++ destruct (Hord _ _ _ _ E') as (pre & post & -> & Hpre).
              exists pre, (post ++ [Some k]). rewrite <- app_assoc. split; [reflexivity|].
              intros k' H. rewrite <- Hkeys. now apply Hpre.
           ++ exists col, []. split; [reflexivity|]. intros k' H. rewrite <- E1. now apply Hcov.
      * (* a value seen before *)
        assert (Hkin : In (k, c) (vcount col)) by (rewrite Ea; apply in_elt).
        assert (Hb : ~ In k (keys b)).
        { rewrite Ea, map_app in Hnd. simpl in Hnd. apply NoDup_remove_2 in Hnd.
          intros H. apply Hnd, in_or_app. now right. }
        repeat split.
        -- rewrite E, map_app. simpl. rewrite Ea, map_app in Hnd. exact Hnd.
        -- rewrite E in H. apply in_app_or in H. destruct H as [H|[H|H]].
           ++ assert (Hin : In (k0, c0) (vcount col)) by (rewrite Ea; apply in_or_app; now left).
              destruct (Hcnt _ _ Hin) as [-> _]. symmetry. apply occurrences_last_other.
              intros Ek. injection Ek as ->. apply Hn, in_keys. now exists (occ k0 col).
           ++ injection H as <- <-. rewrite occurrences_last_same. f_equal.
              now apply (Hcnt _ _ Hkin).
           ++ assert (Hin : In (k0, c0) (vcount col))
                by (rewrite Ea; apply in_or_app; right; now right).
              destruct (Hcnt _ _ Hin) as [-> _]. symmetry. apply occurrences_last_other.
              intros Ek. injection Ek as ->. apply Hb, in_keys. now exists (occ k0 col).
        -- apply in_or_app. rewrite E in H. apply in_app_or in H. destruct H as [H|[H|H]].
           ++ left. apply (Hcnt k0 c0). rewrite Ea. apply in_or_app. now left.
           ++ right. left. now injection H as <- _.
           ++ left. apply (Hcnt k0 c0). rewrite Ea. apply in_or_app. right. now right.
        -- intros k' H. rewrite E, map_app. simpl.
           assert (Hk' : In k' (keys (vcount col))).
           { apply in_app_or in H. destruct H as [H|[H|[]]]; [now apply Hcov|].
             injection H as <-. apply in_keys. now exists c. }
           rewrite Ea, map_app in Hk'. exact Hk'.
        -- intros l1 k0 c0 l2 El.
           destruct (bump_split _ _ _ _ _ _ El) as [(l1' & c0' & l2' & E' & Hkeys) | (E1 & -> & _)].
           ++ destruct (Hord _ _ _ _ E') as (pre & post & -> & Hpre).
              exists pre, (post ++ [Some k]). rewrite <- app_assoc. split; [reflexivity|].
              intros k' H. rewrite <- Hkeys. now apply Hpre.
           ++ exists col, []. split; [reflexivity|]. intros k' H. rewrite <- E1. now apply Hcov.
    + (* a missing cell *)
      repeat split.
      * exact Hnd.
      * destruct (Hcnt _ _ H) as [-> _]. symmetry. now apply occurrences_last_other.
      * apply in_or_app. left. now apply (Hcnt _ _ H).
      * intros k H. apply Hcov. apply in_app_or in H. now destruct H as [H|[H|[]]].
      * intros l1 k c l2 El. destruct (Hord _ _ _ _ El) as (pre & post & -> & Hpre).
        exists pre, (post ++ [None]). now rewrite <- app_assoc.
Qed.

End CountingFacts.

(* ================================================================= *)
(** ** Sorting the table of counts *)

Section SortFacts.
Variable A : Type.
Variable leb : A -> A -> bool.

Lemma insert_perm (x : A) (l : list A) : Permutation (insert leb x l) (x :: l).
Proof.
  induction l as [|y r IH]; simpl; [reflexivity|].
  destruct (leb x y); [reflexivity|].
  rewrite IH. apply perm_swap.
Qed.

Lemma isort_perm (l : list A) : Permutation (isort leb l) l.
Proof.
  induction l as [|x l IH]; simpl; [reflexivity|].
  rewrite insert_perm. now constructor.
Qed.

(** [isort] sorts for every transitive order [R] that the test decides: an
    element goes before those that the test accepts and after those that it
    rejects. *)
Variable R : A -> A -> Prop.
Hypothesis leb_true : forall x y, leb x y = true -> R x y.
Hypothesis leb_false : forall x y, leb x y = false -> R y x.
Hypothesis R_trans : forall x y z, R x y -> R y z -> R x z.

Lemma insert_sorted (x : A) (l : list A) :
  StronglySorted R l -> StronglySorted R (insert leb x l).
Proof.
  induction 1 as [|y r Hs IH Hy]; simpl; [repeat constructor|].
  destruct (leb x y) eqn:E.
  - constructor; [now constructor|]. constructor; [now apply leb_true|].
    eapply Forall_impl; [|exact Hy]. intros z Hz.
    apply R_trans with y; [now apply leb_true | exact Hz].
  - constructor; [exact IH|].
    rewrite insert_perm. constructor; [now apply leb_false | exact Hy].
Qed.

Lemma isort_sorted (l : list A) : StronglySorted R (isort leb l).
Proof.
  induction l as [|x l IH]; simpl; [constructor | now apply insert_sorted].
Qed.

End SortFacts.

(** Both sample sorts put the counts in descending order; they differ in the
    order in which they leave equal counts. *)
Lemma stable_sort_descending : sorts_descending Sample.stable_sort.
Proof.
  intros counts. split; [apply isort_perm|].
  apply isort_sorted; unfold count_desc.
  - intros x y H. now apply Nat.leb_le in H.
  - intros x y H. apply Nat.leb_gt in H. lia.
  - intros x y z H1 H2. lia.
Qed.

Lemma turning_sort_descending : sorts_descending Sample.turning_sort.
Proof.
  intros counts. split; [apply isort_perm|].
  apply isort_sorted; unfold count_desc_strict.
  - intros x y H. apply Nat.ltb_lt in H. lia.
  - intros x y H. now apply Nat.ltb_ge in H.
  - intros x y z H1 H2. lia.
Qed.

Lemma strictly_ascending (l : list Z) :
  StronglySorted Z.le l -> NoDup l -> StronglySorted Z.lt l.
Proof.
  induction 1 as [|y r Hs IH Hy]; intros Hnd; [constructor|].
  inversion Hnd as [|? ? Hnin Hnd']; subst. constructor; [now apply IH|].
  rewrite Forall_forall in *. intros z Hz. specialize (Hy z Hz).
  assert (y <> z) by (intros ->; contradiction). lia.
Qed.

Lemma list_sum_perm (l l' : list nat) : Permutation l l' -> list_sum l = list_sum l'.
Proof. induction 1; simpl; lia. Qed.

Section TopFacts.
Variable K : Type.
Variable K_eq_dec : forall a b : K, {a = b} + {a <> b}.

Local Abbreviation keys := (map (@fst K nat)).
Local Abbreviation occ := (occurrences K_eq_dec).
Local Abbreviation vcount := (value_count K_eq_dec).

Lemma argmax_from_head (best : K * nat) (s : list (K * nat)) :
  (forall y, In y s -> snd y <= snd best) -> argmax_from best s = fst best.
Proof.
  induction s as [|y s IH]; intros H; simpl; [reflexivity|].
  assert (C : (snd best <? snd y) = false) by (apply Nat.ltb_ge, H; now left).
  rewrite C. apply IH. intros z Hz. apply H. now right.
Qed.

(** Whatever the order of the entries, [idxmax] returns the key of an entry
    that carries the maximum. *)
Lemma argmax_from_max (best : K * nat) (s : list (K * nat)) :
  exists x, In x (best :: s) /\ argmax_from best s = fst x
            /\ forall y, In y (best :: s) -> snd y <= snd x.
Proof.
  revert best. induction s as [|y s IH]; intros best; simpl.
  - exists best. repeat split; [now left|]. intros z [<-|[]]. lia.
  - destruct (snd best <? snd y) eqn:C.
    + apply Nat.ltb_lt in C. destruct (IH y) as (x & Hin & E & Hmax).
      exists x. repeat split; [now right | exact E |].
      intros z [<-|Hz]; [|now apply Hmax]. specialize (Hmax y (or_introl eq_refl)). lia.
    + apply Nat.ltb_ge in C. destruct (IH best) as (x & Hin & E & Hmax).
      exists x. repeat split; [|exact E|].
      * destruct Hin as [<-|Hin]; [now left | right; now right].
      * intros z [<-|[<-|Hz]].
        -- apply Hmax. now left.
        -- specialize (Hmax best (or_introl eq_refl)). lia.
        -- apply Hmax. now right.
Qed.

(** A bound on the counts of the table bounds the occurrences of every
    value. *)
Lemma occurrences_bounded (col : list (option K)) (c : nat) :
  (forall y, In y (vcount col) -> snd y <= c) -> forall k, occ k col <= c.
Proof.
  intros Hle k. destruct (value_count_table K K_eq_dec col) as (_ & Hcnt & Hcov & _).
  destruct (filter (holds K_eq_dec k) col) as [|cell rest] eqn:F.
  - unfold occurrences. rewrite F. simpl. lia.
  - assert (Hin : In cell (filter (holds K_eq_dec k) col)) by (rewrite F; now left).
    apply filter_In in Hin. destruct Hin as [Hin Hh]. apply holds_true in Hh. subst cell.
    apply Hcov, in_keys in Hin. destruct Hin as [n Hn].
    destruct (Hcnt _ _ Hn) as [<- _]. apply (Hle (k, n) Hn).
Qed.

(** The first entry of counts in descending order carries the maximum. *)
Lemma sorted_head_max (x : K * nat) (r : list (K * nat)) :
  StronglySorted (fun a b => snd b <= snd a) (x :: r) ->
  forall y, In y (x :: r) -> snd y <= snd x.
Proof.
  intros H y [<-|Hy]; [lia|].
  apply StronglySorted_inv in H. destruct H as [_ H].
  rewrite Forall_forall in H. now apply H.
Qed.

(** [value_counts().idxmax()] on a column with at least one value, whatever
    the sort does with equal counts: the value is the first entry of the
    sorted counts, it stands in the column, and no value is more frequent. *)
Lemma top_value (sort_values : list (K * nat) -> list (K * nat))
    (col : list (option K)) (k0 : K) :
  sorts_descending sort_values ->
  In (Some k0) col ->
  exists top, idxmax (value_counts K_eq_dec sort_values col) = Return top
    /\ (exists rest, value_counts K_eq_dec sort_values col = (top, occ top col) :: rest)
    /\ In (Some top) col
    /\ (forall k, occ k col <= occ top col).
Proof.
  intros Hsort Hk0. destruct (value_count_table K K_eq_dec col) as (_ & Hcnt & Hcov & _).
  destruct (Hsort (vcount col)) as [Hp Hs]. unfold value_counts.
  destruct (sort_values (vcount col)) as [|x r] eqn:Es.
  - exfalso. apply Hcov in Hk0. apply Permutation_nil in Hp. rewrite Hp in Hk0. contradiction.
  - pose proof (sorted_head_max x r Hs) as Hmax.
    assert (Hx : snd x = occ (fst x) col /\ In (Some (fst x)) col).
    { apply Hcnt. destruct x. apply (Permutation_in _ Hp). now left. }
    destruct Hx as [Hx Hin].
    exists (fst x). cbn [idxmax]. split; [|split; [|split]].
    + f_equal. apply argmax_from_head. intros y Hy. apply Hmax. now right.
    + exists r. rewrite <- Hx. now destruct x.
    + exact Hin.
    + rewrite <- Hx. apply occurrences_bounded. intros y Hy. apply Hmax.
      apply (Permutation_in _ (Permutation_sym Hp) Hy).
Qed.

(** However the sort orders equal counts, [idxmax] returns a most frequent
    value of the column. *)
Lemma idxmax_any_order (col : list (option K)) (k0 : K) (s : list (K * nat)) :
  In (Some k0) col ->
  Permutation s (vcount col) ->
  exists top, idxmax s = Return top
    /\ In (Some top) col
    /\ forall k, occ k col <= occ top col.
Proof.
  intros Hk0 Hp. destruct (value_count_table K K_eq_dec col) as (_ & Hcnt & Hcov & _).
  destruct s as [|x r].
  - exfalso. apply Hcov in Hk0. apply Permutation_nil in Hp. rewrite Hp in Hk0. contradiction.
  - destruct (argmax_from_max x r) as (m & Hin & E & Hmax).
    assert (Hm : In (fst m, snd m) (vcount col)).
    { destruct m. apply (Permutation_in _ Hp Hin). }
    destruct (Hcnt _ _ Hm) as [Hx Hcol].
    exists (fst m). cbn [idxmax]. rewrite E. split; [reflexivity|]. split; [exact Hcol|].
    rewrite <- Hx. apply occurrences_bounded. intros y Hy. apply Hmax.
    apply (Permutation_in _ (Permutation_sym Hp) Hy).
Qed.

(** With no value in the column the series of counts is empty and [idxmax]
    raises. *)
Lemma top_value_missing (sort_values : list (K * nat) -> list (K * nat))
    (col : list (option K)) :
  sorts_descending sort_values ->
  (forall k, ~ In (Some k) col) ->
  idxmax (value_counts K_eq_dec sort_values col)
  = Raise (ValueError (lit "attempt to get argmax of an empty sequence")).
Proof.
  intros Hsort H. destruct (value_count_table K K_eq_dec col) as (_ & Hcnt & _ & _).
  destruct (Hsort (vcount col)) as [Hp _]. unfold value_counts.
  destruct (vcount col) as [|[k c] r].
  - apply Permutation_sym, Permutation_nil in Hp. now rewrite Hp.
  - destruct (Hcnt k c (or_introl eq_refl)) as [_ Hin]. now apply H in Hin.
Qed.

(** The counts of the table add up to the number of cells that hold a
    value. *)
Lemma bump_sum (k : K) (acc : list (K * nat)) :
  list_sum (map snd (bump K_eq_dec k acc)) = S (list_sum (map snd acc)).
Proof.
  induction acc as [|[k' c'] r IH]; simpl; [reflexivity|].
  destruct (K_eq_dec k k'); simpl; [reflexivity|]. rewrite IH. lia.
Qed.

Lemma value_count_sum (col : list (option K)) :
  list_sum (map snd (vcount col)) = count col.
Proof.
  induction col as [|cell col IH] using rev_ind; [reflexivity|].
  rewrite value_count_last. unfold count in *. rewrite filter_app, length_app.
  destruct cell as [k|]; cbn [count_cell]; simpl.
  - rewrite bump_sum, IH. lia.
  - rewrite IH. lia.
Qed.

End TopFacts.

Lemma count_le_length {A : Type} (col : list (option A)) : count col <= List.length col.
Proof. unfold count. apply filter_length_le. Qed.

Lemma count_all {A : Type} (col : list (option A)) :
  count col = List.length col <-> forall cell, In cell col -> cell <> None.
Proof.
  unfold count. induction col as [|cell col IH]; simpl.
  - split; [intros _ c [] | reflexivity].
  - destruct cell as [a|]; simpl.
    + split.
      * intros E c [<-|Hc]; [discriminate|]. apply IH; [lia | exact Hc].
      * intros H. f_equal. apply IH. intros c Hc. apply H. now right.
    + split.
      * intros E. pose proof (filter_length_le notnull col). lia.
      * intros H. now destruct (H None (or_introl eq_refl)).
Qed.

(* ================================================================= *)
(** ** The aggregates *)

Lemma classify_respond (ucd : ucd_lower) (sort_values : sorter) (df : DataFrame) (q : pystr)
    (i : Spec.Intent) :
  Spec.classify ucd q = i ->
  App.simple_chatbot ucd sort_values df q = Spec.respond sort_values df i
  /\ Chatbot.simple_chatbot ucd sort_values df q = Spec.respond sort_values df i.
Proof.
  intros <-. split; [apply app_simple_chatbot_respond | apply chatbot_simple_chatbot_respond].
Qed.

Lemma key_asc_sorted (l : list (Z * nat)) :
  StronglySorted (fun a b => key_asc a b = true) l -> StronglySorted Z.le (map fst l).
Proof.
  induction 1 as [|x r Hs IH Hx]; simpl; constructor; [exact IH|].
  apply Forall_map. eapply Forall_impl; [|exact Hx].
  intros y Hy. now apply Z.leb_le.
Qed.

Lemma groupby_size_perm (keys : list (option Z)) :
  Permutation (groupby_size keys) (value_count Z.eq_dec keys).
Proof. apply isort_perm. Qed.

Lemma groupby_size_ascending (keys : list (option Z)) :
  StronglySorted Z.lt (map fst (groupby_size keys)).
Proof.
  apply strictly_ascending.
  - apply key_asc_sorted, isort_sorted; unfold key_asc.
    + trivial.
    + intros x y H. apply Z.leb_gt in H. apply Z.leb_le. lia.
    + intros x y z H1 H2. apply Z.leb_le in H1, H2. apply Z.leb_le. lia.
  - apply (Permutation_NoDup (l := map fst (value_count Z.eq_dec keys))).
    + symmetry. apply Permutation_map, groupby_size_perm.
    + apply value_count_table.
Qed.

Lemma groupby_size_counts (keys : list (option Z)) (y : Z) (c : nat) :
  In (y, c) (groupby_size keys)
  <-> In (Some y) keys /\ c = occurrences Z.eq_dec y keys.
Proof.
  destruct (value_count_table Z Z.eq_dec keys) as (_ & Hcnt & Hcov & _).
  split.
  - intros H. apply (Permutation_in _ (groupby_size_perm keys)) in H.
    destruct (Hcnt _ _ H) as [-> Hin]. now split.
  - intros [Hin ->]. apply (Permutation_in _ (Permutation_sym (groupby_size_perm keys))).
    apply Hcov, in_keys in Hin. destruct Hin as [c Hc].
    now destruct (Hcnt _ _ Hc) as [<- _].
Qed.

(** C5. The answer to a "games per year" query is the table of the release
    years: strictly ascending by year, so each year stands once, and a year
    is in the table exactly when some row bears it, with the number of rows
    that bear it.  Rows with the years 2021, 2021, 2022 give (2021, 2),
    (2022, 1). *)
Theorem games_per_year_table (ucd : ucd_lower) (sort_values : sorter) (df : DataFrame) (q : pystr) :
  Spec.classify ucd q = Spec.GamesPerYear ->
  App.simple_chatbot ucd sort_values df q = Return (Frame (groupby_size (column release_year df)))
  /\ Chatbot.simple_chatbot ucd sort_values df q = Return
      (Frame (groupby_size (column release_year df)))
  /\ StronglySorted Z.lt (map fst (groupby_size (column release_year df)))
  /\ (forall y c, In (y, c) (groupby_size (column release_year df))
        <-> In (Some y) (column release_year df)
            /\ c = occurrences Z.eq_dec y (column release_year df))
  /\ groupby_size [Some 2021%Z; Some 2021%Z; Some 2022%Z] = [(2021%Z, 2); (2022%Z, 1)].
Proof.
  intros H. destruct (classify_respond ucd sort_values df q _ H) as [Ha Hc].
  split; [exact Ha|]. split; [exact Hc|].
  split; [apply groupby_size_ascending|].
  split; [intros y c; apply groupby_size_counts | reflexivity].
Qed.

Lemma games_per_year_table_witness :
  Spec.classify ucd_identity (lit "Games per YEAR?") = Spec.GamesPerYear
  /\ App.simple_chatbot ucd_identity Sample.stable_sort Sample.three_games (lit "Games per YEAR?")
     = Return (Frame [(2021%Z, 2); (2022%Z, 1)]).
Proof.
  split; [reflexivity|].
  exact (proj1 (games_per_year_table ucd_identity Sample.stable_sort Sample.three_games
                  (lit "Games per YEAR?") eq_refl)).
Defined.

(** C6, as the code has it.  When the genres column holds at least one
    value, the answer to a "top genre" query names the first entry of the
    counts of the column sorted in descending order.  That value stands in
    the column and no value is more frequent; a value that is strictly more
    frequent than every other one is the answer.  Among several most frequent
    values the answer is the one that the sort puts first: the code leaves
    that to [sort_values].  In whatever order the counts are, [idxmax] picks
    a most frequent value. *)
Theorem top_genre_first_most_frequent (ucd : ucd_lower) (sort_values : sorter)
    (df : DataFrame) (q g0 : pystr) :
  Spec.classify ucd q = Spec.TopGenre ->
  In (Some g0) (column genres df) ->
  sorts_descending sort_values ->
  exists top,
    App.simple_chatbot ucd sort_values df q
    = Return (Text (TROPHY :: lit " Top Genre: " ++ top))
    /\ Chatbot.simple_chatbot ucd sort_values df q
       = Return (Text (TROPHY :: lit " Top Genre: " ++ top))
    /\ (exists rest,
          value_counts pystr_eq_dec sort_values (column genres df)
          = (top, occurrences pystr_eq_dec top (column genres df)) :: rest)
    /\ In (Some top) (column genres df)
    /\ (forall g, occurrences pystr_eq_dec g (column genres df)
                  <= occurrences pystr_eq_dec top (column genres df))
    /\ (forall g, (forall g', g' <> g ->
                     occurrences pystr_eq_dec g' (column genres df)
                     < occurrences pystr_eq_dec g (column genres df)) ->
                  top = g)
    /\ (forall s, Permutation s (value_count pystr_eq_dec (column genres df)) ->
          exists t, idxmax s = Return t
                    /\ forall g, occurrences pystr_eq_dec g (column genres df)
                                 <= occurrences pystr_eq_dec t (column genres df)).
Proof.
  intros H Hg Hsort. destruct (classify_respond ucd sort_values df q _ H) as [Ha Hc].
  destruct (top_value pystr pystr_eq_dec sort_values _ _ Hsort Hg)
    as (top & E & Hhead & Hin & Hmax).
  exists top. rewrite Ha, Hc. cbn [Spec.respond]. rewrite E. cbn [bind].
  repeat (split; [assumption || reflexivity|]). split.
  - intros g Hstrict. destruct (pystr_eq_dec top g) as [E'|N]; [exact E'|].
    specialize (Hstrict top N). specialize (Hmax g). lia.
  - intros s Hp.
    destruct (idxmax_any_order pystr pystr_eq_dec _ _ s Hg Hp) as (t & Et & _ & Ht).
    now exists t.
Qed.

Lemma top_genre_first_most_frequent_witness :
  Spec.classify ucd_identity (lit "top genre") = Spec.TopGenre
  /\ In (Some (lit "RPG")) (column genres Sample.tied_genres)
  /\ sorts_descending Sample.stable_sort
  /\ exists top,
       App.simple_chatbot ucd_identity Sample.stable_sort Sample.tied_genres (lit "top genre")
       = Return (Text (TROPHY :: lit " Top Genre: " ++ top)).
Proof.
  split; [reflexivity|]. split; [now left|]. split; [exact stable_sort_descending|].
  destruct (top_genre_first_most_frequent ucd_identity Sample.stable_sort Sample.tied_genres
              (lit "top genre") (lit "RPG") eq_refl (or_introl eq_refl)
              stable_sort_descending)
    as (top & Ha & _).
  exists top. exact Ha.
Defined.

(** Two genres tied at two games each: the sort decides.  Of two sorts that
    both put the counts in descending order, the one that keeps equal counts
    in the order of the table answers with the genre met first in the column,
    the one that turns them around answers with the other. *)
Example top_genre_tie :
  column genres Sample.tied_genres
  = [Some (lit "RPG"); Some (lit "Action"); Some (lit "Action"); Some (lit "RPG")]
  /\ sorts_descending Sample.stable_sort
  /\ sorts_descending Sample.turning_sort
  /\ App.simple_chatbot ucd_identity Sample.stable_sort Sample.tied_genres (lit "top genre")
     = Return (Text (TROPHY :: lit " Top Genre: RPG"))
  /\ App.simple_chatbot ucd_identity Sample.turning_sort Sample.tied_genres (lit "top genre")
     = Return (Text (TROPHY :: lit " Top Genre: Action")).
Proof.
  split; [reflexivity|]. split; [exact stable_sort_descending|].
  split; [exact turning_sort_descending|]. split; reflexivity.
Qed.

(** A dataset with one row whose genres cell is empty is not empty, and the
    "top genre" query raises on it. *)
Lemma top_genre_blank_column :
  len [Sample.blank 5] = 1
  /\ genres (Sample.blank 5) = None
  /\ App.simple_chatbot ucd_identity Sample.stable_sort [Sample.blank 5] (lit "top genre")
     = Raise (ValueError (lit "attempt to get argmax of an empty sequence")).
Proof. repeat split. Qed.

(** C10, as the code has it.  The counts of the games-per-year table add up
    to the number of rows that have a release year; rows without one are in
    no group.  The sum is the row count of the dataset exactly when no
    release year is missing. *)
Theorem year_counts_sum (df : DataFrame) :
  games_sum (groupby_size (column release_year df)) = count (column release_year df)
  /\ games_sum (groupby_size (column release_year df)) <= len df
  /\ (games_sum (groupby_size (column release_year df)) = len df
      <-> forall row, In row df -> release_year row <> None).
Proof.
  assert (E : games_sum (groupby_size (column release_year df))
              = count (column release_year df)).
  { unfold games_sum.
    rewrite (list_sum_perm _ _ (Permutation_map snd (groupby_size_perm _))).
    apply value_count_sum. }
  assert (L : List.length (column release_year df) = len df) by apply length_map.
  rewrite E, <- L. split; [reflexivity|]. split; [apply count_le_length|].
  rewrite count_all. unfold column. split.
  - intros H row Hrow. apply H. now apply in_map.
  - intros H cell Hcell. apply in_map_iff in Hcell. destruct Hcell as (row & <- & Hrow).
    now apply H.
Qed.

(** A row without a release year is counted by "total games" and is in no
    group of "games per year". *)
Lemma year_counts_miss_blank_row :
  App.simple_chatbot ucd_identity Sample.stable_sort [Sample.blank 5] (lit "total games")
  = Return (Text (VIDEO_GAME :: lit " Total Games: 1"))
  /\ App.simple_chatbot ucd_identity Sample.stable_sort [Sample.blank 5] (lit "games per year")
     = Return (Frame [])
  /\ games_sum (groupby_size (column release_year [Sample.blank 5])) = 0
  /\ len [Sample.blank 5] = 1.
Proof. repeat split. Qed.

(* ================================================================= *)
(** ** The average price *)

(** *** The pairwise summation *)

Section PairwiseFacts.
Variable T : Type.
Variable add : T -> T -> T.
Variable negzero : T.

Lemma pairwise_sum_unfold (fuel : nat) (a : list T) :
  pairwise_sum add negzero fuel a
  = if List.length a <? 8 then fold_left add a negzero
    else if List.length a <=? 128 then
      fold_left add
        (snd (accumulate add (List.length a) (firstn 8 a) (skipn 8 a)))
        (add_pairs add negzero
           (fst (accumulate add (List.length a) (firstn 8 a) (skipn 8 a))))
    else match fuel with
         | O => fold_left add a negzero
         | S fuel' =>
             add (pairwise_sum add negzero fuel'
                    (firstn (List.length a / 2 - (List.length a / 2) mod 8) a))
                 (pairwise_sum add negzero fuel'
                    (skipn (List.length a / 2 - (List.length a / 2) mod 8) a))
         end.
Proof.
  destruct fuel; cbn [pairwise_sum];
    destruct (accumulate add (List.length a) (firstn 8 a) (skipn 8 a)); reflexivity.
Qed.

(** The unrolled loop takes every whole block: with the number of cells as
    fuel, fewer than 8 cells are left over. *)
Lemma accumulate_rest (fuel : nat) (r xs : list T) :
  List.length xs <= 8 * fuel + 7 ->
  List.length (snd (accumulate add fuel r xs)) < 8.
Proof.
  revert r xs. induction fuel as [|fuel IH]; intros r xs H; cbn [accumulate].
  - cbn [snd]. lia.
  - destruct (8 <=? List.length xs) eqn:E.
    + apply IH. rewrite length_skipn. apply Nat.leb_le in E. lia.
    + apply Nat.leb_gt in E. exact E.
Qed.

(** The halves of a long array are shorter than the array. *)
Lemma halves_shorter (n : nat) :
  128 < n -> 0 < n / 2 - (n / 2) mod 8 < n.
Proof.
  intros H. pose proof (Nat.div_mod_eq n 2) as E. pose proof (Nat.mod_upper_bound n 2) as B.
  pose proof (Nat.div_mod_eq (n / 2) 8) as E'.
  pose proof (Nat.mod_upper_bound (n / 2) 8) as B'.
  generalize dependent (n mod 2). generalize dependent ((n / 2) mod 8).
  generalize dependent (n / 2 / 8). generalize dependent (n / 2). intros. lia.
Qed.

(** The recursion never stops for lack of fuel: every amount of fuel that
    covers the cells beyond 128 gives the same sum. *)
Lemma pairwise_sum_fuel (fuel fuel' : nat) (a : list T) :
  List.length a <= 128 + fuel -> List.length a <= 128 + fuel' ->
  pairwise_sum add negzero fuel a = pairwise_sum add negzero fuel' a.
Proof.
  revert fuel' a. induction fuel as [|fuel IH]; intros fuel' a H H';
    rewrite (pairwise_sum_unfold 0 a) || rewrite (pairwise_sum_unfold (S fuel) a);
    rewrite (pairwise_sum_unfold fuel' a);
    destruct (List.length a <? 8); try reflexivity;
    destruct (List.length a <=? 128) eqn:E; try reflexivity;
    apply Nat.leb_gt in E; [lia|].
  destruct fuel' as [|fuel']; [lia|].
  pose proof (halves_shorter _ E) as B.
  f_equal; apply IH; rewrite ?length_firstn, ?length_skipn; lia.
Qed.

End PairwiseFacts.

(** The summation commutes with every map that preserves the addition. *)
Section PairwiseMap.
Variables T U : Type.
Variable add : T -> T -> T.
Variable addU : U -> U -> U.
Variable negzero : T.
Variable negzeroU : U.
Variable f : T -> U.
Hypothesis f_add : forall x y, f (add x y) = addU (f x) (f y).
Hypothesis f_negzero : f negzero = negzeroU.

Lemma fold_left_add_map (a : list T) (z : T) :
  f (fold_left add a z) = fold_left addU (map f a) (f z).
Proof.
  revert z. induction a as [|x a IH]; intros z; simpl; [reflexivity|].
  now rewrite IH, f_add.
Qed.

Lemma add_lanes_map (r xs : list T) :
  map f (add_lanes add r xs) = add_lanes addU (map f r) (map f xs).
Proof.
  revert xs. induction r as [|y r IH]; intros [|x xs]; simpl; try reflexivity.
  now rewrite f_add, IH.
Qed.

Lemma accumulate_map (fuel : nat) (r xs : list T) :
  accumulate addU fuel (map f r) (map f xs)
  = (map f (fst (accumulate add fuel r xs)), map f (snd (accumulate add fuel r xs))).
Proof.
  revert r xs. induction fuel as [|fuel IH]; intros r xs; cbn [accumulate]; [reflexivity|].
  rewrite length_map. destruct (8 <=? List.length xs); [|reflexivity].
  now rewrite firstn_map, skipn_map, <- add_lanes_map, IH.
Qed.

Lemma add_pairs_map (r : list T) :
  f (add_pairs add negzero r) = add_pairs addU negzeroU (map f r).
Proof.
  destruct r as [|r0 [|r1 [|r2 [|r3 [|r4 [|r5 [|r6 [|r7 [|r8 r]]]]]]]]];
    cbn [add_pairs map]; rewrite ?f_add; auto.
Qed.

Lemma pairwise_sum_map (fuel : nat) (a : list T) :
  f (pairwise_sum add negzero fuel a) = pairwise_sum addU negzeroU fuel (map f a).
Proof.
  revert a. induction fuel as [|fuel IH]; intros a;
    rewrite (pairwise_sum_unfold T add negzero), (pairwise_sum_unfold U addU negzeroU),
            length_map;
    (destruct (List.length a <? 8); [now rewrite fold_left_add_map, f_negzero|]);
    (destruct (List.length a <=? 128);
     [now rewrite firstn_map, skipn_map, accumulate_map, fold_left_add_map,
                  add_pairs_map|]).
  - now rewrite fold_left_add_map, f_negzero.
  - now rewrite f_add, !IH, <- firstn_map, <- skipn_map.
Qed.

End PairwiseMap.

(** The summation adds every cell exactly once.  On lists, with
    concatenation for the addition, the sum is the cells of the array in
    some order, after the zeros with which the short loops start. *)
Section PairwiseCells.
Variable X : Type.
Variable z : X.

Lemma fold_left_app_concat (a : list (list X)) (acc : list X) :
  fold_left (@app X) a acc = acc ++ List.concat a.
Proof.
  revert acc. induction a as [|x a IH]; intros acc; simpl; [now rewrite app_nil_r|].
  now rewrite IH, app_assoc.
Qed.

Lemma add_lanes_length (r xs : list (list X)) :
  List.length (add_lanes (@app X) r xs) = List.length r.
Proof.
  revert xs. induction r as [|y r IH]; intros [|x xs]; simpl; try reflexivity.
  now rewrite IH.
Qed.

Lemma add_lanes_perm (r xs : list (list X)) :
  List.length xs <= List.length r ->
  Permutation (List.concat (add_lanes (@app X) r xs)) (List.concat r ++ List.concat xs).
Proof.
  revert xs. induction r as [|y r IH]; intros [|x xs] H; simpl in *;
    rewrite ?app_nil_r; try reflexivity; [lia|].
  rewrite IH by lia. rewrite <- !app_assoc. apply Permutation_app_head.
  rewrite !app_assoc. apply Permutation_app_tail, Permutation_app_comm.
Qed.

Lemma accumulate_perm (fuel : nat) (r xs : list (list X)) :
  List.length r = 8 ->
  List.length (fst (accumulate (@app X) fuel r xs)) = 8
  /\ Permutation (List.concat (fst (accumulate (@app X) fuel r xs))
                    ++ List.concat (snd (accumulate (@app X) fuel r xs)))
                 (List.concat r ++ List.concat xs).
Proof.
  revert r xs. induction fuel as [|fuel IH]; intros r xs H; cbn [accumulate].
  - now split.
  - destruct (8 <=? List.length xs) eqn:E; [|now split].
    apply Nat.leb_le in E.
    destruct (IH (add_lanes (@app X) r (firstn 8 xs)) (skipn 8 xs)) as [L P].
    { now rewrite add_lanes_length. }
    split; [exact L|]. rewrite P, add_lanes_perm.
    + now rewrite <- app_assoc, <- concat_app, firstn_skipn.
    + rewrite length_firstn. lia.
Qed.

Lemma add_pairs_concat (r : list (list X)) :
  List.length r = 8 -> add_pairs (@app X) [z] r = List.concat r.
Proof.
  destruct r as [|r0 [|r1 [|r2 [|r3 [|r4 [|r5 [|r6 [|r7 [|r8 r]]]]]]]]]; try discriminate.
  intros _. cbn [add_pairs List.concat]. now rewrite app_nil_r, <- !app_assoc.
Qed.

Lemma pairwise_sum_perm (fuel : nat) (a : list (list X)) :
  exists k, Permutation (pairwise_sum (@app X) [z] fuel a) (repeat z k ++ List.concat a).
Proof.
  revert a. induction fuel as [|fuel IH]; intros a; rewrite pairwise_sum_unfold.
  all: destruct (List.length a <? 8) eqn:S8; [exists 1; now rewrite fold_left_app_concat|].
  all: apply Nat.ltb_ge in S8.
  all: destruct (List.length a <=? 128) eqn:E.
  1, 3: exists 0;
    destruct (accumulate_perm (List.length a) (firstn 8 a) (skipn 8 a)) as [L P];
    [ rewrite length_firstn; lia
    | rewrite fold_left_app_concat, (add_pairs_concat _ L), P, <- concat_app, firstn_skipn;
      reflexivity ].
  - exists 1. now rewrite fold_left_app_concat.
  - destruct (IH (firstn (List.length a / 2 - (List.length a / 2) mod 8) a)) as [k1 P1].
    destruct (IH (skipn (List.length a / 2 - (List.length a / 2) mod 8) a)) as [k2 P2].
    exists (k1 + k2). rewrite P1, P2, repeat_app, <- !app_assoc.
    apply Permutation_app_head. rewrite !app_assoc.
    rewrite (Permutation_app_comm (List.concat _) (repeat z k2)), <- !app_assoc.
    apply Permutation_app_head. now rewrite <- concat_app, firstn_skipn.
Qed.

End PairwiseCells.

(** *** What [np_sum] and [mean] add *)

Lemma np_sum_written_result (xs : list float) : result (np_sum_written xs) = np_sum xs.
Proof.
  unfold np_sum_written, np_sum. cbn [result]. f_equal.
  rewrite (pairwise_sum_map summation float Plus PrimFloat.add (Cell (-0)) (-0)%float result
             (fun _ _ => eq_refl) eq_refl).
  f_equal. rewrite map_map. apply map_id.
Qed.

Lemma np_sum_written_cells (xs : list float) :
  exists k, Permutation (cells (np_sum_written xs)) (0%float :: repeat (-0)%float k ++ xs).
Proof.
  unfold np_sum_written. cbn [cells app].
  rewrite (pairwise_sum_map summation (list float) Plus (@app float) (Cell (-0))
             [(-0)%float] cells (fun _ _ => eq_refl) eq_refl).
  destruct (pairwise_sum_perm float (-0)%float (List.length xs) (map cells (map Cell xs)))
    as [k P].
  exists k. constructor. rewrite P. apply Permutation_app_head.
  rewrite map_map. clear P. induction xs as [|x xs IH]; simpl; [reflexivity|].
  now constructor.
Qed.

(** The cells that [mean] adds are the prices that are not missing, and
    zeros in place of the missing ones. *)
Lemma fillna0_perm (col : list float) :
  exists k, Permutation (map fillna0 col) (repeat 0%float k ++ filter notna col).
Proof.
  induction col as [|x col [k IH]]; [now exists 0|].
  cbn [map filter]. unfold fillna0 at 1, notna at 1. destruct (is_nan x); cbn [negb].
  - exists (S k). cbn [repeat app]. now constructor.
  - exists k. rewrite IH. apply Permutation_middle.
Qed.

Lemma mean_missing (col : list float) : filter notna col = [] -> mean col = nan.
Proof. intros H. unfold mean. now rewrite H. Qed.

Lemma mean_written (col : list float) :
  filter notna col <> [] ->
  exists t zeros,
    mean col = (result t / float_of_nat (List.length (filter notna col)))%float
    /\ Permutation (cells t) (zeros ++ filter notna col)
    /\ Forall (fun z => z = 0%float \/ z = (-0)%float) zeros.
Proof.
  intros H. destruct (np_sum_written_cells (map fillna0 col)) as [k P].
  destruct (fillna0_perm col) as [k' P'].
  exists (np_sum_written (map fillna0 col)),
         (0%float :: repeat (-0)%float k ++ repeat 0%float k').
  split; [|split].
  - unfold mean. rewrite np_sum_written_result.
    destruct (filter notna col); [congruence | reflexivity].
  - rewrite P, P'. cbn [app]. constructor. now rewrite app_assoc.
  - constructor; [now left|].
    apply Forall_app. split; apply Forall_forall; intros y Hy;
      apply repeat_spec in Hy; subst; auto.
Qed.

(** Ten prices whose mean is 9.155.  Added in the order of numpy, in eight
    lanes, the mean prints as 9.15; added from left to right it would print
    as 9.16. *)
Example mean_of_ten_prices :
  map format_2f Sample.ten_prices
  = [lit "1.69"; lit "3.39"; lit "18.22"; lit "4.26"; lit "15.18"; lit "12.00";
     lit "16.82"; lit "7.36"; lit "6.81"; lit "5.82"]
  /\ format_2f (mean Sample.ten_prices) = lit "9.15"
  /\ format_2f (fold_left PrimFloat.add Sample.ten_prices 0 / 10)%float = lit "9.16".
Proof. repeat split; vm_compute; reflexivity. Qed.

(** *** How the mean is printed *)

Lemma two_decimals_point (s : pystr) : two_decimals s -> In 46%N s.
Proof.
  intros (sign & whole & d1 & d2 & -> & _).
  apply in_or_app; right. apply in_or_app; right. now left.
Qed.

Lemma format_2f_not_finite (x : float) :
  is_finite x = false ->
  (format_2f x = lit "nan" \/ format_2f x = lit "inf" \/ format_2f x = lit "-inf")
  /\ ~ two_decimals (format_2f x).
Proof.
  unfold is_finite, format_2f.
  destruct (Prim2SF x) as [s|s| |s m e]; try discriminate; intros _.
  - destruct s; (split; [auto|]); intros H; apply two_decimals_point in H;
      simpl in H; repeat (destruct H as [H|H]; [discriminate H|]); exact H.
  - split; [auto|]. intros H; apply two_decimals_point in H.
    simpl in H; repeat (destruct H as [H|H]; [discriminate H|]); exact H.
Qed.

Lemma format_2f_two_decimals_iff (x : float) :
  is_finite x = true <-> two_decimals (format_2f x).
Proof.
  split; [apply format_2f_two_decimals|].
  intros H. destruct (is_finite x) eqn:F; [reflexivity|].
  now destruct (proj2 (format_2f_not_finite x F)).
Qed.

(** *** [df['price'].mean()] *)

Lemma price_mean_cases (df : DataFrame) :
  (price_is_numeric df = true /\ price_mean df = Return (mean (column price df)))
  \/ (price_is_numeric df = false /\ exists msg, price_mean df = Raise (TypeError msg)).
Proof.
  unfold price_mean. destruct (price_is_numeric df); [left | right]; split; try reflexivity.
  eexists. reflexivity.
Qed.

(** C7, as the code has it.  On a price column of numbers the answer to an
    "average price" query is the Average Price line with the mean of the
    column printed by [format_2f]; on a price column of text the query raises
    TypeError.  The mean is NaN when every price is missing; otherwise it is
    a sum in floating point, in which every price that is not missing is added
    exactly once and nothing else but zeros, divided by the number of those
    prices.  The mean prints with exactly two decimal places when it is a
    finite number, and only then: it prints as nan, inf or -inf otherwise.  On
    the prices 10.00, 20.00, 30.00 the mean is 20.0, which is their arithmetic
    mean, and the line shows $20.00; the mean of the ten sample prices, added
    in the order of numpy, prints as 9.15. *)
Theorem average_price_two_places (ucd : ucd_lower) (sort_values : sorter)
    (df : DataFrame) (q : pystr) :
  Spec.classify ucd q = Spec.AveragePrice ->
  (price_is_numeric df = true ->
   App.simple_chatbot ucd sort_values df q
   = Return (Text (HEAVY_DOLLAR_SIGN :: lit " Average Price: $"
                     ++ format_2f (mean (column price df))))
   /\ Chatbot.simple_chatbot ucd sort_values df q
      = Return (Text (HEAVY_DOLLAR_SIGN :: lit " Average Price: $"
                        ++ format_2f (mean (column price df)))))
  /\ (price_is_numeric df = false ->
      exists msg,
        App.simple_chatbot ucd sort_values df q = Raise (TypeError msg)
        /\ Chatbot.simple_chatbot ucd sort_values df q = Raise (TypeError msg))
  /\ (filter notna (column price df) = [] -> mean (column price df) = nan)
  /\ (filter notna (column price df) <> [] ->
      exists t zeros,
        mean (column price df)
        = (result t / float_of_nat (List.length (filter notna (column price df))))%float
        /\ Permutation (cells t) (zeros ++ filter notna (column price df))
        /\ Forall (fun z => z = 0%float \/ z = (-0)%float) zeros)
  /\ (is_finite (mean (column price df)) = true
      <-> two_decimals (format_2f (mean (column price df))))
  /\ (is_finite (mean (column price df)) = false ->
      format_2f (mean (column price df)) = lit "nan"
      \/ format_2f (mean (column price df)) = lit "inf"
      \/ format_2f (mean (column price df)) = lit "-inf")
  /\ column price Sample.three_games = [10; 20; 30]%float
  /\ mean [10; 20; 30]%float = 20%float
  /\ Spec.arithmetic_mean [10; 20; 30]%float = Spec.value 20%float
  /\ App.simple_chatbot ucd sort_values Sample.three_games q
     = Return (Text (HEAVY_DOLLAR_SIGN :: lit " Average Price: $20.00"))
  /\ format_2f (mean Sample.ten_prices) = lit "9.15".
Proof.
  intros H.
  assert (R : forall d, App.simple_chatbot ucd sort_values d q
                        = Spec.respond sort_values d Spec.AveragePrice
                        /\ Chatbot.simple_chatbot ucd sort_values d q
                           = Spec.respond sort_values d Spec.AveragePrice).
  { intros d. apply classify_respond, H. }
  split; [|split].
  - intros N. rewrite (proj1 (R df)), (proj2 (R df)). cbn [Spec.respond].
    unfold price_mean. rewrite N. now split.
  - intros N. destruct (price_mean_cases df) as [[N' _]|[_ [msg E]]]; [congruence|].
    exists msg. rewrite (proj1 (R df)), (proj2 (R df)). cbn [Spec.respond].
    rewrite E. now split.
  - split; [apply mean_missing|]. split; [apply mean_written|].
    split; [apply format_2f_two_decimals_iff|].
    split; [intros F; apply (format_2f_not_finite _ F)|].
    split; [reflexivity|]. split; [reflexivity|]. split; [vm_compute; reflexivity|].
    split; [|vm_compute; reflexivity].
    rewrite (proj1 (R Sample.three_games)). reflexivity.
Qed.

Lemma average_price_two_places_witness :
  Spec.classify ucd_identity (lit "What is the average price and summary")
  = Spec.AveragePrice
  /\ App.simple_chatbot ucd_identity Sample.stable_sort Sample.three_games
       (lit "What is the average price and summary")
     = Return (Text (HEAVY_DOLLAR_SIGN :: lit " Average Price: $20.00")).
Proof.
  split; [reflexivity|].
  exact (proj1 (proj1 (average_price_two_places ucd_identity Sample.stable_sort
                         Sample.three_games
                         (lit "What is the average price and summary") eq_refl)
                  eq_refl)).
Defined.

(** The mean that is shown is not always the arithmetic mean of the prices,
    and is not always shown with two decimal places.  Of two games at 0.01
    and 0.02 the arithmetic mean lies above 0.015, nearer to 0.02 than to
    0.01: the sum of the two floats is rounded, and the line shows $0.01.  Of
    two games at the largest price that a float holds the arithmetic mean is
    that price: the sum overflows, and the line shows $inf. *)
Lemma average_price_not_the_mean :
  price_is_numeric Sample.two_cents = true
  /\ map format_2f (column price Sample.two_cents) = [lit "0.01"; lit "0.02"]
  /\ (exists mu, Spec.arithmetic_mean (column price Sample.two_cents) = Some mu
                 /\ (15 # 1000 < mu)%Q /\ (mu < 2 # 100)%Q)
  /\ App.simple_chatbot ucd_identity Sample.stable_sort Sample.two_cents (lit "average price")
     = Return (Text (HEAVY_DOLLAR_SIGN :: lit " Average Price: $0.01"))
  /\ price_is_numeric Sample.two_fortunes = true
  /\ Forall (fun x => is_finite x = true) (column price Sample.two_fortunes)
  /\ Spec.arithmetic_mean (column price Sample.two_fortunes)
     = Spec.value 0x1.fffffffffffffp+1023%float
  /\ is_finite 0x1.fffffffffffffp+1023%float = true
  /\ mean (column price Sample.two_fortunes) = infinity
  /\ App.simple_chatbot ucd_identity Sample.stable_sort Sample.two_fortunes
       (lit "average price")
     = Return (Text (HEAVY_DOLLAR_SIGN :: lit " Average Price: $inf"))
  /\ ~ two_decimals (lit "inf").
Proof.
  split; [reflexivity|]. split; [vm_compute; reflexivity|].
  split.
  { eexists. split; [vm_compute; reflexivity|]. split; reflexivity. }
  split; [vm_compute; reflexivity|]. split; [reflexivity|].
  split; [repeat constructor|]. split; [vm_compute; reflexivity|].
  split; [reflexivity|]. split; [vm_compute; reflexivity|].
  split; [vm_compute; reflexivity|].
  intros H. apply two_decimals_point in H.
  simpl in H. repeat (destruct H as [H|H]; [discriminate H|]). exact H.
Qed.

(** C2, as the code has it.  On a dataset without rows the mean of the price
    column is NaN, and an "average price" query is answered, by both files,
    with the Average Price line showing $nan: nothing is raised. *)
Theorem empty_dataset_average_is_nan (ucd : ucd_lower) (sort_values : sorter) (q : pystr) :
  Spec.classify ucd q = Spec.AveragePrice ->
  is_nan (mean (column price [])) = true
  /\ App.simple_chatbot ucd sort_values [] q
     = Return (Text (HEAVY_DOLLAR_SIGN :: lit " Average Price: $nan"))
  /\ Chatbot.simple_chatbot ucd sort_values [] q
     = Return (Text (HEAVY_DOLLAR_SIGN :: lit " Average Price: $nan")).
Proof.
  intros H. destruct (classify_respond ucd sort_values [] q _ H) as [Ha Hc].
  rewrite Ha, Hc. repeat split.
Qed.

Lemma empty_dataset_average_is_nan_witness :
  Spec.classify ucd_identity (lit "Average price?") = Spec.AveragePrice
  /\ App.simple_chatbot ucd_identity Sample.stable_sort [] (lit "Average price?")
     = Return (Text (HEAVY_DOLLAR_SIGN :: lit " Average Price: $nan")).
Proof.
  split; [reflexivity|].
  exact (proj1 (proj2 (empty_dataset_average_is_nan ucd_identity Sample.stable_sort
                         (lit "Average price?") eq_refl))).
Defined.

(** On the dataset without rows "average price" returns a string; it raises
    no error. *)
Lemma empty_average_raises_nothing :
  App.simple_chatbot ucd_identity Sample.stable_sort [] (lit "average price")
  = Return (Text (HEAVY_DOLLAR_SIGN :: lit " Average Price: $nan"))
  /\ forall e, App.simple_chatbot ucd_identity Sample.stable_sort [] (lit "average price") <>
      Raise e.
Proof. split; [reflexivity | discriminate]. Qed.

(* ================================================================= *)
(** ** More on the rule-based chatbot *)

Lemma find_first {A : Type} (f : A -> bool) (before : list A) (x : A) (after : list A) :
  (forall y, In y before -> f y = false) -> f x = true ->
  find f (before ++ x :: after) = Some x.
Proof.
  intros Hb Hx. induction before as [|y before IH]; simpl.
  - now rewrite Hx.
  - rewrite (Hb y (or_introl eq_refl)). apply IH. intros z Hz. apply Hb. now right.
Qed.

(** X1. The rules are tried in the order of the table: the answer is that
    of the first rule with a phrase in the lowercased query, whichever later
    rules would fire as well. *)
Theorem first_firing_rule_answers (ucd : ucd_lower) (sort_values : sorter) (df : DataFrame)
    (q : pystr)
    (before : list (list pystr * Spec.Intent)) (rule : list pystr * Spec.Intent)
    (after : list (list pystr * Spec.Intent)) :
  Spec.rules = before ++ rule :: after ->
  (forall earlier, In earlier before -> Spec.fires (lower ucd q) earlier = false) ->
  Spec.fires (lower ucd q) rule = true ->
  App.simple_chatbot ucd sort_values df q = Spec.respond sort_values df (snd rule)
  /\ Chatbot.simple_chatbot ucd sort_values df q = Spec.respond sort_values df (snd rule).
Proof.
  intros E Hb Hr. apply classify_respond. unfold Spec.classify.
  now rewrite E, (find_first _ _ _ _ Hb Hr).
Qed.

Lemma first_firing_rule_answers_witness :
  Spec.rules
  = [([lit "total games"], Spec.TotalGames)]
      ++ ([lit "average price"], Spec.AveragePrice)
      :: [ ([lit "top genre"], Spec.TopGenre);
           ([lit "top developer"], Spec.TopDeveloper);
           ([lit "games per year"], Spec.GamesPerYear);
           ([lit "summary"; lit "insight"], Spec.Summary) ]
  /\ Spec.fires (lower ucd_identity (lit "what is the average price and summary"))
       ([lit "summary"; lit "insight"], Spec.Summary) = true
  /\ App.simple_chatbot ucd_identity Sample.stable_sort Sample.three_games
       (lit "what is the average price and summary")
     = Return (Text (HEAVY_DOLLAR_SIGN :: lit " Average Price: $20.00")).
Proof.
  split; [reflexivity|]. split; [reflexivity|].
  refine (proj1 (first_firing_rule_answers ucd_identity Sample.stable_sort Sample.three_games
                   (lit "what is the average price and summary")
                   [([lit "total games"], Spec.TotalGames)]
                   ([lit "average price"], Spec.AveragePrice)
                   _ eq_refl _ eq_refl)).
  intros earlier [<-|[]]. reflexivity.
Defined.

(** *** Lowercasing *)

Lemma ascii_lower_ascii (c : N) : (ascii_lower c < 128)%N -> (c < 128)%N.
Proof.
  unfold ascii_lower. destruct ((65 <=? c) && (c <=? 90))%N eqn:E; [|trivial].
  apply andb_true_iff in E. destruct E as [_ E]. apply N.leb_le in E. lia.
Qed.

Lemma ascii_lower_idempotent (c : N) : ascii_lower (ascii_lower c) = ascii_lower c.
Proof.
  unfold ascii_lower. destruct ((65 <=? c) && (c <=? 90))%N eqn:E; [|now rewrite E].
  apply andb_true_iff in E. destruct E as [E1 E2]. apply N.leb_le in E1, E2.
  destruct ((65 <=? c + 32) && (c + 32 <=? 90))%N eqn:F; [|reflexivity].
  apply andb_true_iff in F. destruct F as [_ F]. apply N.leb_le in F. lia.
Qed.

(** On ASCII text [lower] maps each letter by itself and never consults the
    Unicode database. *)
Lemma lower_from_ascii (ucd : ucd_lower) (ctx s : pystr) :
  Forall (fun c => (c < 128)%N) s -> lower_from ucd ctx s = map ascii_lower s.
Proof.
  intros H. revert ctx. induction H as [|c s Hc Hs IH]; intros ctx; simpl; [reflexivity|].
  apply N.ltb_lt in Hc. rewrite Hc. simpl. now rewrite IH.
Qed.

Lemma lower_from_app_ascii (ucd : ucd_lower) (ctx p rest : pystr) :
  Forall (fun c => (c < 128)%N) p ->
  exists ctx', lower_from ucd ctx (p ++ rest) = map ascii_lower p ++ lower_from ucd ctx' rest.
Proof.
  intros H. revert ctx. induction H as [|c p Hc Hp IH]; intros ctx; simpl.
  - now exists ctx.
  - apply N.ltb_lt in Hc. rewrite Hc. simpl.
    destruct (IH (c :: ctx)) as [ctx' ->]. now exists ctx'.
Qed.

Lemma lower_from_app (ucd : ucd_lower) (ctx before s : pystr) :
  exists x ctx', lower_from ucd ctx (before ++ s) = x ++ lower_from ucd ctx' s.
Proof.
  revert ctx. induction before as [|c before IH]; intros ctx; simpl.
  - now exists [], ctx.
  - destruct (IH (c :: ctx)) as (x & ctx' & ->).
    eexists. exists ctx'. now rewrite app_assoc.
Qed.

(** A lowercase ASCII phrase written in any letter case, anywhere in the
    query, is in the lowercased query. *)
Lemma lower_keeps_phrase (ucd : ucd_lower) (before p after phrase : pystr) :
  Forall (fun c => (c < 128)%N) phrase ->
  map ascii_lower p = phrase ->
  contains phrase (lower ucd (before ++ p ++ after)) = true.
Proof.
  intros Hph E. assert (Hp : Forall (fun c => (c < 128)%N) p).
  { subst phrase. rewrite Forall_map in Hph.
    eapply Forall_impl; [|exact Hph]. intros c. apply ascii_lower_ascii. }
  unfold lower. destruct (lower_from_app ucd [] before (p ++ after)) as (x & ctx & ->).
  destruct (lower_from_app_ascii ucd ctx p after Hp) as [ctx' ->]. rewrite E.
  apply contains_substring. eexists. eexists. reflexivity.
Qed.

(** X2. The phrase test has no word boundaries and ignores letter case: a
    query with "total games" in it, in any mix of upper and lower case and
    with any text, ASCII or not, before and after it, gets the Total Games
    answer. *)
Theorem total_games_anywhere_any_case (ucd : ucd_lower) (sort_values : sorter) (df : DataFrame)
    (before p after : pystr) :
  map ascii_lower p = lit "total games" ->
  App.simple_chatbot ucd sort_values df (before ++ p ++ after)
  = Return (Text (VIDEO_GAME :: lit " Total Games: " ++ str_nat (List.length df)))
  /\ Chatbot.simple_chatbot ucd sort_values df (before ++ p ++ after)
     = Return (Text (VIDEO_GAME :: lit " Total Games: " ++ str_nat (List.length df))).
Proof.
  intros E.
  apply (classify_respond ucd sort_values df _ Spec.TotalGames), classify_total_games.
  apply lower_keeps_phrase; [|exact E]. repeat constructor.
Qed.

Lemma total_games_anywhere_any_case_witness :
  map ascii_lower (lit "Total GAMES") = lit "total games"
  /\ App.simple_chatbot ucd_identity Sample.stable_sort Sample.three_games
       ([128512%N] ++ lit "subTotal GAMESter")
     = Return (Text (VIDEO_GAME :: lit " Total Games: 3")).
Proof.
  split; [reflexivity|].
  exact (proj1 (total_games_anywhere_any_case ucd_identity Sample.stable_sort Sample.three_games
                  ([128512%N] ++ lit "sub") (lit "Total GAMES") (lit "ter") eq_refl)).
Defined.

(** X3. A query that holds a phrase of any rule, in any letter case and
    anywhere, is recognized: it is never answered with the help text. *)
Theorem phrase_anywhere_is_recognized (ucd : ucd_lower) (sort_values : sorter) (df : DataFrame)
    (rule : list pystr * Spec.Intent) (phrase before p after : pystr) :
  In rule Spec.rules ->
  In phrase (fst rule) ->
  map ascii_lower p = phrase ->
  Spec.classify ucd (before ++ p ++ after) <> Spec.Unrecognized
  /\ App.simple_chatbot ucd sort_values df (before ++ p ++ after) <> Return (Text Spec.help_message)
  /\ Chatbot.simple_chatbot ucd sort_values df (before ++ p ++ after) <> Return
      (Text Spec.help_message).
Proof.
  intros Hr Hp E.
  assert (Hf : Spec.fires (lower ucd (before ++ p ++ after)) rule = true).
  { unfold Spec.fires. apply existsb_exists. exists phrase. split; [exact Hp|].
    apply lower_keeps_phrase; [|exact E].
    simpl in Hr.
    repeat (destruct Hr as [<-|Hr];
            [simpl in Hp; repeat (destruct Hp as [<-|Hp]; [repeat constructor|]); destruct Hp|]).
    destruct Hr. }
  assert (Hc : Spec.classify ucd (before ++ p ++ after) <> Spec.Unrecognized).
  { unfold Spec.classify.
    destruct (find (Spec.fires (lower ucd (before ++ p ++ after))) Spec.rules) as [r|] eqn:F.
    - apply find_some in F. destruct F as [Hin _]. simpl in Hin.
      repeat (destruct Hin as [<-|Hin]; [discriminate|]). destruct Hin.
    - now rewrite (find_none _ _ F rule Hr) in Hf. }
  split; [exact Hc|].
  rewrite ?app_simple_chatbot_respond, ?chatbot_simple_chatbot_respond.
  destruct (Spec.classify ucd (before ++ p ++ after)); try congruence;
    cbn [Spec.respond];
    try (destruct (price_mean df); cbn [bind]);
    repeat match goal with
           | |- context [idxmax ?s] => destruct (idxmax s); cbn [bind]
           end;
    split; discriminate.
Qed.

Lemma phrase_anywhere_is_recognized_witness :
  In ([lit "summary"; lit "insight"], Spec.Summary) Spec.rules
  /\ In (lit "insight") [lit "summary"; lit "insight"]
  /\ map ascii_lower (lit "INSIGHT") = lit "insight"
  /\ Spec.classify ucd_identity (lit "any " ++ lit "INSIGHT" ++ lit "s?") <> Spec.Unrecognized.
Proof.
  assert (H1 : In ([lit "summary"; lit "insight"], Spec.Summary) Spec.rules) by (simpl; auto 10).
  assert (H2 : In (lit "insight") [lit "summary"; lit "insight"]) by (simpl; auto).
  split; [exact H1|]. split; [exact H2|]. split; [reflexivity|].
  exact (proj1 (phrase_anywhere_is_recognized ucd_identity Sample.stable_sort Sample.three_games
                  ([lit "summary"; lit "insight"], Spec.Summary) (lit "insight")
                  (lit "any ") (lit "INSIGHT") (lit "s?") H1 H2 eq_refl)).
Defined.

(** X4. On ASCII queries the chatbot is case-insensitive and independent of
    the Unicode database: two ASCII queries that differ only in the case of
    their letters get the same answer. *)
Theorem ascii_queries_case_insensitive (ucd ucd' : ucd_lower) (sort_values : sorter)
    (df : DataFrame) (q q' : pystr) :
  Forall (fun c => (c < 128)%N) q ->
  Forall (fun c => (c < 128)%N) q' ->
  map ascii_lower q = map ascii_lower q' ->
  App.simple_chatbot ucd sort_values df q = App.simple_chatbot ucd' sort_values df q'
  /\ Chatbot.simple_chatbot ucd sort_values df q = Chatbot.simple_chatbot ucd' sort_values df q'
  /\ App.simple_chatbot ucd sort_values df (map ascii_lower q) = App.simple_chatbot ucd
      sort_values df q.
Proof.
  intros Hq Hq' E.
  assert (L : forall u s, Forall (fun c => (c < 128)%N) s ->
                          Spec.classify u s = Spec.classify ucd_identity (map ascii_lower s)).
  { intros u s Hs. unfold Spec.classify, lower.
    rewrite (lower_from_ascii u [] s Hs).
    rewrite lower_from_ascii.
    - now rewrite map_map, (map_ext _ _ ascii_lower_idempotent).
    - apply Forall_map. eapply Forall_impl; [|exact Hs].
      intros c Hc. unfold ascii_lower. destruct ((65 <=? c) && (c <=? 90))%N eqn:B; [|exact Hc].
      apply andb_true_iff in B. destruct B as [_ B]. apply N.leb_le in B. lia. }
  assert (Hl : Forall (fun c => (c < 128)%N) (map ascii_lower q)).
  { apply Forall_map. eapply Forall_impl; [|exact Hq].
    intros c Hc. unfold ascii_lower. destruct ((65 <=? c) && (c <=? 90))%N eqn:B; [|exact Hc].
    apply andb_true_iff in B. destruct B as [_ B]. apply N.leb_le in B. lia. }
  split; [|split].
  - rewrite !app_simple_chatbot_respond. now rewrite (L ucd q Hq), (L ucd' q' Hq'), E.
  - rewrite !chatbot_simple_chatbot_respond. now rewrite (L ucd q Hq), (L ucd' q' Hq'), E.
  - rewrite !app_simple_chatbot_respond. rewrite (L ucd q Hq), (L ucd _ Hl).
    now rewrite map_map, (map_ext _ _ ascii_lower_idempotent).
Qed.

Lemma ascii_queries_case_insensitive_witness :
  Forall (fun c => (c < 128)%N) (lit "Top GENRE?")
  /\ Forall (fun c => (c < 128)%N) (lit "tOP genre?")
  /\ map ascii_lower (lit "Top GENRE?") = map ascii_lower (lit "tOP genre?")
  /\ App.simple_chatbot ucd_identity Sample.stable_sort Sample.three_games (lit "Top GENRE?")
     = App.simple_chatbot (fun _ _ _ => []) Sample.stable_sort Sample.three_games
         (lit "tOP genre?").
Proof.
  assert (H1 : Forall (fun c => (c < 128)%N) (lit "Top GENRE?")) by (repeat constructor).
  assert (H2 : Forall (fun c => (c < 128)%N) (lit "tOP genre?")) by (repeat constructor).
  split; [exact H1|]. split; [exact H2|]. split; [reflexivity|].
  exact (proj1 (ascii_queries_case_insensitive ucd_identity (fun _ _ _ => [])
                  Sample.stable_sort
                  Sample.three_games (lit "Top GENRE?") (lit "tOP genre?") H1 H2 eq_refl)).
Defined.

(** *** Errors *)

Lemma column_has_value {K : Type} (col : list (option K)) :
  (exists k, In (Some k) col) \/ (forall k, ~ In (Some k) col).
Proof.
  induction col as [|[k|] col IH].
  - right. intros k [].
  - left. exists k. now left.
  - destruct IH as [[k H]|H]; [left; exists k; now right|].
    right. intros k [E|Hin]; [discriminate | now apply (H k)].
Qed.

(** [value_counts().idxmax()] returns a value of the column, or raises when
    the column has none. *)
Lemma idxmax_value_counts_cases {K : Type} (K_eq_dec : forall a b : K, {a = b} + {a <> b})
    (sort_values : list (K * nat) -> list (K * nat)) (col : list (option K)) :
  sorts_descending sort_values ->
  (exists top, idxmax (value_counts K_eq_dec sort_values col) = Return top
               /\ In (Some top) col)
  \/ (idxmax (value_counts K_eq_dec sort_values col)
      = Raise (ValueError (lit "attempt to get argmax of an empty sequence"))
      /\ forall k, ~ In (Some k) col).
Proof.
  intros Hsort. destruct (column_has_value col) as [[k Hk]|Hn].
  - left. destruct (top_value K K_eq_dec sort_values col k Hsort Hk) as (top & E & _ & Hin & _).
    exists top. now split.
  - right. split; [now apply top_value_missing | exact Hn].
Qed.

(** X5. The chatbot raises in two ways, and in no other.  On a price column
    of text the average price and the summary raise the TypeError of [mean].
    On a column without values [idxmax] raises ValueError: "top genre" when
    no row has a genre, "top developer" when no row has a developer, the
    summary, on a price column of numbers, when either is the case.  Total
    games, games per year and the help text never raise. *)
Theorem simple_chatbot_raises_iff (ucd : ucd_lower) (sort_values : sorter)
    (df : DataFrame) (q : pystr) (e : exn) :
  sorts_descending sort_values ->
  (App.simple_chatbot ucd sort_values df q = Raise e
   <-> (price_is_numeric df = false
        /\ price_mean df = Raise e
        /\ (Spec.classify ucd q = Spec.AveragePrice \/ Spec.classify ucd q = Spec.Summary))
       \/ (e = ValueError (lit "attempt to get argmax of an empty sequence")
           /\ ((Spec.classify ucd q = Spec.TopGenre
                /\ forall g, ~ In (Some g) (column genres df))
               \/ (Spec.classify ucd q = Spec.TopDeveloper
                   /\ forall d, ~ In (Some d) (column developer df))
               \/ (Spec.classify ucd q = Spec.Summary
                   /\ price_is_numeric df = true
                   /\ ((forall g, ~ In (Some g) (column genres df))
                       \/ (forall d, ~ In (Some d) (column developer df)))))))
  /\ (price_is_numeric df = false -> exists msg, price_mean df = Raise (TypeError msg))
  /\ (price_is_numeric df = true -> price_mean df = Return (mean (column price df))).
Proof.
  intros Hsort. split.
  2:{ split; intros N; destruct (price_mean_cases df) as [[N' E]|[N' E]]; congruence. }
  rewrite app_simple_chatbot_respond.
  destruct (idxmax_value_counts_cases pystr_eq_dec sort_values (column genres df) Hsort)
    as [(g & Eg & Hg)|[Eg Hg]];
  destruct (idxmax_value_counts_cases pystr_eq_dec sort_values (column developer df) Hsort)
    as [(d & Ed & Hd)|[Ed Hd]];
  destruct (price_mean_cases df) as [[N Em]|[N [msg Em]]];
  destruct (Spec.classify ucd q); cbn [Spec.respond]; rewrite ?Em, ?Eg, ?Ed; cbn [bind];
  (split;
   [ intros E;
     first [ discriminate E
           | injection E as <-;
             first [ left; split; [exact N|]; split; [reflexivity|]; auto; fail
                   | right; split; [reflexivity|];
                     first [ left; now split
                           | right; left; now split
                           | right; right; split; [reflexivity|]; split; [exact N|];
                             first [left; assumption | right; assumption] ] ] ]
   | intros [(N' & E & D)|[-> D]];
     [ first [ congruence | destruct D as [D|D]; discriminate D ]
     | destruct D as [[E H]|[[E H]|(E & N' & [H|H])]];
       first [ discriminate E | reflexivity | congruence
             | exfalso; eapply H; eassumption ] ] ]).
Qed.

Lemma simple_chatbot_raises_iff_witness :
  sorts_descending Sample.stable_sort
  /\ (forall g, ~ In (Some g) (column genres [Sample.blank 5]))
  /\ App.simple_chatbot ucd_identity Sample.stable_sort [Sample.blank 5] (lit "top genre")
     = Raise (ValueError (lit "attempt to get argmax of an empty sequence")).
Proof.
  assert (H : forall g, ~ In (Some g) (column genres [Sample.blank 5])).
  { intros g [E|[]]. discriminate E. }
  split; [exact stable_sort_descending|]. split; [exact H|].
  apply (proj1 (simple_chatbot_raises_iff ucd_identity Sample.stable_sort [Sample.blank 5]
                  (lit "top genre")
                  (ValueError (lit "attempt to get argmax of an empty sequence"))
                  stable_sort_descending)).
  right. split; [reflexivity|]. left. split; [reflexivity | exact H].
Defined.

(** A dataset whose price column holds the text "Free": the average price and
    the summary raise TypeError; the other answers are returned. *)
Example text_price_raises :
  price_is_numeric [Sample.priced_as_text (lit "Free") (lit "RPG")] = false
  /\ App.simple_chatbot ucd_identity Sample.stable_sort
       [Sample.priced_as_text (lit "Free") (lit "RPG")] (lit "average price")
     = Raise (TypeError (lit "Could not convert string 'Free' to numeric"))
  /\ App.simple_chatbot ucd_identity Sample.stable_sort
       [Sample.priced_as_text (lit "Free") (lit "RPG")] (lit "summary")
     = Raise (TypeError (lit "Could not convert string 'Free' to numeric"))
  /\ App.simple_chatbot ucd_identity Sample.stable_sort
       [Sample.priced_as_text (lit "Free") (lit "RPG")] (lit "top genre")
     = Return (Text (TROPHY :: lit " Top Genre: RPG")).
Proof. repeat split. Qed.

(** X6. When the developer column holds at least one value, the answer to a
    "top developer" query names the first entry of the counts of the column
    sorted in descending order: a developer of the column that no other
    outnumbers, and the one that is strictly more frequent than every other
    when there is one.  Which of several most frequent developers comes first
    is left to the sort. *)
Theorem top_developer_first_most_frequent (ucd : ucd_lower) (sort_values : sorter)
    (df : DataFrame) (q d0 : pystr) :
  Spec.classify ucd q = Spec.TopDeveloper ->
  In (Some d0) (column developer df) ->
  sorts_descending sort_values ->
  exists top,
    App.simple_chatbot ucd sort_values df q
    = Return (Text (OFFICE_BUILDING :: lit " Top Developer: " ++ top))
    /\ Chatbot.simple_chatbot ucd sort_values df q
       = Return (Text (OFFICE_BUILDING :: lit " Top Developer: " ++ top))
    /\ (exists rest,
          value_counts pystr_eq_dec sort_values (column developer df)
          = (top, occurrences pystr_eq_dec top (column developer df)) :: rest)
    /\ In (Some top) (column developer df)
    /\ (forall d, occurrences pystr_eq_dec d (column developer df)
                  <= occurrences pystr_eq_dec top (column developer df))
    /\ (forall d, (forall d', d' <> d ->
                     occurrences pystr_eq_dec d' (column developer df)
                     < occurrences pystr_eq_dec d (column developer df)) ->
                  top = d).
Proof.
  intros H Hd Hsort. destruct (classify_respond ucd sort_values df q _ H) as [Ha Hc].
  destruct (top_value pystr pystr_eq_dec sort_values _ _ Hsort Hd)
    as (top & E & Hhead & Hin & Hmax).
  exists top. rewrite Ha, Hc. cbn [Spec.respond]. rewrite E. cbn [bind].
  repeat (split; [assumption || reflexivity|]).
  intros d Hstrict. destruct (pystr_eq_dec top d) as [E'|N]; [exact E'|].
  specialize (Hstrict top N). specialize (Hmax d). lia.
Qed.

Lemma top_developer_first_most_frequent_witness :
  Spec.classify ucd_identity (lit "Top developer?") = Spec.TopDeveloper
  /\ In (Some (lit "Valve")) (column developer Sample.three_games)
  /\ sorts_descending Sample.stable_sort
  /\ exists top,
       App.simple_chatbot ucd_identity Sample.stable_sort Sample.three_games
         (lit "Top developer?")
       = Return (Text (OFFICE_BUILDING :: lit " Top Developer: " ++ top)).
Proof.
  split; [reflexivity|]. split; [now left|]. split; [exact stable_sort_descending|].
  destruct (top_developer_first_most_frequent ucd_identity Sample.stable_sort
              Sample.three_games (lit "Top developer?") (lit "Valve") eq_refl
              (or_introl eq_refl) stable_sort_descending)
    as (top & Ha & _).
  exists top. exact Ha.
Defined.

(** X7. The summary is made of the four single answers: when it is
    returned, each of its lines is the text of the total games, average
    price, top genre and top developer answer with a dash in place of the
    emoji; when it raises, the average price, the top genre or the top
    developer answer raises the same error. *)
Theorem summary_is_the_four_answers (ucd : ucd_lower) (sort_values : sorter)
    (df : DataFrame) (qs qt qa qg qd : pystr) :
  Spec.classify ucd qs = Spec.Summary ->
  Spec.classify ucd qt = Spec.TotalGames ->
  Spec.classify ucd qa = Spec.AveragePrice ->
  Spec.classify ucd qg = Spec.TopGenre ->
  Spec.classify ucd qd = Spec.TopDeveloper ->
  (forall a, App.simple_chatbot ucd sort_values df qs = Return a ->
     exists t p g d,
       App.simple_chatbot ucd sort_values df qt = Return (Text (VIDEO_GAME :: lit " " ++ t))
       /\ App.simple_chatbot ucd sort_values df qa
          = Return (Text (HEAVY_DOLLAR_SIGN :: lit " " ++ p))
       /\ App.simple_chatbot ucd sort_values df qg = Return (Text (TROPHY :: lit " " ++ g))
       /\ App.simple_chatbot ucd sort_values df qd
          = Return (Text (OFFICE_BUILDING :: lit " " ++ d))
       /\ a = Text (BAR_CHART :: lit " Steam Dataset Summary:"
                      ++ [NEWLINE] ++ lit "- " ++ t
                      ++ [NEWLINE] ++ lit "- " ++ p
                      ++ [NEWLINE] ++ lit "- " ++ g
                      ++ [NEWLINE] ++ lit "- " ++ d))
  /\ (forall e, App.simple_chatbot ucd sort_values df qs = Raise e ->
        App.simple_chatbot ucd sort_values df qa = Raise e
        \/ App.simple_chatbot ucd sort_values df qg = Raise e
        \/ App.simple_chatbot ucd sort_values df qd = Raise e).
Proof.
  intros Hs Ht Ha Hg Hd. rewrite !app_simple_chatbot_respond, Hs, Ht, Ha, Hg, Hd.
  cbn [Spec.respond].
  destruct (price_mean df) as [m|em];
    destruct (idxmax (value_counts pystr_eq_dec sort_values (column genres df))) as [g|eg];
    destruct (idxmax (value_counts pystr_eq_dec sort_values (column developer df))) as [d|ed];
    cbn [bind]; (split; [intros a E; try discriminate E | intros e E; try discriminate E]);
    try (injection E as <-; auto; fail).
  injection E as <-.
  exists (lit "Total Games: " ++ str_nat (len df)),
         (lit "Average Price: $" ++ format_2f m),
         (lit "Top Genre: " ++ g), (lit "Top Developer: " ++ d).
  repeat split.
Qed.

Lemma summary_is_the_four_answers_witness :
  Spec.classify ucd_identity (lit "insights") = Spec.Summary
  /\ Spec.classify ucd_identity (lit "total games") = Spec.TotalGames
  /\ Spec.classify ucd_identity (lit "average price") = Spec.AveragePrice
  /\ Spec.classify ucd_identity (lit "top genre") = Spec.TopGenre
  /\ Spec.classify ucd_identity (lit "top developer") = Spec.TopDeveloper
  /\ forall e,
       App.simple_chatbot ucd_identity Sample.stable_sort
         [Sample.priced_as_text (lit "Free") (lit "RPG")] (lit "insights") = Raise e ->
       App.simple_chatbot ucd_identity Sample.stable_sort
         [Sample.priced_as_text (lit "Free") (lit "RPG")] (lit "average price") = Raise e
       \/ App.simple_chatbot ucd_identity Sample.stable_sort
            [Sample.priced_as_text (lit "Free") (lit "RPG")] (lit "top genre") = Raise e
       \/ App.simple_chatbot ucd_identity Sample.stable_sort
            [Sample.priced_as_text (lit "Free") (lit "RPG")] (lit "top developer") = Raise e.
Proof.
  repeat (split; [reflexivity|]).
  exact (proj2 (summary_is_the_four_answers ucd_identity Sample.stable_sort
                  [Sample.priced_as_text (lit "Free") (lit "RPG")]
                  (lit "insights") (lit "total games") (lit "average price")
                  (lit "top genre") (lit "top developer")
                  eq_refl eq_refl eq_refl eq_refl eq_refl)).
Defined.

(* ================================================================= *)
(** ** More on the AI bridge *)

Lemma load_gemini_enabled_state (connect : pystr -> pystr -> pyresult GenerativeModel)
    (GEMINI_API_KEY : option pystr) :
  model (App.load_gemini connect GEMINI_API_KEY) = None ->
  USE_AI (App.load_gemini connect GEMINI_API_KEY) = false.
Proof.
  destruct GEMINI_API_KEY as [[|c key]|]; cbn; try reflexivity.
  destruct (connect (c :: key) _); cbn; [discriminate | reflexivity].
Qed.

(** X8. The start-up block enables the bridge exactly when the key is set
    and not empty and the client accepts it; the model is then the one the
    client returned, and it is unset exactly when the bridge is disabled.
    Both files compute the same state. *)
Theorem load_gemini_enabled_iff (connect : pystr -> pystr -> pyresult GenerativeModel)
    (GEMINI_API_KEY : option pystr) :
  (forall m,
     (USE_AI (App.load_gemini connect GEMINI_API_KEY) = true
      /\ model (App.load_gemini connect GEMINI_API_KEY) = Some m)
     <-> exists key, GEMINI_API_KEY = Some key /\ key <> []
                     /\ connect key (lit "models/gemini-2.5-flash-lite") = Return m)
  /\ (USE_AI (App.load_gemini connect GEMINI_API_KEY) = false
      <-> model (App.load_gemini connect GEMINI_API_KEY) = None)
  /\ Chatbot.load_gemini connect GEMINI_API_KEY = App.load_gemini connect GEMINI_API_KEY.
Proof.
  split; [|split; [|reflexivity]].
  - intros m. destruct GEMINI_API_KEY as [[|c key]|]; cbn.
    + split; [intros [E _]; discriminate | intros (k & E & Hk & _); congruence].
    + destruct (connect (c :: key) _) as [m'|e] eqn:C; cbn.
      * split.
        -- intros [_ E]. injection E as ->. exists (c :: key). repeat split;
            [discriminate | exact C].
        -- intros (k & E & _ & C'). injection E as <-. rewrite C in C'. injection C' as ->.
           now split.
      * split; [intros [E _]; discriminate|].
        intros (k & E & _ & C'). injection E as <-. rewrite C in C'. discriminate.
    + split; [intros [E _]; discriminate | intros (k & E & _); discriminate].
  - destruct GEMINI_API_KEY as [[|c key]|]; cbn; try tauto.
    destruct (connect (c :: key) _); cbn; [split; discriminate | tauto].
Qed.

Lemma prompt_of_head (to_string : DataFrame -> pystr) (g : globals) (m : GenerativeModel)
    (service : GenerativeModel -> pystr -> pyresult pystr) (df : DataFrame) (question : pystr) :
  USE_AI g = true -> model g = Some m ->
  run service (App.ai_chatbot to_string g df question)
  = (match service m (Spec.prompt (to_string (head 40 df)) question) with
     | Return text => text
     | Raise e => CROSS_MARK :: lit " Gemini API error: " ++ exn_str e
     end,
     [Spec.prompt (to_string (head 40 df)) question]).
Proof.
  intros Hu Hm. unfold App.ai_chatbot. rewrite Hu, Hm. cbn [negb run].
  change (service m _) with (service m (Spec.prompt (to_string (head 40 df)) question)).
  now destruct (service m _).
Qed.

(** X9. After the start-up block a question has one of three outcomes.
    Disabled bridge: the fixed message, nothing sent.  Otherwise the prompt
    is sent once, without retry, and the answer is the text of the model as
    it is, or, when the call raises, the Gemini API error line with the text
    of the exception.  The two files behave alike. *)
Theorem ai_chatbot_outcomes (connect : pystr -> pystr -> pyresult GenerativeModel)
    (GEMINI_API_KEY : option pystr) (to_string : DataFrame -> pystr)
    (service : GenerativeModel -> pystr -> pyresult pystr)
    (df : DataFrame) (question : pystr) :
  ((USE_AI (App.load_gemini connect GEMINI_API_KEY) = false
    /\ run service (App.ai_chatbot to_string (App.load_gemini connect GEMINI_API_KEY)
                      df question)
       = (Spec.disabled_message, []))
   \/ (exists m,
         model (App.load_gemini connect GEMINI_API_KEY) = Some m
         /\ run service (App.ai_chatbot to_string (App.load_gemini connect GEMINI_API_KEY)
                           df question)
            = (match service m (Spec.prompt (to_string (head 40 df)) question) with
               | Return text => text
               | Raise e => CROSS_MARK :: lit " Gemini API error: " ++ exn_str e
               end,
               [Spec.prompt (to_string (head 40 df)) question])))
  /\ Chatbot.ai_chatbot to_string (Chatbot.load_gemini connect GEMINI_API_KEY) df question
     = App.ai_chatbot to_string (App.load_gemini connect GEMINI_API_KEY) df question.
Proof.
  split; [|reflexivity].
  destruct (USE_AI (App.load_gemini connect GEMINI_API_KEY)) eqn:Hu.
  - right. destruct (model (App.load_gemini connect GEMINI_API_KEY)) as [m|] eqn:Hm.
    + exists m. split; [reflexivity|]. now apply prompt_of_head.
    + apply (load_gemini_enabled_state connect GEMINI_API_KEY) in Hm. congruence.
  - left. split; [reflexivity|]. unfold App.ai_chatbot. now rewrite Hu.
Qed.

(** X10. The question goes into the prompt as it is, and the prompt tells
    questions apart: on the same dataset two questions give the same prompt
    only if they are the same question. *)
Theorem prompt_carries_question (to_string : DataFrame -> pystr)
    (service : GenerativeModel -> pystr -> pyresult pystr)
    (g : globals) (m : GenerativeModel) (df : DataFrame) (question : pystr) :
  USE_AI g = true ->
  model g = Some m ->
  exists p,
    snd (run service (App.ai_chatbot to_string g df question)) = [p]
    /\ contains question p = true
    /\ forall question',
         snd (run service (App.ai_chatbot to_string g df question')) = [p] ->
         question' = question.
Proof.
  intros Hu Hm. exists (Spec.prompt (to_string (head 40 df)) question).
  rewrite (prompt_of_head to_string g m service df question Hu Hm). cbn [snd].
  split; [reflexivity|]. split.
  - apply contains_substring. unfold Spec.prompt.
    exists ([NEWLINE] ++ lit "You are a data analyst." ++ [NEWLINE]
              ++ lit "Answer ONLY using the Steam dataset below." ++ [NEWLINE]
              ++ [NEWLINE] ++ lit "DATA SAMPLE:" ++ [NEWLINE]
              ++ to_string (head 40 df) ++ [NEWLINE] ++ [NEWLINE]
              ++ lit "QUESTION:" ++ [NEWLINE]).
    eexists. repeat rewrite <- app_assoc. reflexivity.
  - intros question'. rewrite (prompt_of_head to_string g m service df question' Hu Hm).
    cbn [snd]. intros E. injection E as E. unfold Spec.prompt in E.
    repeat apply app_inv_head in E. injection E as E. now apply app_inv_tail in E.
Qed.

Lemma prompt_carries_question_witness :
  USE_AI Sample.connected = true
  /\ model Sample.connected = Some Sample.flash_lite
  /\ exists p,
       snd (run Sample.canned
              (App.ai_chatbot Sample.to_string_rows Sample.connected Sample.three_games
                 (lit "Which genre sells best?"))) = [p]
       /\ contains (lit "Which genre sells best?") p = true.
Proof.
  split; [reflexivity|]. split; [reflexivity|].
  destruct (prompt_carries_question Sample.to_string_rows Sample.canned Sample.connected
              Sample.flash_lite Sample.three_games (lit "Which genre sells best?")
              eq_refl eq_refl) as (p & E & C & _).
  exists p. now split.
Defined.

(* ================================================================= *)
(** ** The scripts *)

Import Streamlit.

Lemma prompts_app (t t' : list event) : prompts (t ++ t') = prompts t ++ prompts t'.
Proof. apply flat_map_app. Qed.

Lemma outputs_app (t t' : list event) : outputs (t ++ t') = outputs t ++ outputs t'.
Proof. apply flat_map_app. Qed.

Lemma prompts_sent (sent : list pystr) : prompts (map Sent sent) = sent.
Proof. induction sent as [|p sent IH]; simpl; [reflexivity | now rewrite IH]. Qed.

Lemma outputs_sent (sent : list pystr) : outputs (map Sent sent) = [].
Proof. induction sent as [|p sent IH]; simpl; [reflexivity | exact IH]. Qed.

(** What the query block of chatbot.py does, seen from outside: its result,
    the prompts it sends and the answers and data it shows. *)
Lemma user_interface_observed (ucd : ucd_lower) (sort_values : sorter)
    (to_string : DataFrame -> pystr)
    (service : GenerativeModel -> pystr -> pyresult pystr)
    (g : globals) (df : DataFrame) (show_data use_ai : bool) (query : pystr) :
  let run_ai := run service (Chatbot.ai_chatbot to_string g df query) in
  let preview := if show_data then [st_dataframe (head 50 df)] else [] in
  let t := fst (ChatbotScript.user_interface ucd sort_values to_string service g df show_data
      use_ai query) in
  let r := snd (ChatbotScript.user_interface ucd sort_values to_string service g df show_data
      use_ai query) in
  match query with
  | [] => r = Return tt /\ prompts t = [] /\ outputs t = preview
  | _ :: _ =>
      match Chatbot.simple_chatbot ucd sort_values df query with
      | Raise e => r = Raise e /\ prompts t = [] /\ outputs t = []
      | Return a =>
          r = Return tt
          /\ prompts t = (if use_ai && USE_AI g then snd run_ai else [])
          /\ outputs t
             = match a with
               | Frame games => st_dataframe_games games
               | Text s => st_success s
               end
               :: (if use_ai && USE_AI g then [st_info (fst run_ai)] else [])
               ++ preview
      end
  end.
Proof.
  cbv zeta. unfold ChatbotScript.user_interface.
  destruct query as [|c query]; [destruct show_data; repeat split|].
  destruct (Chatbot.simple_chatbot ucd sort_values df (c :: query)) as [[s|games]|e];
    [| |repeat split];
    (destruct (use_ai && USE_AI g);
     [ unfold perform;
       destruct (run service (Chatbot.ai_chatbot to_string g df (c :: query))) as [a sent];
       destruct show_data; cbn;
       rewrite ?prompts_app, ?outputs_app, ?prompts_sent, ?outputs_sent;
       repeat split; cbn; now rewrite ?app_nil_r
     | destruct show_data; repeat split ]).
Qed.

Lemma ui_bind_emit {B : Type} (w : place) (e : element) (k : unit -> ui B) :
  fst (ui_bind (emit w e) k) = Show w e :: fst (k tt)
  /\ snd (ui_bind (emit w e) k) = snd (k tt).
Proof. unfold ui_bind, emit. now destruct (k tt). Qed.

(** The Chatbot page of app.py is a header and the two checkboxes, then the
    query block of chatbot.py. *)
Lemma chatbot_page_observed (ucd : ucd_lower) (sort_values : sorter)
    (to_string : DataFrame -> pystr)
    (service : GenerativeModel -> pystr -> pyresult pystr)
    (g : globals) (df : DataFrame) (show_data use_ai : bool) (query : pystr) :
  snd (AppScript.chatbot_page ucd sort_values to_string service g df show_data use_ai query)
  = snd (ChatbotScript.user_interface ucd sort_values to_string service g df show_data use_ai query)
  /\ prompts (fst (AppScript.chatbot_page ucd sort_values to_string service g df show_data use_ai
      query))
     = prompts (fst (ChatbotScript.user_interface ucd sort_values to_string service g df
                       show_data use_ai query))
  /\ outputs (fst (AppScript.chatbot_page ucd sort_values to_string service g df show_data use_ai
      query))
     = outputs (fst (ChatbotScript.user_interface ucd sort_values to_string service g df
                       show_data use_ai query)).
Proof.
  change (AppScript.chatbot_page ucd sort_values to_string service g df show_data use_ai query)
    with (ui_bind (emit Main (st_header (ROBOT_FACE :: lit " Steam AI Chatbot")))
            (fun _ => ui_bind (emit Sidebar (st_checkbox (BAR_CHART :: lit " Show Dataset") false))
            (fun _ => ui_bind (emit Sidebar (st_checkbox (ROBOT_FACE :: lit " Enable AI Answer")
                                               (USE_AI g)))
            (fun _ => ChatbotScript.user_interface ucd sort_values to_string service g df
                        show_data use_ai query)))).
  repeat (rewrite (proj1 (ui_bind_emit _ _ _)) || rewrite (proj2 (ui_bind_emit _ _ _))).
  repeat split.
Qed.

Lemma load_gemini_ai_observed (connect : pystr -> pystr -> pyresult GenerativeModel)
    (GEMINI_API_KEY : option pystr) :
  snd (AppScript.load_gemini_ai connect GEMINI_API_KEY)
  = Return (App.load_gemini connect GEMINI_API_KEY)
  /\ prompts (fst (AppScript.load_gemini_ai connect GEMINI_API_KEY)) = []
  /\ outputs (fst (AppScript.load_gemini_ai connect GEMINI_API_KEY)) = [].
Proof.
  destruct GEMINI_API_KEY as [[|c key]|]; cbn; [repeat split| |repeat split].
  destruct (connect (c :: key) _); repeat split.
Qed.

Lemma load_env_gemini_observed (connect : pystr -> pystr -> pyresult GenerativeModel)
    (GEMINI_API_KEY : option pystr) :
  snd (ChatbotScript.load_env_gemini connect GEMINI_API_KEY)
  = Return (Chatbot.load_gemini connect GEMINI_API_KEY)
  /\ prompts (fst (ChatbotScript.load_env_gemini connect GEMINI_API_KEY)) = []
  /\ outputs (fst (ChatbotScript.load_env_gemini connect GEMINI_API_KEY)) = [].
Proof.
  destruct GEMINI_API_KEY as [[|c key]|]; cbn; [repeat split| |repeat split].
  destruct (connect (c :: key) _); repeat split.
Qed.

Lemma ui_bind_fst {A B : Type} (m : ui A) (k : A -> ui B) :
  fst (ui_bind m k)
  = fst m ++ match snd m with
             | Return a => fst (k a)
             | Raise _ => []
             end.
Proof.
  destruct m as [t [a|e]]; simpl; [|now rewrite app_nil_r]. now destruct (k a).
Qed.

Lemma ui_bind_snd {A B : Type} (m : ui A) (k : A -> ui B) :
  snd (ui_bind m k)
  = match snd m with
    | Return a => snd (k a)
    | Raise e => Raise e
    end.
Proof. destruct m as [t [a|e]]; simpl; [|reflexivity]. now destruct (k a). Qed.

(** Run a script up to its first block that is not an [emit]. *)
Ltac run_script :=
  repeat (first [rewrite ui_bind_snd | rewrite ui_bind_fst];
          cbn [fst snd emit eval ret]).

(** The page that app.py renders after the navigation. *)
Lemma app_main_loaded (ucd : ucd_lower) (sort_values : sorter) (to_string : DataFrame -> pystr)
    (read_csv : pystr -> pyresult DataFrame)
    (connect : pystr -> pystr -> pyresult GenerativeModel)
    (service : GenerativeModel -> pystr -> pyresult pystr)
    (GEMINI_API_KEY : option pystr) (page : pystr) (show_data use_ai : bool) (query : pystr)
    (df : DataFrame) (body : ui unit) :
  read_csv (lit "data/a_steam_data_2021_2025.csv") = Return df ->
  body = (if pystr_eq_dec page (lit "Dashboard") then AppScript.dashboard_page sort_values df
          else if pystr_eq_dec page (lit "Dataset") then AppScript.dataset_page df
          else if pystr_eq_dec page (lit "Chatbot") then
            AppScript.chatbot_page ucd sort_values to_string service
              (App.load_gemini connect GEMINI_API_KEY) df show_data use_ai query
          else ret tt) ->
  snd (AppScript.main ucd sort_values to_string read_csv connect service GEMINI_API_KEY
         page show_data use_ai query) = snd body
  /\ prompts (fst (AppScript.main ucd sort_values to_string read_csv connect service GEMINI_API_KEY
                     page show_data use_ai query)) = prompts (fst body)
  /\ outputs (fst (AppScript.main ucd sort_values to_string read_csv connect service GEMINI_API_KEY
                     page show_data use_ai query)) = outputs (fst body).
Proof.
  intros Hcsv Hbody. unfold AppScript.main, AppScript.load_data.
  destruct (load_gemini_ai_observed connect GEMINI_API_KEY) as (Hs & Hp & Ho).
  run_script. rewrite Hcsv. run_script. rewrite Hs. run_script.
  rewrite <- Hbody, !prompts_app, !outputs_app, Hp, Ho. repeat split.
Qed.

Lemma sidebar_observed (g : globals) :
  snd (ChatbotScript.sidebar g) = Return tt
  /\ prompts (fst (ChatbotScript.sidebar g)) = []
  /\ outputs (fst (ChatbotScript.sidebar g)) = [].
Proof. unfold ChatbotScript.sidebar. run_script. repeat split. Qed.

(** The block that chatbot.py runs once the dataset is loaded. *)
Lemma chatbot_main_loaded (ucd : ucd_lower) (sort_values : sorter) (to_string : DataFrame -> pystr)
    (read_csv : pystr -> pyresult DataFrame)
    (connect : pystr -> pystr -> pyresult GenerativeModel)
    (service : GenerativeModel -> pystr -> pyresult pystr)
    (GEMINI_API_KEY : option pystr) (show_data use_ai : bool) (query : pystr)
    (df : DataFrame) (body : ui unit) :
  read_csv (lit "data/a_steam_data_2021_2025.csv") = Return df ->
  body = ChatbotScript.user_interface ucd sort_values to_string service
           (Chatbot.load_gemini connect GEMINI_API_KEY) df show_data use_ai query ->
  snd (ChatbotScript.main ucd sort_values to_string read_csv connect service GEMINI_API_KEY
         show_data use_ai query) = snd body
  /\ prompts (fst (ChatbotScript.main ucd sort_values to_string read_csv connect service
      GEMINI_API_KEY show_data use_ai query)) = prompts (fst body)
  /\ outputs (fst (ChatbotScript.main ucd sort_values to_string read_csv connect service
      GEMINI_API_KEY show_data use_ai query)) = outputs (fst body).
Proof.
  intros Hcsv Hbody. unfold ChatbotScript.main, ChatbotScript.load_data.
  destruct (load_env_gemini_observed connect GEMINI_API_KEY) as (Hs & Hp & Ho).
  destruct (sidebar_observed (Chatbot.load_gemini connect GEMINI_API_KEY)) as (Ss & Sp & So).
  run_script. rewrite Hs. run_script. rewrite Hcsv. run_script. rewrite Ss.
  rewrite <- Hbody, !prompts_app, !outputs_app, Hp, Ho, Sp, So. repeat split.
Qed.

Lemma app_main_not_loaded (ucd : ucd_lower) (sort_values : sorter) (to_string : DataFrame -> pystr)
    (read_csv : pystr -> pyresult DataFrame)
    (connect : pystr -> pystr -> pyresult GenerativeModel)
    (service : GenerativeModel -> pystr -> pyresult pystr)
    (GEMINI_API_KEY : option pystr) (page : pystr) (show_data use_ai : bool) (query : pystr)
    (e : exn) :
  read_csv (lit "data/a_steam_data_2021_2025.csv") = Raise e ->
  AppScript.main ucd sort_values to_string read_csv connect service GEMINI_API_KEY
    page show_data use_ai query
  = ([Show Main (st_set_page_config (lit "Steam Games Dashboard") None (lit "wide"));
      Show Main (st_title (VIDEO_GAME :: lit " Steam Games Analytics & Chatbot"))],
     Raise e).
Proof.
  intros Hcsv. unfold AppScript.main, AppScript.load_data. rewrite Hcsv. reflexivity.
Qed.

Lemma chatbot_main_not_loaded (ucd : ucd_lower) (sort_values : sorter)
    (to_string : DataFrame -> pystr)
    (read_csv : pystr -> pyresult DataFrame)
    (connect : pystr -> pystr -> pyresult GenerativeModel)
    (service : GenerativeModel -> pystr -> pyresult pystr)
    (GEMINI_API_KEY : option pystr) (show_data use_ai : bool) (query : pystr) (e : exn) :
  read_csv (lit "data/a_steam_data_2021_2025.csv") = Raise e ->
  snd (ChatbotScript.main ucd sort_values to_string read_csv connect service GEMINI_API_KEY
         show_data use_ai query) = Raise e
  /\ prompts (fst (ChatbotScript.main ucd sort_values to_string read_csv connect service
      GEMINI_API_KEY show_data use_ai query)) = []
  /\ outputs (fst (ChatbotScript.main ucd sort_values to_string read_csv connect service
      GEMINI_API_KEY show_data use_ai query)) = [].
Proof.
  intros Hcsv. unfold ChatbotScript.main, ChatbotScript.load_data.
  destruct (load_env_gemini_observed connect GEMINI_API_KEY) as (Hs & Hp & Ho).
  run_script. rewrite Hs. run_script. rewrite Hcsv.
  rewrite !prompts_app, !outputs_app, Hp, Ho. repeat split.
Qed.

Lemma dashboard_observed (sort_values : sorter) (df : DataFrame) :
  prompts (fst (AppScript.dashboard_page sort_values df)) = []
  /\ match price_mean df with
     | Raise e =>
         snd (AppScript.dashboard_page sort_values df) = Raise e
         /\ outputs (fst (AppScript.dashboard_page sort_values df))
            = [st_metric (VIDEO_GAME :: lit " Total Games") (str_nat (len df))]
     | Return m =>
         match idxmax (value_counts pystr_eq_dec sort_values (column genres df)) with
         | Return top =>
             snd (AppScript.dashboard_page sort_values df) = Return tt
             /\ outputs (fst (AppScript.dashboard_page sort_values df))
                = [st_metric (VIDEO_GAME :: lit " Total Games") (str_nat (len df));
                   st_metric (HEAVY_DOLLAR_SIGN :: lit " Average Price")
                     (lit "$" ++ format_2f m);
                   st_metric (TROPHY :: lit " Top Genre") top;
                   st_plotly_chart_bar (lit "Games Released per Year")
                     (lit "release_year") (lit "count")
                     (groupby_size (column release_year df))]
         | Raise e =>
             snd (AppScript.dashboard_page sort_values df) = Raise e
             /\ outputs (fst (AppScript.dashboard_page sort_values df))
                = [st_metric (VIDEO_GAME :: lit " Total Games") (str_nat (len df));
                   st_metric (HEAVY_DOLLAR_SIGN :: lit " Average Price")
                     (lit "$" ++ format_2f m)]
         end
     end.
Proof.
  unfold AppScript.dashboard_page. run_script.
  destruct (price_mean df); run_script; [|repeat split].
  destruct (idxmax (value_counts pystr_eq_dec sort_values (column genres df)));
    run_script; repeat split.
Qed.

Lemma dataset_observed (df : DataFrame) :
  AppScript.dataset_page df
  = ([Show Main (st_header (CLIPBOARD :: lit " Steam Dataset"));
      Show Main (st_dataframe (head 50 df))], Return tt).
Proof. reflexivity. Qed.

Lemma load_gemini_true (connect : pystr -> pystr -> pyresult GenerativeModel)
    (GEMINI_API_KEY : option pystr) :
  USE_AI (App.load_gemini connect GEMINI_API_KEY) = true ->
  exists key m, GEMINI_API_KEY = Some key /\ key <> []
                /\ connect key (lit "models/gemini-2.5-flash-lite") = Return m
                /\ model (App.load_gemini connect GEMINI_API_KEY) = Some m.
Proof.
  destruct GEMINI_API_KEY as [[|c key]|]; cbn; try discriminate.
  destruct (connect (c :: key) _) as [m|e] eqn:C; cbn; [|discriminate].
  intros _. exists (c :: key), m.
  split; [reflexivity|]. split; [discriminate|]. split; [exact C | reflexivity].
Qed.

Lemma page_is_chatbot {A : Type} (a b c d : A) :
  (if pystr_eq_dec (lit "Chatbot") (lit "Dashboard") then a
   else if pystr_eq_dec (lit "Chatbot") (lit "Dataset") then b
   else if pystr_eq_dec (lit "Chatbot") (lit "Chatbot") then c
   else d) = c.
Proof.
  destruct (pystr_eq_dec (lit "Chatbot") (lit "Dashboard")) as [E|_]; [discriminate E|].
  destruct (pystr_eq_dec (lit "Chatbot") (lit "Dataset")) as [E|_]; [discriminate E|].
  destruct (pystr_eq_dec (lit "Chatbot") (lit "Chatbot")) as [_|N]; [reflexivity|].
  now destruct N.
Qed.

Lemma page_is_dashboard {A : Type} (a b : A) :
  (if pystr_eq_dec (lit "Dashboard") (lit "Dashboard") then a else b) = a.
Proof.
  destruct (pystr_eq_dec (lit "Dashboard") (lit "Dashboard")) as [_|N]; [reflexivity|].
  now destruct N.
Qed.

Lemma page_is_dataset {A : Type} (a b c : A) :
  (if pystr_eq_dec (lit "Dataset") (lit "Dashboard") then a
   else if pystr_eq_dec (lit "Dataset") (lit "Dataset") then b
   else c) = b.
Proof.
  destruct (pystr_eq_dec (lit "Dataset") (lit "Dashboard")) as [E|_]; [discriminate E|].
  destruct (pystr_eq_dec (lit "Dataset") (lit "Dataset")) as [_|N]; [reflexivity|].
  now destruct N.
Qed.

(** The Chatbot page of app.py, once the dataset is loaded, seen through
    the query block of chatbot.py. *)
Lemma app_chatbot_page_loaded (ucd : ucd_lower) (sort_values : sorter)
    (to_string : DataFrame -> pystr)
    (read_csv : pystr -> pyresult DataFrame)
    (connect : pystr -> pystr -> pyresult GenerativeModel)
    (service : GenerativeModel -> pystr -> pyresult pystr)
    (GEMINI_API_KEY : option pystr) (show_data use_ai : bool) (query : pystr)
    (df : DataFrame) :
  read_csv (lit "data/a_steam_data_2021_2025.csv") = Return df ->
  snd (AppScript.main ucd sort_values to_string read_csv connect service GEMINI_API_KEY
         (lit "Chatbot") show_data use_ai query)
  = snd (ChatbotScript.user_interface ucd sort_values to_string service
           (Chatbot.load_gemini connect GEMINI_API_KEY) df show_data use_ai query)
  /\ prompts (fst (AppScript.main ucd sort_values to_string read_csv connect service GEMINI_API_KEY
                     (lit "Chatbot") show_data use_ai query))
     = prompts (fst (ChatbotScript.user_interface ucd sort_values to_string service
                       (Chatbot.load_gemini connect GEMINI_API_KEY) df show_data use_ai query))
  /\ outputs (fst (AppScript.main ucd sort_values to_string read_csv connect service GEMINI_API_KEY
                     (lit "Chatbot") show_data use_ai query))
     = outputs (fst (ChatbotScript.user_interface ucd sort_values to_string service
                       (Chatbot.load_gemini connect GEMINI_API_KEY) df show_data use_ai query)).
Proof.
  intros Hcsv.
  destruct (app_main_loaded ucd sort_values to_string read_csv connect service GEMINI_API_KEY
              (lit "Chatbot") show_data use_ai query df
              (AppScript.chatbot_page ucd sort_values to_string service
                 (App.load_gemini connect GEMINI_API_KEY) df show_data use_ai query)
              Hcsv
              (eq_sym (page_is_chatbot (AppScript.dashboard_page sort_values df)
                         (AppScript.dataset_page df) _ (ret tt)))) as (E1 & E2 & E3).
  rewrite E1, E2, E3. apply chatbot_page_observed.
Qed.

(** X11. On the Chatbot page app.py behaves as chatbot.py does: for the
    same inputs, key, dataset file and service, both runs end alike (normally
    or with the same exception), send the same prompts and show the same
    answers and data. *)
Theorem scripts_agree_on_chatbot_page (ucd : ucd_lower) (sort_values : sorter)
    (to_string : DataFrame -> pystr)
    (read_csv : pystr -> pyresult DataFrame)
    (connect : pystr -> pystr -> pyresult GenerativeModel)
    (service : GenerativeModel -> pystr -> pyresult pystr)
    (GEMINI_API_KEY : option pystr) (show_data use_ai : bool) (query : pystr) :
  snd (AppScript.main ucd sort_values to_string read_csv connect service GEMINI_API_KEY
         (lit "Chatbot") show_data use_ai query)
  = snd (ChatbotScript.main ucd sort_values to_string read_csv connect service GEMINI_API_KEY
           show_data use_ai query)
  /\ prompts (fst (AppScript.main ucd sort_values to_string read_csv connect service GEMINI_API_KEY
                     (lit "Chatbot") show_data use_ai query))
     = prompts (fst (ChatbotScript.main ucd sort_values to_string read_csv connect service
         GEMINI_API_KEY show_data use_ai query))
  /\ outputs (fst (AppScript.main ucd sort_values to_string read_csv connect service GEMINI_API_KEY
                     (lit "Chatbot") show_data use_ai query))
     = outputs (fst (ChatbotScript.main ucd sort_values to_string read_csv connect service
         GEMINI_API_KEY show_data use_ai query)).
Proof.
  destruct (read_csv (lit "data/a_steam_data_2021_2025.csv")) as [df|e] eqn:Hcsv.
  - destruct (app_chatbot_page_loaded ucd sort_values to_string read_csv connect service
      GEMINI_API_KEY show_data use_ai query df Hcsv) as (A1 & A2 & A3).
    destruct (chatbot_main_loaded ucd sort_values to_string read_csv connect service GEMINI_API_KEY
                show_data use_ai query df _ Hcsv eq_refl) as (C1 & C2 & C3).
    now rewrite A1, A2, A3, C1, C2, C3.
  - destruct (chatbot_main_not_loaded ucd sort_values to_string read_csv connect service
      GEMINI_API_KEY show_data use_ai query e Hcsv) as (C1 & C2 & C3).
    rewrite C1, C2, C3.
    now rewrite (app_main_not_loaded ucd sort_values to_string read_csv connect service
        GEMINI_API_KEY (lit "Chatbot") show_data use_ai query e Hcsv).
Qed.

(** X12. app.py sends a prompt to the hosted model only on the Chatbot page,
    for a query that is not empty and that the rule-based chatbot answered,
    with the AI checkbox ticked and a key that the client accepted; it then
    sends exactly one prompt, built from the first 40 rows and the query. *)
Theorem app_sends_prompt_only_when_enabled (ucd : ucd_lower) (sort_values : sorter)
    (to_string : DataFrame -> pystr)
    (read_csv : pystr -> pyresult DataFrame)
    (connect : pystr -> pystr -> pyresult GenerativeModel)
    (service : GenerativeModel -> pystr -> pyresult pystr)
    (GEMINI_API_KEY : option pystr) (page : pystr) (show_data use_ai : bool) (query : pystr) :
  prompts (fst (AppScript.main ucd sort_values to_string read_csv connect service GEMINI_API_KEY
                  page show_data use_ai query)) <> [] ->
  page = lit "Chatbot" /\ query <> [] /\ use_ai = true
  /\ exists df a key m,
       read_csv (lit "data/a_steam_data_2021_2025.csv") = Return df
       /\ GEMINI_API_KEY = Some key /\ key <> []
       /\ connect key (lit "models/gemini-2.5-flash-lite") = Return m
       /\ App.simple_chatbot ucd sort_values df query = Return a
       /\ prompts (fst (AppScript.main ucd sort_values to_string read_csv connect service
           GEMINI_API_KEY page show_data use_ai query))
          = [Spec.prompt (to_string (head 40 df)) query].
Proof.
  intros H.
  destruct (read_csv (lit "data/a_steam_data_2021_2025.csv")) as [df|e] eqn:Hcsv.
  2:{ rewrite (app_main_not_loaded ucd sort_values to_string read_csv connect service GEMINI_API_KEY
                 page show_data use_ai query e Hcsv) in H. now destruct H. }
  destruct (app_main_loaded ucd sort_values to_string read_csv connect service GEMINI_API_KEY
              page show_data use_ai query df _ Hcsv eq_refl) as (_ & Hp & _).
  destruct (pystr_eq_dec page (lit "Dashboard")) as [->|_].
  { rewrite Hp, (proj1 (dashboard_observed sort_values df)) in H. now destruct H. }
  destruct (pystr_eq_dec page (lit "Dataset")) as [->|_].
  { rewrite Hp, dataset_observed in H. now destruct H. }
  destruct (pystr_eq_dec page (lit "Chatbot")) as [->|_]; [|rewrite Hp in H; now destruct H].
  rewrite Hp in *. clear Hp.
  rewrite (proj1 (proj2 (chatbot_page_observed _ _ _ _ _ _ _ _ _))) in *.
  pose proof (user_interface_observed ucd sort_values to_string service
                (App.load_gemini connect GEMINI_API_KEY) df show_data use_ai query) as O.
  cbv zeta in O. destruct query as [|c query]; [destruct O as (_ & O & _); congruence|].
  change (Chatbot.simple_chatbot ucd sort_values df (c :: query))
    with (App.simple_chatbot ucd sort_values df (c :: query)) in O.
  destruct (App.simple_chatbot ucd sort_values df (c :: query)) as [a|e] eqn:Ea;
    [|destruct O as (_ & O & _); congruence].
  destruct O as (_ & O & _). rewrite O in *. clear O.
  destruct use_ai; [|now destruct H].
  destruct (USE_AI (App.load_gemini connect GEMINI_API_KEY)) eqn:Hu; [|now destruct H].
  destruct (load_gemini_true connect GEMINI_API_KEY Hu) as (key & m & Ek & Hk & Ec & Hm).
  split; [reflexivity|]. split; [discriminate|]. split; [reflexivity|].
  exists df, a, key, m. repeat (split; [assumption || reflexivity|]).
  cbn [andb].
  change (Chatbot.ai_chatbot to_string (App.load_gemini connect GEMINI_API_KEY) df (c :: query))
    with (App.ai_chatbot to_string (App.load_gemini connect GEMINI_API_KEY) df (c :: query)).
  now rewrite (prompt_of_head to_string _ m service df (c :: query) Hu Hm).
Qed.

Lemma app_sends_prompt_only_when_enabled_witness :
  prompts (fst (AppScript.main ucd_identity Sample.stable_sort Sample.to_string_rows
                  (fun _ => Return Sample.three_games)
                  (fun _ name => Return {| model_name := name |}) Sample.canned
                  (Some (lit "secret")) (lit "Chatbot") false true (lit "top genre"))) <> []
  /\ exists df,
       (fun _ : pystr => Return Sample.three_games) (lit "data/a_steam_data_2021_2025.csv")
       = Return df
       /\ prompts (fst (AppScript.main ucd_identity Sample.stable_sort Sample.to_string_rows
                          (fun _ => Return Sample.three_games)
                          (fun _ name => Return {| model_name := name |}) Sample.canned
                          (Some (lit "secret")) (lit "Chatbot") false true (lit "top genre")))
          = [Spec.prompt (Sample.to_string_rows (head 40 df)) (lit "top genre")].
Proof.
  assert (H : prompts (fst (AppScript.main ucd_identity Sample.stable_sort Sample.to_string_rows
                  (fun _ => Return Sample.three_games)
                  (fun _ name => Return {| model_name := name |}) Sample.canned
                  (Some (lit "secret")) (lit "Chatbot") false true (lit "top genre"))) <> [])
    by (vm_compute; discriminate).
  split; [exact H|].
  destruct (app_sends_prompt_only_when_enabled _ _ _ _ _ _ _ _ _ _ _ H)
    as (_ & _ & _ & df & a & key & m & E1 & _ & _ & _ & _ & E2).
  exists df. now split.
Defined.

(** X13. An error of the rule-based chatbot ends the run.  When the query
    is not empty and [simple_chatbot] raises, both scripts stop with that
    exception: no answer, no AI explanation and no dataset preview is shown
    and no prompt is sent, whatever the checkboxes and the key. *)
Theorem chatbot_error_ends_the_run (ucd : ucd_lower) (sort_values : sorter)
    (to_string : DataFrame -> pystr)
    (read_csv : pystr -> pyresult DataFrame)
    (connect : pystr -> pystr -> pyresult GenerativeModel)
    (service : GenerativeModel -> pystr -> pyresult pystr)
    (GEMINI_API_KEY : option pystr) (show_data use_ai : bool) (query : pystr)
    (df : DataFrame) (e : exn) :
  read_csv (lit "data/a_steam_data_2021_2025.csv") = Return df ->
  query <> [] ->
  App.simple_chatbot ucd sort_values df query = Raise e ->
  (snd (AppScript.main ucd sort_values to_string read_csv connect service GEMINI_API_KEY
          (lit "Chatbot") show_data use_ai query) = Raise e
   /\ prompts (fst (AppScript.main ucd sort_values to_string read_csv connect service GEMINI_API_KEY
                      (lit "Chatbot") show_data use_ai query)) = []
   /\ outputs (fst (AppScript.main ucd sort_values to_string read_csv connect service GEMINI_API_KEY
                      (lit "Chatbot") show_data use_ai query)) = [])
  /\ (snd (ChatbotScript.main ucd sort_values to_string read_csv connect service GEMINI_API_KEY
             show_data use_ai query) = Raise e
      /\ prompts (fst (ChatbotScript.main ucd sort_values to_string read_csv connect service
                         GEMINI_API_KEY show_data use_ai query)) = []
      /\ outputs (fst (ChatbotScript.main ucd sort_values to_string read_csv connect service
                         GEMINI_API_KEY show_data use_ai query)) = []).
Proof.
  intros Hcsv Hq He.
  destruct (app_chatbot_page_loaded ucd sort_values to_string read_csv connect service
      GEMINI_API_KEY show_data use_ai query df Hcsv) as (A1 & A2 & A3).
  destruct (chatbot_main_loaded ucd sort_values to_string read_csv connect service GEMINI_API_KEY
              show_data use_ai query df _ Hcsv eq_refl) as (C1 & C2 & C3).
  rewrite A1, A2, A3, C1, C2, C3.
  pose proof (user_interface_observed ucd sort_values to_string service
                (Chatbot.load_gemini connect GEMINI_API_KEY) df show_data use_ai query) as O.
  cbv zeta in O. destruct query as [|c query]; [congruence|].
  change (Chatbot.simple_chatbot ucd sort_values df (c :: query))
    with (App.simple_chatbot ucd sort_values df (c :: query)) in O.
  rewrite He in O. now split.
Qed.

Lemma chatbot_error_ends_the_run_witness :
  (fun _ : pystr => Return [Sample.blank 5]) (lit "data/a_steam_data_2021_2025.csv")
  = Return [Sample.blank 5]
  /\ lit "top genre" <> []
  /\ App.simple_chatbot ucd_identity Sample.stable_sort [Sample.blank 5] (lit "top genre")
     = Raise (ValueError (lit "attempt to get argmax of an empty sequence"))
  /\ outputs (fst (ChatbotScript.main ucd_identity Sample.stable_sort Sample.to_string_rows
                     (fun _ => Return [Sample.blank 5])
                     (fun _ name => Return {| model_name := name |}) Sample.canned
                     (Some (lit "secret")) true true (lit "top genre"))) = [].
Proof.
  split; [reflexivity|]. split; [discriminate|]. split; [reflexivity|].
  exact (proj2 (proj2 (proj2
           (chatbot_error_ends_the_run ucd_identity Sample.stable_sort Sample.to_string_rows
              (fun _ => Return [Sample.blank 5])
              (fun _ name => Return {| model_name := name |}) Sample.canned
              (Some (lit "secret")) true true (lit "top genre") [Sample.blank 5]
              (ValueError (lit "attempt to get argmax of an empty sequence"))
              eq_refl ltac:(discriminate) eq_refl)))).
Defined.

(** X14. An answered query is shown once.  When the query is not empty and
    [simple_chatbot] returns, the run ends normally and shows, in this order:
    the answer, as a table when it is the games-per-year frame and in a
    success box otherwise; the answer of [ai_chatbot], when the AI checkbox
    is ticked and the bridge is enabled; the first 50 rows, when the dataset
    checkbox is ticked. *)
Theorem answered_query_is_shown (ucd : ucd_lower) (sort_values : sorter)
    (to_string : DataFrame -> pystr)
    (read_csv : pystr -> pyresult DataFrame)
    (connect : pystr -> pystr -> pyresult GenerativeModel)
    (service : GenerativeModel -> pystr -> pyresult pystr)
    (GEMINI_API_KEY : option pystr) (show_data use_ai : bool) (query : pystr)
    (df : DataFrame) (a : answer) :
  read_csv (lit "data/a_steam_data_2021_2025.csv") = Return df ->
  query <> [] ->
  App.simple_chatbot ucd sort_values df query = Return a ->
  snd (AppScript.main ucd sort_values to_string read_csv connect service GEMINI_API_KEY
         (lit "Chatbot") show_data use_ai query) = Return tt
  /\ outputs (fst (AppScript.main ucd sort_values to_string read_csv connect service GEMINI_API_KEY
                     (lit "Chatbot") show_data use_ai query))
     = match a with
       | Frame games => st_dataframe_games games
       | Text s => st_success s
       end
       :: (if use_ai && USE_AI (App.load_gemini connect GEMINI_API_KEY)
           then [st_info (fst (run service
                                 (App.ai_chatbot to_string
                                    (App.load_gemini connect GEMINI_API_KEY) df query)))]
           else [])
       ++ (if show_data then [st_dataframe (firstn 50 df)] else [])
  /\ outputs (fst (ChatbotScript.main ucd sort_values to_string read_csv connect service
      GEMINI_API_KEY show_data use_ai query))
     = outputs (fst (AppScript.main ucd sort_values to_string read_csv connect service
         GEMINI_API_KEY (lit "Chatbot") show_data use_ai query)).
Proof.
  intros Hcsv Hq Ha.
  destruct (app_chatbot_page_loaded ucd sort_values to_string read_csv connect service
      GEMINI_API_KEY show_data use_ai query df Hcsv) as (A1 & A2 & A3).
  destruct (chatbot_main_loaded ucd sort_values to_string read_csv connect service GEMINI_API_KEY
              show_data use_ai query df _ Hcsv eq_refl) as (C1 & C2 & C3).
  rewrite A1, A3, C3.
  pose proof (user_interface_observed ucd sort_values to_string service
                (Chatbot.load_gemini connect GEMINI_API_KEY) df show_data use_ai query) as O.
  cbv zeta in O. destruct query as [|c query]; [congruence|].
  change (Chatbot.simple_chatbot ucd sort_values df (c :: query))
    with (App.simple_chatbot ucd sort_values df (c :: query)) in O.
  rewrite Ha in O. destruct O as (O1 & _ & O3). rewrite O1, O3. repeat split.
Qed.

Lemma answered_query_is_shown_witness :
  (fun _ : pystr => Return Sample.three_games) (lit "data/a_steam_data_2021_2025.csv")
  = Return Sample.three_games
  /\ lit "games per year" <> []
  /\ App.simple_chatbot ucd_identity Sample.stable_sort Sample.three_games (lit "games per year")
     = Return (Frame [(2021%Z, 2); (2022%Z, 1)])
  /\ snd (AppScript.main ucd_identity Sample.stable_sort Sample.to_string_rows
            (fun _ => Return Sample.three_games)
            (fun _ name => Return {| model_name := name |}) Sample.canned
            None (lit "Chatbot") false true (lit "games per year")) = Return tt.
Proof.
  split; [reflexivity|]. split; [discriminate|]. split; [reflexivity|].
  exact (proj1 (answered_query_is_shown ucd_identity Sample.stable_sort Sample.to_string_rows
                  (fun _ => Return Sample.three_games)
                  (fun _ name => Return {| model_name := name |}) Sample.canned
                  None false true (lit "games per year") Sample.three_games
                  (Frame [(2021%Z, 2); (2022%Z, 1)])
                  eq_refl ltac:(discriminate) eq_refl)).
Defined.

(** X15. An empty query is not answered: [simple_chatbot] and [ai_chatbot]
    are not called, so neither the help text nor any other answer is shown
    and no prompt is sent; only the dataset preview appears, when its
    checkbox is ticked. *)
Theorem empty_query_is_not_answered (ucd : ucd_lower) (sort_values : sorter)
    (to_string : DataFrame -> pystr)
    (read_csv : pystr -> pyresult DataFrame)
    (connect : pystr -> pystr -> pyresult GenerativeModel)
    (service : GenerativeModel -> pystr -> pyresult pystr)
    (GEMINI_API_KEY : option pystr) (show_data use_ai : bool) (df : DataFrame) :
  read_csv (lit "data/a_steam_data_2021_2025.csv") = Return df ->
  (snd (AppScript.main ucd sort_values to_string read_csv connect service GEMINI_API_KEY
          (lit "Chatbot") show_data use_ai []) = Return tt
   /\ prompts (fst (AppScript.main ucd sort_values to_string read_csv connect service GEMINI_API_KEY
                      (lit "Chatbot") show_data use_ai [])) = []
   /\ outputs (fst (AppScript.main ucd sort_values to_string read_csv connect service GEMINI_API_KEY
                      (lit "Chatbot") show_data use_ai []))
      = (if show_data then [st_dataframe (firstn 50 df)] else []))
  /\ (snd (ChatbotScript.main ucd sort_values to_string read_csv connect service GEMINI_API_KEY
             show_data use_ai []) = Return tt
      /\ prompts (fst (ChatbotScript.main ucd sort_values to_string read_csv connect service
                         GEMINI_API_KEY show_data use_ai [])) = []
      /\ outputs (fst (ChatbotScript.main ucd sort_values to_string read_csv connect service
                         GEMINI_API_KEY show_data use_ai []))
         = (if show_data then [st_dataframe (firstn 50 df)] else [])).
Proof.
  intros Hcsv.
  destruct (app_chatbot_page_loaded ucd sort_values to_string read_csv connect service
      GEMINI_API_KEY show_data use_ai [] df Hcsv) as (A1 & A2 & A3).
  destruct (chatbot_main_loaded ucd sort_values to_string read_csv connect service GEMINI_API_KEY
              show_data use_ai [] df _ Hcsv eq_refl) as (C1 & C2 & C3).
  rewrite A1, A2, A3, C1, C2, C3.
  pose proof (user_interface_observed ucd sort_values to_string service
                (Chatbot.load_gemini connect GEMINI_API_KEY) df show_data use_ai []) as O.
  cbv zeta in O. now split.
Qed.

Lemma empty_query_is_not_answered_witness :
  (fun _ : pystr => Return Sample.three_games) (lit "data/a_steam_data_2021_2025.csv")
  = Return Sample.three_games
  /\ outputs (fst (ChatbotScript.main ucd_identity Sample.stable_sort Sample.to_string_rows
                     (fun _ => Return Sample.three_games)
                     (fun _ name => Return {| model_name := name |}) Sample.canned
                     (Some (lit "secret")) false true [])) = [].
Proof.
  split; [reflexivity|].
  exact (proj2 (proj2 (proj2
           (empty_query_is_not_answered ucd_identity Sample.stable_sort Sample.to_string_rows
              (fun _ => Return Sample.three_games)
              (fun _ name => Return {| model_name := name |}) Sample.canned
              (Some (lit "secret")) false true Sample.three_games eq_refl)))).
Defined.

(** X16. A dataset that cannot be loaded is fatal to both scripts: the run
    ends with the exception of [read_csv], shows no answer and no data and
    sends no prompt, whatever the page and the inputs.  app.py stops right
    after its title, before the key is read. *)
Theorem load_failure_is_fatal (ucd : ucd_lower) (sort_values : sorter)
    (to_string : DataFrame -> pystr)
    (read_csv : pystr -> pyresult DataFrame)
    (connect : pystr -> pystr -> pyresult GenerativeModel)
    (service : GenerativeModel -> pystr -> pyresult pystr)
    (GEMINI_API_KEY : option pystr) (page : pystr) (show_data use_ai : bool) (query : pystr)
    (e : exn) :
  read_csv (lit "data/a_steam_data_2021_2025.csv") = Raise e ->
  AppScript.main ucd sort_values to_string read_csv connect service GEMINI_API_KEY
    page show_data use_ai query
  = ([Show Main (st_set_page_config (lit "Steam Games Dashboard") None (lit "wide"));
      Show Main (st_title (VIDEO_GAME :: lit " Steam Games Analytics & Chatbot"))],
     Raise e)
  /\ snd (ChatbotScript.main ucd sort_values to_string read_csv connect service GEMINI_API_KEY
            show_data use_ai query) = Raise e
  /\ prompts (fst (ChatbotScript.main ucd sort_values to_string read_csv connect service
      GEMINI_API_KEY show_data use_ai query)) = []
  /\ outputs (fst (ChatbotScript.main ucd sort_values to_string read_csv connect service
      GEMINI_API_KEY show_data use_ai query)) = [].
Proof.
  intros Hcsv. split; [now apply app_main_not_loaded | now apply chatbot_main_not_loaded].
Qed.

Lemma load_failure_is_fatal_witness :
  (fun _ : pystr => @Raise DataFrame (Exception (lit "No such file or directory")))
    (lit "data/a_steam_data_2021_2025.csv")
  = Raise (Exception (lit "No such file or directory"))
  /\ snd (ChatbotScript.main ucd_identity Sample.stable_sort Sample.to_string_rows
            (fun _ => Raise (Exception (lit "No such file or directory")))
            (fun _ name => Return {| model_name := name |}) Sample.canned
            (Some (lit "secret")) true true (lit "total games"))
     = Raise (Exception (lit "No such file or directory")).
Proof.
  split; [reflexivity|].
  exact (proj1 (proj2
           (load_failure_is_fatal ucd_identity Sample.stable_sort Sample.to_string_rows
              (fun _ => Raise (Exception (lit "No such file or directory")))
              (fun _ name => Return {| model_name := name |}) Sample.canned
              (Some (lit "secret")) (lit "Chatbot") true true (lit "total games")
              (Exception (lit "No such file or directory")) eq_refl))).
Defined.

Lemma app_dashboard_loaded (ucd : ucd_lower) (sort_values : sorter) (to_string : DataFrame -> pystr)
    (read_csv : pystr -> pyresult DataFrame)
    (connect : pystr -> pystr -> pyresult GenerativeModel)
    (service : GenerativeModel -> pystr -> pyresult pystr)
    (GEMINI_API_KEY : option pystr) (show_data use_ai : bool) (query : pystr)
    (df : DataFrame) :
  read_csv (lit "data/a_steam_data_2021_2025.csv") = Return df ->
  snd (AppScript.main ucd sort_values to_string read_csv connect service GEMINI_API_KEY
         (lit "Dashboard") show_data use_ai query) = snd (AppScript.dashboard_page sort_values df)
  /\ prompts (fst (AppScript.main ucd sort_values to_string read_csv connect service GEMINI_API_KEY
                     (lit "Dashboard") show_data use_ai query)) = []
  /\ outputs (fst (AppScript.main ucd sort_values to_string read_csv connect service GEMINI_API_KEY
                     (lit "Dashboard") show_data use_ai query))
     = outputs (fst (AppScript.dashboard_page sort_values df)).
Proof.
  intros Hcsv.
  destruct (app_main_loaded ucd sort_values to_string read_csv connect service GEMINI_API_KEY
              (lit "Dashboard") show_data use_ai query df
                  (AppScript.dashboard_page sort_values df) Hcsv
              ltac:(symmetry; apply page_is_dashboard)) as (E1 & E2 & E3).
  rewrite E1, E2, E3. repeat split. apply dashboard_observed.
Qed.

(** X17. The dashboard shows what the chatbot answers.  On a price column
    of numbers and when some row has a genre, the Dashboard page ends
    normally, sends nothing and shows the row count, the mean of the prices
    printed by [format_2f], the top genre and the bar chart of the games per
    year; the top genre is the one that the chatbot names for a "top genre"
    query, the average price the one of its "average price" answer, and the
    chart has the rows of its games-per-year table. *)
Theorem dashboard_shows_chatbot_values (ucd : ucd_lower) (sort_values : sorter)
    (to_string : DataFrame -> pystr)
    (read_csv : pystr -> pyresult DataFrame)
    (connect : pystr -> pystr -> pyresult GenerativeModel)
    (service : GenerativeModel -> pystr -> pyresult pystr)
    (GEMINI_API_KEY : option pystr) (show_data use_ai : bool) (query : pystr)
    (df : DataFrame) (g0 : pystr) :
  read_csv (lit "data/a_steam_data_2021_2025.csv") = Return df ->
  price_is_numeric df = true ->
  In (Some g0) (column genres df) ->
  sorts_descending sort_values ->
  exists top games,
    snd (AppScript.main ucd sort_values to_string read_csv connect service GEMINI_API_KEY
           (lit "Dashboard") show_data use_ai query) = Return tt
    /\ prompts (fst (AppScript.main ucd sort_values to_string read_csv connect service
                       GEMINI_API_KEY (lit "Dashboard") show_data use_ai query)) = []
    /\ outputs (fst (AppScript.main ucd sort_values to_string read_csv connect service
                       GEMINI_API_KEY (lit "Dashboard") show_data use_ai query))
       = [st_metric (VIDEO_GAME :: lit " Total Games") (str_nat (List.length df));
          st_metric (HEAVY_DOLLAR_SIGN :: lit " Average Price")
            (lit "$" ++ format_2f (mean (column price df)));
          st_metric (TROPHY :: lit " Top Genre") top;
          st_plotly_chart_bar (lit "Games Released per Year")
            (lit "release_year") (lit "count") games]
    /\ (forall q, Spec.classify ucd q = Spec.TopGenre ->
          App.simple_chatbot ucd sort_values df q
          = Return (Text (TROPHY :: lit " Top Genre: " ++ top)))
    /\ (forall q, Spec.classify ucd q = Spec.AveragePrice ->
          App.simple_chatbot ucd sort_values df q
          = Return (Text (HEAVY_DOLLAR_SIGN :: lit " Average Price: $"
                            ++ format_2f (mean (column price df)))))
    /\ (forall q, Spec.classify ucd q = Spec.GamesPerYear ->
          App.simple_chatbot ucd sort_values df q = Return (Frame games)).
Proof.
  intros Hcsv Hn Hg Hsort.
  destruct (app_dashboard_loaded ucd sort_values to_string read_csv connect service
              GEMINI_API_KEY show_data use_ai query df Hcsv) as (E1 & E2 & E3).
  destruct (top_value pystr pystr_eq_dec sort_values _ _ Hsort Hg) as (top & Et & _).
  assert (Em : price_mean df = Return (mean (column price df))).
  { unfold price_mean. now rewrite Hn. }
  pose proof (proj2 (dashboard_observed sort_values df)) as O.
  rewrite Em, Et in O. destruct O as [O1 O2].
  exists top, (groupby_size (column release_year df)).
  rewrite E1, E2, E3, O1, O2. repeat split.
  - intros q Hq. rewrite app_simple_chatbot_respond, Hq. cbn [Spec.respond].
    now rewrite Et.
  - intros q Hq. rewrite app_simple_chatbot_respond, Hq. cbn [Spec.respond].
    now rewrite Em.
  - intros q Hq. now rewrite app_simple_chatbot_respond, Hq.
Qed.

Lemma dashboard_shows_chatbot_values_witness :
  (fun _ : pystr => Return Sample.three_games) (lit "data/a_steam_data_2021_2025.csv")
  = Return Sample.three_games
  /\ price_is_numeric Sample.three_games = true
  /\ In (Some (lit "RPG")) (column genres Sample.three_games)
  /\ sorts_descending Sample.stable_sort
  /\ exists top games,
       snd (AppScript.main ucd_identity Sample.stable_sort Sample.to_string_rows
              (fun _ => Return Sample.three_games)
              (fun _ name => Return {| model_name := name |}) Sample.canned
              None (lit "Dashboard") false false []) = Return tt
       /\ App.simple_chatbot ucd_identity Sample.stable_sort Sample.three_games
            (lit "top genre")
          = Return (Text (TROPHY :: lit " Top Genre: " ++ top))
       /\ App.simple_chatbot ucd_identity Sample.stable_sort Sample.three_games
            (lit "games per year")
          = Return (Frame games).
Proof.
  split; [reflexivity|]. split; [reflexivity|]. split; [right; now left|].
  split; [exact stable_sort_descending|].
  destruct (dashboard_shows_chatbot_values ucd_identity Sample.stable_sort
              Sample.to_string_rows
              (fun _ => Return Sample.three_games)
              (fun _ name => Return {| model_name := name |}) Sample.canned
              None false false [] Sample.three_games (lit "RPG") eq_refl eq_refl
              (or_intror (or_introl eq_refl)) stable_sort_descending)
    as (top & games & R & _ & _ & Hg & _ & Hy).
  exists top, games. split; [exact R|]. split; [now apply Hg | now apply Hy].
Defined.

(** X18. The Dashboard page fails in two ways.  On a price column of text it
    ends with the TypeError of [mean] after the first metric.  On a price
    column of numbers and without a genre in the dataset it ends with the
    ValueError of [idxmax] after the first two metrics.  In neither case the
    top genre or the chart of the games per year is shown. *)
Theorem dashboard_fails_without_genres (ucd : ucd_lower) (sort_values : sorter)
    (to_string : DataFrame -> pystr)
    (read_csv : pystr -> pyresult DataFrame)
    (connect : pystr -> pystr -> pyresult GenerativeModel)
    (service : GenerativeModel -> pystr -> pyresult pystr)
    (GEMINI_API_KEY : option pystr) (show_data use_ai : bool) (query : pystr)
    (df : DataFrame) :
  read_csv (lit "data/a_steam_data_2021_2025.csv") = Return df ->
  sorts_descending sort_values ->
  (price_is_numeric df = false ->
   exists msg,
     snd (AppScript.main ucd sort_values to_string read_csv connect service GEMINI_API_KEY
            (lit "Dashboard") show_data use_ai query) = Raise (TypeError msg)
     /\ outputs (fst (AppScript.main ucd sort_values to_string read_csv connect service
                        GEMINI_API_KEY (lit "Dashboard") show_data use_ai query))
        = [st_metric (VIDEO_GAME :: lit " Total Games") (str_nat (List.length df))])
  /\ (price_is_numeric df = true ->
      (forall g, ~ In (Some g) (column genres df)) ->
      snd (AppScript.main ucd sort_values to_string read_csv connect service GEMINI_API_KEY
             (lit "Dashboard") show_data use_ai query)
      = Raise (ValueError (lit "attempt to get argmax of an empty sequence"))
      /\ outputs (fst (AppScript.main ucd sort_values to_string read_csv connect service
                         GEMINI_API_KEY (lit "Dashboard") show_data use_ai query))
         = [st_metric (VIDEO_GAME :: lit " Total Games") (str_nat (List.length df));
            st_metric (HEAVY_DOLLAR_SIGN :: lit " Average Price")
              (lit "$" ++ format_2f (mean (column price df)))]).
Proof.
  intros Hcsv Hsort.
  destruct (app_dashboard_loaded ucd sort_values to_string read_csv connect service
              GEMINI_API_KEY show_data use_ai query df Hcsv) as (E1 & _ & E3).
  pose proof (proj2 (dashboard_observed sort_values df)) as O.
  rewrite E1, E3. split.
  - intros N. destruct (price_mean_cases df) as [[N' _]|[_ [msg Em]]]; [congruence|].
    rewrite Em in O. now exists msg.
  - intros N Hn. unfold price_mean in O. rewrite N in O.
    now rewrite (top_value_missing pystr pystr_eq_dec sort_values _ Hsort Hn) in O.
Qed.

Lemma dashboard_fails_without_genres_witness :
  (fun _ : pystr => @Return DataFrame []) (lit "data/a_steam_data_2021_2025.csv") = Return []
  /\ sorts_descending Sample.stable_sort
  /\ price_is_numeric [] = true
  /\ (forall g, ~ In (Some g) (column genres []))
  /\ outputs (fst (AppScript.main ucd_identity Sample.stable_sort Sample.to_string_rows
                     (fun _ => Return [])
                     (fun _ name => Return {| model_name := name |}) Sample.canned
                     None (lit "Dashboard") false false []))
     = [st_metric (VIDEO_GAME :: lit " Total Games") (lit "0");
        st_metric (HEAVY_DOLLAR_SIGN :: lit " Average Price") (lit "$nan")].
Proof.
  split; [reflexivity|]. split; [exact stable_sort_descending|]. split; [reflexivity|].
  split; [intros g []|].
  exact (proj2 (proj2 (dashboard_fails_without_genres ucd_identity Sample.stable_sort
                         Sample.to_string_rows
                         (fun _ => Return [])
                         (fun _ name => Return {| model_name := name |}) Sample.canned
                         None false false [] [] eq_refl stable_sort_descending)
                  eq_refl (fun g H => H))).
Defined.

(** The Dashboard page on a dataset whose price column holds the text "Free":
    the row count is shown, then the page ends with TypeError. *)
Example dashboard_text_price :
  AppScript.dashboard_page Sample.stable_sort
    [Sample.priced_as_text (lit "Free") (lit "RPG")]
  = ([Show Main (st_header (BAR_CHART :: lit " Steam Games Dashboard"));
      Show (Column 0) (st_metric (VIDEO_GAME :: lit " Total Games") (lit "1"))],
     Raise (TypeError (lit "Could not convert string 'Free' to numeric"))).
Proof. reflexivity. Qed.

(** X19. The Dataset page always renders: whatever the rows hold, it ends
    normally, sends nothing and shows one table, the first 50 rows of the
    dataset or all of them if there are fewer. *)
Theorem dataset_page_shows_first_50 (ucd : ucd_lower) (sort_values : sorter)
    (to_string : DataFrame -> pystr)
    (read_csv : pystr -> pyresult DataFrame)
    (connect : pystr -> pystr -> pyresult GenerativeModel)
    (service : GenerativeModel -> pystr -> pyresult pystr)
    (GEMINI_API_KEY : option pystr) (show_data use_ai : bool) (query : pystr)
    (df : DataFrame) :
  read_csv (lit "data/a_steam_data_2021_2025.csv") = Return df ->
  exists shown rest,
    snd (AppScript.main ucd sort_values to_string read_csv connect service GEMINI_API_KEY
           (lit "Dataset") show_data use_ai query) = Return tt
    /\ prompts (fst (AppScript.main ucd sort_values to_string read_csv connect service
        GEMINI_API_KEY (lit "Dataset") show_data use_ai query)) = []
    /\ outputs (fst (AppScript.main ucd sort_values to_string read_csv connect service
        GEMINI_API_KEY (lit "Dataset") show_data use_ai query)) = [st_dataframe shown]
    /\ df = shown ++ rest
    /\ List.length shown = Nat.min 50 (List.length df).
Proof.
  intros Hcsv.
  destruct (app_main_loaded ucd sort_values to_string read_csv connect service GEMINI_API_KEY
              (lit "Dataset") show_data use_ai query df (AppScript.dataset_page df) Hcsv
              ltac:(symmetry; apply page_is_dataset)) as (E1 & E2 & E3).
  exists (firstn 50 df), (skipn 50 df). rewrite E1, E2, E3, dataset_observed.
  repeat split.
  - symmetry. apply firstn_skipn.
  - apply length_firstn.
Qed.

Lemma dataset_page_shows_first_50_witness :
  (fun _ : pystr => Return [Sample.blank 5]) (lit "data/a_steam_data_2021_2025.csv")
  = Return [Sample.blank 5]
  /\ exists shown rest,
       snd (AppScript.main ucd_identity Sample.stable_sort Sample.to_string_rows
              (fun _ => Return [Sample.blank 5])
              (fun _ name => Return {| model_name := name |}) Sample.canned
              None (lit "Dataset") false false []) = Return tt
       /\ [Sample.blank 5] = shown ++ rest.
Proof.
  split; [reflexivity|].
  destruct (dataset_page_shows_first_50 ucd_identity Sample.stable_sort Sample.to_string_rows
              (fun _ => Return [Sample.blank 5])
              (fun _ name => Return {| model_name := name |}) Sample.canned
              None false false [] [Sample.blank 5] eq_refl)
    as (shown & rest & R & _ & _ & E & _).
  exists shown, rest. now split.
Defined.
